(** * Transcript service: qualification scoring

    A shallow embedding of the transcript service of the lead qualifier
    (the module that exports [extractQualificationData]) and of the
    runtime configuration store it reads, with the properties of the
    qualification pipeline: cold-signal short-circuits, the language-model
    path with its response parser and sanitizer, and the keyword fallback.

    Conventions of the embedding.
    - A JavaScript string is a [string]: each [ascii] stands for one UTF-16
      code unit of the Latin-1 range, so [length] is [.length].
    - [duration] is an integer number of seconds ([Z]); the webhook handler
      computes it with [Math.round]. [null] and [undefined] are [None].
    - A value returned by [JSON.parse] is a [Json]; its numbers are exact
      rationals, which include every finite double, and [Math.round] and
      the comparisons are exact on them.
    - A thrown exception is the left injection of [Exc]; the requests sent
      to the language model are recorded in a list. *)

From Stdlib Require Import String Ascii List ZArith QArith Qround Bool Lia Lqa.
From Stdlib Require Import DecimalString.
Import ListNotations.

Open Scope string_scope.
Open Scope Z_scope.

(** ** JavaScript strings *)

Module JsString.

(** WhiteSpace and LineTerminator code units below 256: what
    [String.prototype.trim] strips and what [\s] matches. *)
Definition isWhiteSpace (c : ascii) : bool :=
  let n := N_of_ascii c in
  ((9 <=? n) && (n <=? 13) || (n =? 32) || (n =? 160))%N.

Fixpoint trimStart (s : string) : string :=
  match s with
  | EmptyString => EmptyString
  | String c rest => if isWhiteSpace c then trimStart rest else s
  end.

Fixpoint trimEnd (s : string) : string :=
  match s with
  | EmptyString => EmptyString
  | String c rest =>
      match trimEnd rest with
      | EmptyString => if isWhiteSpace c then EmptyString else String c EmptyString
      | kept => String c kept
      end
  end.

Definition trim (s : string) : string := trimEnd (trimStart s).

(** [String.prototype.toLowerCase] on one code unit: A-Z and the Latin-1
    capitals (all of 0xC0-0xDE but the multiplication sign) move up by 32. *)
Definition lowerChar (c : ascii) : ascii :=
  let n := N_of_ascii c in
  if ((65 <=? n) && (n <=? 90) || (192 <=? n) && (n <=? 222) && negb (n =? 215))%N
  then ascii_of_N (n + 32)
  else c.

Fixpoint toLowerCase (s : string) : string :=
  match s with
  | EmptyString => EmptyString
  | String c rest => String (lowerChar c) (toLowerCase rest)
  end.

(** [s.includes(p)]: [p] occurs in [s] at some position. *)
Fixpoint includes (s p : string) : bool :=
  prefix p s ||
  match s with
  | EmptyString => false
  | String _ rest => includes rest p
  end.

(** The truthiness of a string value: every string but the empty one. *)
Definition truthy (s : string) : bool :=
  match s with
  | EmptyString => false
  | String _ _ => true
  end.

Fixpoint drop (n : nat) (s : string) : string :=
  match n, s with
  | O, _ => s
  | S _, EmptyString => EmptyString
  | S n', String _ rest => drop n' rest
  end.

(** The text that follows the first occurrence of [pat] in [s]. *)
Fixpoint afterFirst (pat s : string) : option string :=
  if prefix pat s then Some (drop (String.length pat) s)
  else match s with
       | EmptyString => None
       | String _ rest => afterFirst pat rest
       end.

(** The text that precedes the first occurrence of [pat] in [s]. *)
Fixpoint beforeFirst (pat s : string) : option string :=
  if prefix pat s then Some EmptyString
  else match s with
       | EmptyString => None
       | String c rest => option_map (String c) (beforeFirst pat rest)
       end.

(** The suffix of [s] that starts at the first occurrence of the character [c]. *)
Fixpoint fromFirstChar (c : ascii) (s : string) : option string :=
  match s with
  | EmptyString => None
  | String a rest => if Ascii.eqb a c then Some s else fromFirstChar c rest
  end.

(** The prefix of [s] that ends at the last occurrence of the character [c]. *)
Fixpoint throughLastChar (c : ascii) (s : string) : option string :=
  match s with
  | EmptyString => None
  | String a rest =>
      match throughLastChar c rest with
      | Some kept => Some (String a kept)
      | None => if Ascii.eqb a c then Some (String a EmptyString) else None
      end
  end.

End JsString.

Import JsString.

(** ** JSON values and [JSON.parse]

    [JSON.parse] belongs to the JavaScript runtime. It is modelled by a
    lexer that reads one code unit at a time and a pushdown recogniser over
    the tokens, both by structural recursion on their input, following the
    JSON grammar of ECMA-404: any value at top level, the four JSON
    blanks, no leading zero, no trailing comma, no control character in a
    string, the last of duplicate keys wins at lookup. A number literal
    denotes its exact rational value. *)

Module JSON.

#[warnings="-register-all"] Inductive Json : Type :=
| JNull
| JBool (b : bool)
| JNum (q : Q)
| JStr (s : string)
| JArr (elems : list Json)
| JObj (fields : list (string * Json)).

Inductive token : Type :=
| TLBrace | TRBrace | TLBracket | TRBracket | TColon | TComma
| TString (s : string)
| TNumber (q : Q)
| TTrue | TFalse | TNull.

(** The digits read so far of a number literal. *)
Record numacc : Type := mkNum {
  negative : bool;
  mantissa : Z;
  fracDigits : Z;
  expNegative : bool;
  exponent : Z
}.

Inductive numphase : Type :=
| NMinus | NZero | NInt | NDot | NFrac | NE | NESign | NExp.

Inductive lexstate : Type :=
| LIdle
| LString (acc : string)
| LEscape (acc : string)
| LUnicode (pending : nat) (code : N) (acc : string)
| LNumber (ph : numphase) (a : numacc)
| LLiteral (rest : string) (t : token).

Definition doubleQuote : ascii := ascii_of_N 34.

Definition isJsonBlank (c : ascii) : bool :=
  let n := N_of_ascii c in ((n =? 9) || (n =? 10) || (n =? 13) || (n =? 32))%N.

Definition digitOf (c : ascii) : option Z :=
  let n := N_of_ascii c in
  if ((48 <=? n) && (n <=? 57))%N then Some (Z.of_N n - 48) else None.

Definition hexDigitOf (c : ascii) : option N :=
  let n := N_of_ascii c in
  if ((48 <=? n) && (n <=? 57))%N then Some (n - 48)%N
  else if ((65 <=? n) && (n <=? 70))%N then Some (n - 55)%N
  else if ((97 <=? n) && (n <=? 102))%N then Some (n - 87)%N
  else None.

(** The code unit written [\uXXXX]; one outside Latin-1 has no [ascii] and
    is read as a question mark, which keeps the string non-empty and
    different from every intent label. *)
Definition codeUnit (code : N) : ascii :=
  if (code <? 256)%N then ascii_of_N code else "?"%char.

Definition snoc (s : string) (c : ascii) : string := s ++ String c EmptyString.

Definition numValue (a : numacc) : Q :=
  let m := if negative a then - mantissa a else mantissa a in
  let e := (if expNegative a then - exponent a else exponent a) - fracDigits a in
  if 0 <=? e then inject_Z (m * 10 ^ e) else Qmake m (Z.to_pos (10 ^ (- e))).

Definition numComplete (ph : numphase) : bool :=
  match ph with
  | NZero | NInt | NFrac | NExp => true
  | NMinus | NDot | NE | NESign => false
  end.

Definition startNum (neg : bool) (d : Z) : numacc := mkNum neg d 0 false 0.

Definition idleStep (c : ascii) : option (lexstate * list token) :=
  if isJsonBlank c then Some (LIdle, [])
  else if Ascii.eqb c "{" then Some (LIdle, [TLBrace])
  else if Ascii.eqb c "}" then Some (LIdle, [TRBrace])
  else if Ascii.eqb c "[" then Some (LIdle, [TLBracket])
  else if Ascii.eqb c "]" then Some (LIdle, [TRBracket])
  else if Ascii.eqb c ":" then Some (LIdle, [TColon])
  else if Ascii.eqb c "," then Some (LIdle, [TComma])
  else if Ascii.eqb c doubleQuote then Some (LString EmptyString, [])
  else if Ascii.eqb c "-" then Some (LNumber NMinus (startNum true 0), [])
  else if Ascii.eqb c "t" then Some (LLiteral "rue" TTrue, [])
  else if Ascii.eqb c "f" then Some (LLiteral "alse" TFalse, [])
  else if Ascii.eqb c "n" then Some (LLiteral "ull" TNull, [])
  else match digitOf c with
       | Some d => Some (LNumber (if d =? 0 then NZero else NInt) (startNum false d), [])
       | None => None
       end.

(** A character that cannot extend a number ends it when the digits read
    form a literal; the character is then read afresh. *)
Definition endNumber (ph : numphase) (a : numacc) (c : ascii) : option (lexstate * list token) :=
  if numComplete ph then
    match idleStep c with
    | Some (st, toks) => Some (st, TNumber (numValue a) :: toks)
    | None => None
    end
  else None.

Definition pushDigit (a : numacc) (d : Z) : numacc :=
  mkNum (negative a) (mantissa a * 10 + d) (fracDigits a) (expNegative a) (exponent a).

Definition pushFrac (a : numacc) (d : Z) : numacc :=
  mkNum (negative a) (mantissa a * 10 + d) (fracDigits a + 1) (expNegative a) (exponent a).

Definition pushExp (a : numacc) (d : Z) : numacc :=
  mkNum (negative a) (mantissa a) (fracDigits a) (expNegative a) (exponent a * 10 + d).

Definition setExpSign (a : numacc) (neg : bool) : numacc :=
  mkNum (negative a) (mantissa a) (fracDigits a) neg (exponent a).

Definition numberStep (ph : numphase) (a : numacc) (c : ascii) : option (lexstate * list token) :=
  match digitOf c with
  | Some d =>
      match ph with
      | NMinus => Some (LNumber (if d =? 0 then NZero else NInt) (pushDigit a d), [])
      | NZero => endNumber ph a c
      | NInt => Some (LNumber NInt (pushDigit a d), [])
      | NDot | NFrac => Some (LNumber NFrac (pushFrac a d), [])
      | NE | NESign | NExp => Some (LNumber NExp (pushExp a d), [])
      end
  | None =>
      if Ascii.eqb c "." then
        match ph with
        | NZero | NInt => Some (LNumber NDot a, [])
        | _ => None
        end
      else if Ascii.eqb c "e" || Ascii.eqb c "E" then
        match ph with
        | NZero | NInt | NFrac => Some (LNumber NE a, [])
        | _ => None
        end
      else if Ascii.eqb c "+" || Ascii.eqb c "-" then
        match ph with
        | NE => Some (LNumber NESign (setExpSign a (Ascii.eqb c "-")), [])
        | _ => endNumber ph a c
        end
      else endNumber ph a c
  end.

Definition escapeStep (acc : string) (c : ascii) : option (lexstate * list token) :=
  if Ascii.eqb c doubleQuote || Ascii.eqb c "\" || Ascii.eqb c "/" then Some (LString (snoc acc c), [])
  else if Ascii.eqb c "b" then Some (LString (snoc acc (ascii_of_N 8)), [])
  else if Ascii.eqb c "f" then Some (LString (snoc acc (ascii_of_N 12)), [])
  else if Ascii.eqb c "n" then Some (LString (snoc acc (ascii_of_N 10)), [])
  else if Ascii.eqb c "r" then Some (LString (snoc acc (ascii_of_N 13)), [])
  else if Ascii.eqb c "t" then Some (LString (snoc acc (ascii_of_N 9)), [])
  else if Ascii.eqb c "u" then Some (LUnicode 4 0%N acc, [])
  else None.

Definition lexStep (st : lexstate) (c : ascii) : option (lexstate * list token) :=
  match st with
  | LIdle => idleStep c
  | LString acc =>
      if Ascii.eqb c doubleQuote then Some (LIdle, [TString acc])
      else if Ascii.eqb c "\" then Some (LEscape acc, [])
      else if (N_of_ascii c <? 32)%N then None
      else Some (LString (snoc acc c), [])
  | LEscape acc => escapeStep acc c
  | LUnicode pending code acc =>
      match hexDigitOf c with
      | Some d =>
          let code' := (code * 16 + d)%N in
          match pending with
          | S (S fewer) => Some (LUnicode (S fewer) code' acc, [])
          | _ => Some (LString (snoc acc (codeUnit code')), [])
          end
      | None => None
      end
  | LNumber ph a => numberStep ph a c
  | LLiteral rest t =>
      match rest with
      | String c' EmptyString => if Ascii.eqb c c' then Some (LIdle, [t]) else None
      | String c' rest' => if Ascii.eqb c c' then Some (LLiteral rest' t, []) else None
      | EmptyString => None
      end
  end.

Fixpoint lexFrom (st : lexstate) (s : string) : option (list token) :=
  match s with
  | EmptyString =>
      match st with
      | LIdle => Some []
      | LNumber ph a => if numComplete ph then Some [TNumber (numValue a)] else None
      | _ => None
      end
  | String c rest =>
      match lexStep st c with
      | Some (st', toks) =>
          match lexFrom st' rest with
          | Some more => Some (toks ++ more)%list
          | None => None
          end
      | None => None
      end
  end.

Definition lex (s : string) : option (list token) := lexFrom LIdle s.

(** The containers being read, innermost first. *)
Inductive frame : Type :=
| FArray (elems : list Json)
| FObject (fields : list (string * Json))
| FField (fields : list (string * Json)) (key : string).

Inductive pmode : Type :=
| MValue | MValueOrClose | MKeyOrClose | MKey | MColon | MAfter
| MDone (v : Json).

Definition pushValue (v : Json) (stack : list frame) : option (pmode * list frame) :=
  match stack with
  | [] => Some (MDone v, [])
  | FArray elems :: below => Some (MAfter, FArray (elems ++ [v])%list :: below)
  | FField fields key :: below => Some (MAfter, FObject (fields ++ [(key, v)])%list :: below)
  | FObject _ :: _ => None
  end.

Definition valueStep (closable : bool) (stack : list frame) (t : token) : option (pmode * list frame) :=
  match t with
  | TString s => pushValue (JStr s) stack
  | TNumber q => pushValue (JNum q) stack
  | TTrue => pushValue (JBool true) stack
  | TFalse => pushValue (JBool false) stack
  | TNull => pushValue JNull stack
  | TLBracket => Some (MValueOrClose, FArray [] :: stack)
  | TLBrace => Some (MKeyOrClose, FObject [] :: stack)
  | TRBracket =>
      match closable, stack with
      | true, FArray elems :: below => pushValue (JArr elems) below
      | _, _ => None
      end
  | _ => None
  end.

Definition keyStep (closable : bool) (stack : list frame) (t : token) : option (pmode * list frame) :=
  match t, stack with
  | TString key, FObject fields :: below => Some (MColon, FField fields key :: below)
  | TRBrace, FObject fields :: below =>
      if closable then pushValue (JObj fields) below else None
  | _, _ => None
  end.

Definition afterStep (stack : list frame) (t : token) : option (pmode * list frame) :=
  match t, stack with
  | TComma, FArray _ :: _ => Some (MValue, stack)
  | TComma, FObject _ :: _ => Some (MKey, stack)
  | TRBracket, FArray elems :: below => pushValue (JArr elems) below
  | TRBrace, FObject fields :: below => pushValue (JObj fields) below
  | _, _ => None
  end.

Definition parseStep (mode : pmode) (stack : list frame) (t : token) : option (pmode * list frame) :=
  match mode with
  | MValue => valueStep false stack t
  | MValueOrClose => valueStep true stack t
  | MKeyOrClose => keyStep true stack t
  | MKey => keyStep false stack t
  | MColon => match t with TColon => Some (MValue, stack) | _ => None end
  | MAfter => afterStep stack t
  | MDone _ => None
  end.

Fixpoint parseTokens (mode : pmode) (stack : list frame) (toks : list token) : option Json :=
  match toks with
  | [] => match mode with MDone v => Some v | _ => None end
  | t :: rest =>
      match parseStep mode stack t with
      | Some (mode', stack') => parseTokens mode' stack' rest
      | None => None
      end
  end.

(** [JSON.parse(text)]; [None] stands for the SyntaxError it throws. *)
Definition parse (text : string) : option Json :=
  match lex text with
  | Some toks => parseTokens MValue [] toks
  | None => None
  end.

(** Property read [v.key] on a non-null value: only an object has own
    properties under the names read here, and the last of equal keys wins. *)
Fixpoint lookup (key : string) (fields : list (string * Json)) : option Json :=
  match fields with
  | [] => None
  | (k, v) :: rest =>
      match lookup key rest with
      | Some later => Some later
      | None => if String.eqb k key then Some v else None
      end
  end.

Definition getField (key : string) (v : Json) : option Json :=
  match v with
  | JObj fields => lookup key fields
  | _ => None
  end.

(** ToBoolean of a value that may be [undefined] ([None]). *)
Definition truthyValue (v : option Json) : bool :=
  match v with
  | None => false
  | Some JNull => false
  | Some (JBool b) => b
  | Some (JNum q) => negb (Qeq_bool q 0)
  | Some (JStr s) => truthy s
  | Some (JArr _) => true
  | Some (JObj _) => true
  end.

End JSON.

Import JSON.

(** ** The runtime configuration store *)

Module RuntimeConfig.

Record RuntimeConfig : Type := mkConfig {
  vapiApiKey : option string;
  vapiWebhookSecret : option string;
  vapiPhoneNumberId : option string;
  anthropicApiKey : option string
}.

(** The truthiness of a key of type [string | null]. *)
Definition present (key : option string) : bool :=
  match key with
  | Some s => truthy s
  | None => false
  end.

Definition isConfigured (config : RuntimeConfig) : bool :=
  present (vapiApiKey config) && present (vapiPhoneNumberId config) &&
  present (anthropicApiKey config).

End RuntimeConfig.

Import RuntimeConfig.

(** ** The transcript service *)

Module TranscriptService.

Record CallContext : Type := mkContext {
  duration : option Z;
  endedReason : option string;
  transcript : option string
}.

(** The object handed back to the caller. A text field holds whatever
    value the code puts there: the sanitizer passes a truthy value of the
    parsed object through unchanged, so its type is [Json]. The intent is
    the string the code returns. *)
Record QualificationResult : Type := mkResult {
  motivation : Json;
  timeline : Json;
  budget : Json;
  authority : Json;
  pastExperience : Json;
  intent : string;
  qualificationScore : Z
}.

Inductive error : Type :=
| ConfigError
| ProviderError
| TypeError.

Definition Exc (A : Type) : Type := (error + A)%type.

Inductive ContentBlock : Type :=
| TextBlock (text : string)
| OtherBlock.

(** What one [messages.create] request is built from: the prompt embeds
    the call context and the truncated transcript. *)
Record MessageRequest : Type := mkRequest {
  promptContext : CallContext;
  promptTranscript : string
}.

(** The provider's answer to a request: a thrown error or the content
    blocks of the response. *)
Definition Provider : Type := MessageRequest -> Exc (list ContentBlock).

(** Computations that may throw and that record the requests sent. *)
Definition M (A : Type) : Type := list MessageRequest -> Exc A * list MessageRequest.

Definition ret {A : Type} (a : A) : M A := fun sent => (inr a, sent).

Definition bind {A B : Type} (m : M A) (k : A -> M B) : M B :=
  fun sent =>
    match m sent with
    | (inr a, sent') => k a sent'
    | (inl e, sent') => (inl e, sent')
    end.

Definition lift {A : Type} (r : Exc A) : M A := fun sent => (r, sent).

Definition tryCatch {A : Type} (body : M A) (handler : error -> M A) : M A :=
  fun sent =>
    match body sent with
    | (inl e, sent') => handler e sent'
    | done => done
    end.

Notation "x <- m ;; k" := (bind m (fun x => k))
  (at level 61, m at next level, right associativity).

Definition messagesCreate (provider : Provider) (request : MessageRequest) : M (list ContentBlock) :=
  fun sent => (provider request, (sent ++ [request])%list).

Definition getAnthropicClient (config : RuntimeConfig) : Exc unit :=
  if negb (present (anthropicApiKey config)) then inl ConfigError else inr tt.

Definition getColdLeadResult (motivation : string) : QualificationResult :=
  mkResult (JStr motivation) (JStr "Unknown") (JStr "Unknown") (JStr "Unknown")
           (JStr "Unknown") "cold" 10.

(** [endedReason === label] *)
Definition reasonIs (reason : option string) (label : string) : bool :=
  match reason with
  | Some r => String.eqb r label
  | None => false
  end.

(** [duration !== undefined && duration !== null && duration < bound] *)
Definition under (duration : option Z) (bound : Z) : bool :=
  match duration with
  | Some d => d <? bound
  | None => false
  end.

Definition checkForColdLeadSignals (context : CallContext) : option QualificationResult :=
  if under (duration context) 15 then
    Some (getColdLeadResult "Call ended immediately - no engagement")
  else if reasonIs (endedReason context) "customer-ended-call" && under (duration context) 30 then
    Some (getColdLeadResult "Customer hung up early - not interested")
  else if reasonIs (endedReason context) "silence-timed-out" then
    Some (mkResult (JStr "No engagement - call timed out due to silence") (JStr "Unknown")
                   (JStr "Unknown") (JStr "Unknown") (JStr "Unknown") "cold" 5)
  else if reasonIs (endedReason context) "voicemail-reached" then
    Some (mkResult (JStr "Could not reach - went to voicemail") (JStr "Unknown")
                   (JStr "Unknown") (JStr "Unknown") (JStr "Unknown") "cold" 15)
  else if reasonIs (endedReason context) "pipeline-error-exceeded-max-retries"
          || reasonIs (endedReason context) "phone-call-provider-closed-websocket" then
    Some (mkResult (JStr "Call failed due to technical issues") (JStr "Unknown")
                   (JStr "Unknown") (JStr "Unknown") (JStr "Unknown") "cold" 10)
  else None.

Definition positiveSignals : list string :=
  ["interested"; "need"; "want"; "looking for"; "excited"; "great"; "perfect"; "yes";
   "tell me more"].

Definition negativeSignals : list string :=
  ["not interested"; "maybe later"; "not sure"; "too expensive"; "busy"; "no thanks";
   "goodbye"; "not right now"].

(** One [for] loop over a signal list, updating the running score. *)
Definition scanSignals (lowerTranscript : string) (delta : Z) (signals : list string) (score : Z) : Z :=
  fold_left (fun score signal => if includes lowerTranscript signal then score + delta else score)
            signals score.

(** The score of the fallback before it is clamped. *)
Definition fallbackRawScore (context : CallContext) : Z :=
  let score := 30 in
  let score :=
    match duration context with
    | Some d =>
        if d <? 30 then score - 20
        else if d <? 60 then score - 10
        else if 180 <? d then score + 15
        else if 120 <? d then score + 10
        else score
    | None => score
    end in
  let score :=
    if reasonIs (endedReason context) "customer-ended-call" then score - 15 else score in
  match transcript context with
  | Some t =>
      if truthy t && (0 <? String.length (trim t))%nat then
        let lowerTranscript := toLowerCase t in
        scanSignals lowerTranscript (-10) negativeSignals
          (scanSignals lowerTranscript 5 positiveSignals score)
      else score - 20
  | None => score - 20
  end.

Definition fallbackAnalysis (context : CallContext) : QualificationResult :=
  let score := Z.max 0 (Z.min 100 (fallbackRawScore context)) in
  let intent := if 60 <=? score then "hot" else if 35 <=? score then "warm" else "cold" in
  mkResult (JStr "Analysis performed without AI - limited data available")
           (JStr "Not determined") (JStr "Not determined") (JStr "Not determined")
           (JStr "Not determined") intent score.

Definition fence : string := "```".

(** The first capture group of [/```(?:json)?\s*([\s\S]*?)```/] on [text].
    A match starts at the first fence; the optional tag and the blanks are
    taken greedily, the group lazily up to the next fence. Giving back the
    tag or a blank never uncovers a fence, so nothing else can match. *)
Definition matchCodeBlock (text : string) : option string :=
  match afterFirst fence text with
  | Some rest =>
      let untagged := if prefix "json" rest then drop 4 rest else rest in
      beforeFirst fence (trimStart untagged)
  | None => None
  end.

(** The match of [/\{[\s\S]*\}/] on [text]: from the first opening brace
    through the last closing brace after it. *)
Definition matchObjectPattern (text : string) : option string :=
  match fromFirstChar "{" text with
  | Some opened => throughLastChar "}" opened
  | None => None
  end.

(** The second attempt of the parser: the content of a fenced block. *)
Definition parseCodeBlock (jsonText : string) : option Json :=
  match matchCodeBlock jsonText with
  | Some inner => if truthy inner then JSON.parse (trim inner) else None
  | None => None
  end.

(** The third attempt of the parser: the brace-delimited substring. *)
Definition parseObjectPattern (jsonText : string) : option Json :=
  match matchObjectPattern jsonText with
  | Some object => JSON.parse object
  | None => None
  end.

Definition parseQualificationJson (jsonText : string) : Json :=
  match JSON.parse jsonText with
  | Some parsed => parsed
  | None =>
      match parseCodeBlock jsonText with
      | Some parsed => parsed
      | None =>
          match parseObjectPattern jsonText with
          | Some parsed => parsed
          | None => JObj []
          end
      end
  end.

Definition validIntents : list string := ["hot"; "warm"; "cold"].

(** [Math.round]: the nearest integer, a tie going up. *)
Definition Math_round (q : Q) : Z := Qfloor (q + (1 # 2)).

(** [value || fallback] for a text field. *)
Definition orDefault (value : option Json) (fallback : string) : Json :=
  match value with
  | Some v => if truthyValue value then v else JStr fallback
  | None => JStr fallback
  end.

(** Reading a property of [null] throws a TypeError; every other parsed
    value can be read, and only an object has the properties read here. *)
Definition validateQualificationResult (result : Json) : Exc QualificationResult :=
  match result with
  | JNull => inl TypeError
  | _ =>
      let intent :=
        match getField "intent" result with
        | Some (JStr label) => if existsb (String.eqb label) validIntents then label else "cold"
        | _ => "cold"
        end in
      let score :=
        match getField "qualificationScore" result with
        | Some (JNum q) => q
        | _ => 0%Q
        end in
      let score := Z.max 0 (Z.min 100 (Math_round score)) in
      inr (mkResult (orDefault (getField "motivation" result) "Not identified during call")
                    (orDefault (getField "timeline" result) "Not discussed")
                    (orDefault (getField "budget" result) "Not discussed")
                    (orDefault (getField "authority" result) "Unknown")
                    (orDefault (getField "pastExperience" result) "Not discussed")
                    intent score)
  end.

Definition maxLength : nat := 15 * 1000.

Definition truncationMark : string := String (ascii_of_N 10) "...[transcript truncated]".

Definition isTextBlock (block : ContentBlock) : bool :=
  match block with
  | TextBlock _ => true
  | OtherBlock => false
  end.

(** The transcript as it is sent: cut to [maxLength] code units and marked
    when it is longer. *)
Definition truncateTranscript (cleanedTranscript : string) : string :=
  if (maxLength <? String.length cleanedTranscript)%nat
  then substring 0 maxLength cleanedTranscript ++ truncationMark
  else cleanedTranscript.

(** The body of the [try] block. *)
Definition analyseWithModel (config : RuntimeConfig) (provider : Provider) (context : CallContext) : M QualificationResult :=
  match transcript context with
  | Some t =>
      if negb (truthy t) || (String.length (trim t) =? 0)%nat then
        ret (getColdLeadResult "No conversation recorded")
      else
        let cleanedTranscript := trim t in
        let truncatedTranscript := truncateTranscript cleanedTranscript in
        _ <- lift (getAnthropicClient config) ;;
        response <- messagesCreate provider (mkRequest context truncatedTranscript) ;;
        match find isTextBlock response with
        | Some (TextBlock text) =>
            let jsonText := trim text in
            let result := parseQualificationJson jsonText in
            lift (validateQualificationResult result)
        | _ => ret (fallbackAnalysis context)
        end
  | None => ret (getColdLeadResult "No conversation recorded")
  end.

Definition extractQualificationData (config : RuntimeConfig) (provider : Provider) (context : CallContext) : M QualificationResult :=
  match checkForColdLeadSignals context with
  | Some coldLeadResult => ret coldLeadResult
  | None =>
      if negb (isConfigured config) then ret (fallbackAnalysis context)
      else tryCatch (analyseWithModel config provider context)
                    (fun _ => ret (fallbackAnalysis context))
  end.

(** One call of the service: what it hands back and the requests it sent. *)
Definition run {A : Type} (m : M A) : Exc A * list MessageRequest := m [].

End TranscriptService.

Import TranscriptService.

(** ** The vocabulary of the specification *)

(** The transcript is absent or empty after trimming. *)
Definition blankTranscript (transcript : option string) : bool :=
  match transcript with
  | Some t => negb (truthy (trim t))
  | None => true
  end.

(** No attempt of the response parser recovers a value from [jsonText]. *)
Definition unparseable (jsonText : string) : Prop :=
  JSON.parse jsonText = None /\ parseCodeBlock jsonText = None /\
  parseObjectPattern jsonText = None.

(** What the sanitizer makes of an object without any usable field. *)
Definition sanitizerDefaults : QualificationResult :=
  mkResult (JStr "Not identified during call") (JStr "Not discussed") (JStr "Not discussed")
           (JStr "Unknown") (JStr "Not discussed") "cold" 0.

(** A text field that is neither [null] nor the empty string. *)
Definition filled (v : Json) : Prop := v <> JNull /\ v <> JStr "".

Definition fullyPopulated (r : QualificationResult) : Prop :=
  filled (motivation r) /\ filled (timeline r) /\ filled (budget r) /\
  filled (authority r) /\ filled (pastExperience r).

(** The shape the specification promises of every result. *)
Definition wellFormed (r : QualificationResult) : Prop :=
  In (intent r) ["hot"; "warm"; "cold"] /\ 0 <= qualificationScore r <= 100 /\
  fullyPopulated r.

(** A property that is absent, [null] or the empty string. *)
Definition missing (v : option Json) : Prop :=
  v = None \/ v = Some JNull \/ v = Some (JStr "").

(** [n] is the integer nearest to [q], a tie going to the larger one. *)
Definition nearestInteger (n : Z) (q : Q) : Prop :=
  (inject_Z n - (1 # 2) <= q)%Q /\ (q < inject_Z n + (1 # 2))%Q.

Definition clamp (lo hi x : Z) : Z :=
  if x <? lo then lo else if hi <? x then hi else x.

(** *** The fallback score as the specification words it

    Base 30; the duration adjustment; the penalty for a call the customer
    ended; 5 for each positive keyword and minus 10 for each negative
    keyword found in the lowercased transcript, each counted once, when the
    transcript counts as non-empty, and minus 20 otherwise; the whole
    clamped to 0..100. What counts as a non-empty transcript is the
    parameter [nonEmpty]. *)

Definition specDurationAdjustment (duration : option Z) : Z :=
  match duration with
  | Some d =>
      if d <? 30 then -20
      else if d <? 60 then -10
      else if 180 <? d then 15
      else if 120 <? d then 10
      else 0
  | None => 0
  end.

Definition specEndedAdjustment (endedReason : option string) : Z :=
  match endedReason with
  | Some r => if String.eqb r "customer-ended-call" then -15 else 0
  | None => 0
  end.

Definition countPresent (text : string) (keywords : list string) : Z :=
  Z.of_nat (List.length (filter (includes text) keywords)).

Definition specTranscriptAdjustment (nonEmpty : string -> bool) (transcript : option string) : Z :=
  match transcript with
  | Some t =>
      if nonEmpty t
      then 5 * countPresent (toLowerCase t) positiveSignals
           - 10 * countPresent (toLowerCase t) negativeSignals
      else -20
  | None => -20
  end.

Definition specFallbackScore (nonEmpty : string -> bool) (context : CallContext) : Z :=
  clamp 0 100 (30 + specDurationAdjustment (duration context)
                  + specEndedAdjustment (endedReason context)
                  + specTranscriptAdjustment nonEmpty (transcript context)).

Definition specIntent (score : Z) : string :=
  if 60 <=? score then "hot" else if 35 <=? score then "warm" else "cold".

(** The keyword lists without the nested pair. *)
Definition otherPositiveSignals : list string :=
  ["need"; "want"; "looking for"; "excited"; "great"; "perfect"; "yes"; "tell me more"].

Definition otherNegativeSignals : list string :=
  ["maybe later"; "not sure"; "too expensive"; "busy"; "no thanks"; "goodbye";
   "not right now"].

(** The two readings of a non-empty transcript: at least one code unit,
    and at least one code unit that is not white space. *)
Definition nonEmptyText (t : string) : bool := truthy t.

Definition nonEmptyAfterTrim (t : string) : bool := truthy (trim t).

(** Every code unit of [s] is white space. *)
Fixpoint allWhiteSpace (s : string) : bool :=
  match s with
  | EmptyString => true
  | String c rest => isWhiteSpace c && allWhiteSpace rest
  end.

(** ** Sample inputs *)

Definition configured : RuntimeConfig :=
  mkConfig (Some "vapi-key") None (Some "phone-id") (Some "anthropic-key").

Definition answering (text : string) : Provider := fun _ => inr [TextBlock text].

Definition failing : Provider := fun _ => inl ProviderError.

Definition engagedCall : CallContext :=
  mkContext (Some 200) (Some "assistant-ended-call") (Some "Yes, we need it").

Definition hangUpAfter8 : CallContext :=
  mkContext (Some 8) (Some "customer-ended-call") (Some "Hello? Yes, I am interested.").


Definition whitespaceOnlyCall : CallContext :=
  mkContext (Some 200) None (Some " ").

Definition declinedCall : CallContext :=
  mkContext (Some 90) None (Some "Sorry, I am not interested").

Definition eagerCall : CallContext :=
  mkContext (Some 200) None
    (Some "Yes, I am interested and excited: we need and want this, we are looking for a great, perfect fit. Tell me more.").

Definition refusal : string := "I could not analyse this call.".

Definition quoted (s : string) : string :=
  String doubleQuote (s ++ String doubleQuote EmptyString).

Definition newline : string := String (ascii_of_N 10) EmptyString.

(** An answer that wraps its object in prose and a fenced block. *)
Definition fencedAnswer : string :=
  "Sure! Here's the analysis: ```json" ++ newline ++
  "{" ++ quoted "intent" ++ ":" ++ quoted "warm" ++ "," ++
  quoted "qualificationScore" ++ ":150}" ++ newline ++ "```".

(** A well-formed answer. *)
Definition plainAnswer : string :=
  "{" ++ quoted "motivation" ++ ": " ++ quoted "Replace a legacy CRM" ++ ", " ++
  quoted "intent" ++ ": " ++ quoted "hot" ++ ", " ++
  quoted "qualificationScore" ++ ": 92}".

(** ** The rest of the runtime configuration store *)

Module ConfigStore.

(** The store before anything is set. *)
Definition emptyConfig : RuntimeConfig := mkConfig None None None None.

(** The four variables of [process.env] the store reads. *)
Record Environment : Type := mkEnv {
  VAPI_API_KEY : option string;
  VAPI_WEBHOOK_SECRET : option string;
  VAPI_PHONE_NUMBER_ID : option string;
  ANTHROPIC_API_KEY : option string
}.

(** [value || null] *)
Definition orNull (value : option string) : option string :=
  match value with
  | Some s => if truthy s then Some s else None
  | None => None
  end.

(** Every key of the store is assigned, so the old store plays no part. *)
Definition initializeFromEnv (env : Environment) (config : RuntimeConfig) : RuntimeConfig :=
  mkConfig (orNull (VAPI_API_KEY env)) (orNull (VAPI_WEBHOOK_SECRET env))
           (orNull (VAPI_PHONE_NUMBER_ID env)) (orNull (ANTHROPIC_API_KEY env)).

(** A [Partial<RuntimeConfig>]: a key is [undefined] ([None]), [null]
    ([Some None]) or a string. *)
Record PartialConfig : Type := mkPartial {
  newVapiApiKey : option (option string);
  newVapiWebhookSecret : option (option string);
  newVapiPhoneNumberId : option (option string);
  newAnthropicApiKey : option (option string)
}.

(** [if (update !== undefined) current = update] *)
Definition assign (update : option (option string)) (current : option string) : option string :=
  match update with
  | Some value => value
  | None => current
  end.

Definition setConfig (newConfig : PartialConfig) (config : RuntimeConfig) : RuntimeConfig :=
  mkConfig (assign (newVapiApiKey newConfig) (vapiApiKey config))
           (assign (newVapiWebhookSecret newConfig) (vapiWebhookSecret config))
           (assign (newVapiPhoneNumberId newConfig) (vapiPhoneNumberId config))
           (assign (newAnthropicApiKey newConfig) (anthropicApiKey config)).

Definition getMissingKeys (config : RuntimeConfig) : list string :=
  ((if negb (present (vapiApiKey config)) then ["vapiApiKey"] else []) ++
   (if negb (present (vapiPhoneNumberId config)) then ["vapiPhoneNumberId"] else []) ++
   (if negb (present (anthropicApiKey config)) then ["anthropicApiKey"] else []))%list.

Inductive ConfigKey : Type :=
| KeyVapiApiKey
| KeyVapiWebhookSecret
| KeyVapiPhoneNumberId
| KeyAnthropicApiKey.

Definition keyName (key : ConfigKey) : string :=
  match key with
  | KeyVapiApiKey => "vapiApiKey"
  | KeyVapiWebhookSecret => "vapiWebhookSecret"
  | KeyVapiPhoneNumberId => "vapiPhoneNumberId"
  | KeyAnthropicApiKey => "anthropicApiKey"
  end.

Definition valueOf (key : ConfigKey) (config : RuntimeConfig) : option string :=
  match key with
  | KeyVapiApiKey => vapiApiKey config
  | KeyVapiWebhookSecret => vapiWebhookSecret config
  | KeyVapiPhoneNumberId => vapiPhoneNumberId config
  | KeyAnthropicApiKey => anthropicApiKey config
  end.

(** The value of a key, or the error thrown when it is not set. *)
Definition requireConfig (key : ConfigKey) (config : RuntimeConfig) : Exc string :=
  match valueOf key config with
  | Some value => if truthy value then inr value else inl ConfigError
  | None => inl ConfigError
  end.

End ConfigStore.

Import ConfigStore.

(** ** The settings routes *)

Module Settings.

(** The validated body of [POST /api/settings/config]. *)
Record ConfigBody : Type := mkBody {
  bodyVapiApiKey : option string;
  bodyVapiWebhookSecret : option string;
  bodyVapiPhoneNumberId : option string;
  bodyAnthropicApiKey : option string
}.

(** [z.string().min(1).optional()] *)
Definition atLeastOneChar (value : option string) : bool :=
  match value with
  | Some s => truthy s
  | None => true
  end.

Definition setConfigSchema (body : ConfigBody) : bool :=
  atLeastOneChar (bodyVapiApiKey body) && atLeastOneChar (bodyAnthropicApiKey body).

(** What a [fetch] of a key check comes to: it throws, or a response
    arrives with its status. *)
Inductive FetchOutcome : Type :=
| NetworkError
| Responded (status : Z).

(** [response.ok] *)
Definition statusOk (status : Z) : bool := (200 <=? status) && (status <=? 299).

(** [!response.ok && response.status === 401], a thrown error being caught. *)
Definition vapiKeyRejected (outcome : FetchOutcome) : bool :=
  match outcome with
  | Responded status => negb (statusOk status) && (status =? 401)
  | NetworkError => false
  end.

(** [response.status === 401], a thrown error being caught. *)
Definition anthropicKeyRejected (outcome : FetchOutcome) : bool :=
  match outcome with
  | Responded status => status =? 401
  | NetworkError => false
  end.

Inductive Reply : Type :=
| InvalidBody
| BadRequest (error : string)
| Updated (configured : bool)
| Cleared.

(** [body.key ?? null]: an absent key becomes [null], so it is assigned. *)
Definition bodyAsPartial (body : ConfigBody) : PartialConfig :=
  mkPartial (Some (bodyVapiApiKey body)) (Some (bodyVapiWebhookSecret body))
            (Some (bodyVapiPhoneNumberId body)) (Some (bodyAnthropicApiKey body)).

(** [POST /api/settings/config]: the reply and the store afterwards. The
    two outcomes are what the key checks would answer; a check is made
    only for a key the body gives. *)
Definition postConfig (vapiCheck anthropicCheck : FetchOutcome) (body : ConfigBody)
    (config : RuntimeConfig) : Reply * RuntimeConfig :=
  if negb (setConfigSchema body) then (InvalidBody, config)
  else if present (bodyVapiApiKey body) && vapiKeyRejected vapiCheck then
    (BadRequest "Invalid Vapi API key", config)
  else if present (bodyAnthropicApiKey body) && anthropicKeyRejected anthropicCheck then
    (BadRequest "Invalid Anthropic API key", config)
  else
    let config' := setConfig (bodyAsPartial body) config in
    (Updated (isConfigured config'), config').

(** [DELETE /api/settings/config] *)
Definition deleteConfig (config : RuntimeConfig) : Reply * RuntimeConfig :=
  (Cleared, setConfig (mkPartial (Some None) (Some None) (Some None) (Some None)) config).

(** What [GET /api/settings/status] reports. *)
Record Status : Type := mkStatus {
  statusConfigured : bool;
  missingKeys : list string;
  hasVapiApiKey : bool;
  hasVapiWebhookSecret : bool;
  hasVapiPhoneNumberId : bool;
  hasAnthropicApiKey : bool
}.

Definition getStatus (config : RuntimeConfig) : Status :=
  mkStatus (isConfigured config) (getMissingKeys config)
           (present (vapiApiKey config)) (present (vapiWebhookSecret config))
           (present (vapiPhoneNumberId config)) (present (anthropicApiKey config)).

End Settings.

Import Settings.

(** ** Call summary and sentiment *)

Module TranscriptAnalysis.

Inductive AnalysisTask : Type :=
| SummaryTask
| SentimentTask.

(** What a request of these two functions is built from: the task that
    fixes the instruction, the token limit, and the part of the
    transcript appended to the instruction. *)
Record AnalysisRequest : Type := mkAnalysis {
  task : AnalysisTask;
  max_tokens : Z;
  excerpt : string
}.

Definition AnalysisProvider : Type := AnalysisRequest -> Exc (list ContentBlock).

(** What the two functions may have thrown at them: an error of the
    service or of the provider, or the SyntaxError of [JSON.parse]. *)
Inductive failure : Type :=
| Raised (e : error)
| SyntaxError.

(** Computations that may throw and that record the requests sent. *)
Definition Eff (A : Type) : Type :=
  list AnalysisRequest -> (failure + A) * list AnalysisRequest.

Definition pure {A : Type} (a : A) : Eff A := fun sent => (inr a, sent).

Definition andThen {A B : Type} (m : Eff A) (k : A -> Eff B) : Eff B :=
  fun sent =>
    match m sent with
    | (inr a, sent') => k a sent'
    | (inl e, sent') => (inl e, sent')
    end.

Definition liftExc {A : Type} (r : Exc A) : Eff A :=
  fun sent =>
    match r with
    | inl e => (inl (Raised e), sent)
    | inr a => (inr a, sent)
    end.

Definition throwing {A : Type} (f : failure) : Eff A := fun sent => (inl f, sent).

Definition catching {A : Type} (body : Eff A) (handler : failure -> Eff A) : Eff A :=
  fun sent =>
    match body sent with
    | (inl e, sent') => handler e sent'
    | (inr a, sent') => (inr a, sent')
    end.

Definition create (provider : AnalysisProvider) (request : AnalysisRequest) : Eff (list ContentBlock) :=
  fun sent =>
    match provider request with
    | inl e => (inl (Raised e), (sent ++ [request])%list)
    | inr response => (inr response, (sent ++ [request])%list)
    end.

Definition perform {A : Type} (m : Eff A) : (failure + A) * list AnalysisRequest := m [].

Definition summaryLength : nat := 10 * 1000.

Definition sentimentLength : nat := 5 * 1000.

Definition generateCallSummary (config : RuntimeConfig) (provider : AnalysisProvider)
    (transcript : string) : Eff string :=
  catching
    (if negb (truthy transcript) || (String.length (trim transcript) =? 0)%nat then
       pure "No transcript available for summary."
     else
       andThen (liftExc (getAnthropicClient config)) (fun _ =>
       andThen (create provider (mkAnalysis SummaryTask 256 (substring 0 summaryLength transcript)))
         (fun response =>
            match find isTextBlock response with
            | Some (TextBlock text) => pure (trim text)
            | _ => pure "Unable to generate summary."
            end)))
    (fun _ => pure "Error generating summary.").

(** A JavaScript number that need not be finite. *)
Inductive JsNumber : Type :=
| Finite (q : Q)
| PlusInfinity
| MinusInfinity
| NaN.

Definition Math_min (a b : JsNumber) : JsNumber :=
  match a, b with
  | NaN, _ | _, NaN => NaN
  | MinusInfinity, _ | _, MinusInfinity => MinusInfinity
  | PlusInfinity, other | other, PlusInfinity => other
  | Finite p, Finite q => if Qle_bool p q then Finite p else Finite q
  end.

Definition Math_max (a b : JsNumber) : JsNumber :=
  match a, b with
  | NaN, _ | _, NaN => NaN
  | PlusInfinity, _ | _, PlusInfinity => PlusInfinity
  | MinusInfinity, other | other, MinusInfinity => other
  | Finite p, Finite q => if Qle_bool p q then Finite q else Finite p
  end.

Record Sentiment : Type := mkSentiment {
  sentiment : string;
  confidence : JsNumber
}.

Definition validSentiments : list string := ["positive"; "neutral"; "negative"].

Definition neutralSentiment : Sentiment := mkSentiment "neutral" (Finite 0).

Section Coercion.

(** ToNumber of a non-empty string, an array or an object: the number it
    converts to, or the TypeError of an object that cannot be converted.
    It belongs to the JavaScript runtime and is left open. *)
Variable convert : Json -> Exc JsNumber.

(** ToNumber of the truthy value [result.confidence || 0] handed to [Math.min]. *)
Definition toNumber (value : option Json) : Exc JsNumber :=
  if truthyValue value then
    match value with
    | Some (JBool _) => inr (Finite 1)
    | Some (JNum q) => inr (Finite q)
    | Some other => convert other
    | None => inr (Finite 0)
    end
  else inr (Finite 0).

(** The object built from the parsed answer; reading a property of
    [null] throws. *)
Definition readSentiment (result : Json) : Exc Sentiment :=
  match result with
  | JNull => inl TypeError
  | _ =>
      let label :=
        match getField "sentiment" result with
        | Some (JStr s) => if existsb (String.eqb s) validSentiments then s else "neutral"
        | _ => "neutral"
        end in
      match toNumber (getField "confidence" result) with
      | inr number => inr (mkSentiment label (Math_max (Finite 0) (Math_min (Finite 100) number)))
      | inl e => inl e
      end
  end.

Definition analyzeSentiment (config : RuntimeConfig) (provider : AnalysisProvider)
    (transcript : string) : Eff Sentiment :=
  catching
    (if negb (truthy transcript) || (String.length (trim transcript) =? 0)%nat then
       pure neutralSentiment
     else
       andThen (liftExc (getAnthropicClient config)) (fun _ =>
       andThen (create provider (mkAnalysis SentimentTask 64 (substring 0 sentimentLength transcript)))
         (fun response =>
            match find isTextBlock response with
            | Some (TextBlock text) =>
                match JSON.parse (trim text) with
                | Some result => liftExc (readSentiment result)
                | None => throwing SyntaxError
                end
            | _ => pure neutralSentiment
            end)))
    (fun _ => pure neutralSentiment).

End Coercion.

(** A confidence a caller can use: a number between 0 and 100. *)
Definition inRange (n : JsNumber) : Prop :=
  match n with
  | Finite q => (0 <= q)%Q /\ (q <= 100)%Q
  | _ => False
  end.

End TranscriptAnalysis.

(** ** The webhook handler that calls the service *)

Module Webhooks.

Record Message : Type := mkMessage {
  role : string;
  content : option string;
  message : option string
}.

(** The fields of [event.call] the call-ended case reads. *)
Record CallData : Type := mkCall {
  startedAt : option string;
  endedAt : option string;
  endedReason : option string;
  messages : option (list Message);
  transcript : option string
}.

Inductive CallStatus : Type :=
| completed
| failed
| no_answer.

(** The part of the lead record the call-ended case writes. *)
Record LeadUpdate : Type := mkUpdate {
  callStatus : CallStatus;
  callDuration : option Z;
  storedTranscript : option string;
  qualification : QualificationResult
}.

Definition statusOfReason (reason : option string) : CallStatus :=
  if reasonIs reason "voicemail-reached" then no_answer
  else if reasonIs reason "pipeline-error-exceeded-max-retries"
          || reasonIs reason "phone-call-provider-closed-websocket" then failed
  else completed.

(** [m.content || m.message || ""] *)
Definition spokenText (m : Message) : string :=
  match orNull (content m) with
  | Some text => text
  | None =>
      match orNull (message m) with
      | Some text => text
      | None => EmptyString
      end
  end.

Definition speakerLine (m : Message) : string :=
  (if String.eqb (role m) "assistant" then "Agent" else "Lead") ++ ": " ++ spokenText m.

Definition isSpeaker (m : Message) : bool :=
  String.eqb (role m) "assistant" || String.eqb (role m) "user".

(** The transcript of the call: the one given, or else the lines of the
    assistant and user messages. *)
Definition transcriptOf (callData : CallData) : option string :=
  match messages callData with
  | Some ms =>
      if negb (present (transcript callData))
      then Some (String.concat newline (map speakerLine (filter isSpeaker ms)))
      else transcript callData
  | None => transcript callData
  end.

Definition contextOf (duration : option Z) (callData : CallData) : CallContext :=
  mkContext duration (orNull (endedReason callData)) (orNull (transcriptOf callData)).

Section Dates.

(** [new Date(text).getTime()]: the milliseconds of a timestamp, [None]
    for NaN. Date parsing belongs to the JavaScript runtime. *)
Variable getTime : string -> option Z.

Definition calculateCallDuration (startedAt endedAt : option string) : option Z :=
  match orNull startedAt, orNull endedAt with
  | Some startText, Some endText =>
      match getTime startText, getTime endText with
      | Some start, Some finish => Some (Math_round (Qmake (finish - start) 1000))
      | _, _ => None
      end
  | _, _ => None
  end.

(** The call-ended case up to the database update it issues. *)
Definition handleCallEnded (config : RuntimeConfig) (provider : Provider)
    (callData : CallData) : M LeadUpdate :=
  let duration := calculateCallDuration (startedAt callData) (endedAt callData) in
  let callStatus := statusOfReason (endedReason callData) in
  let transcript := transcriptOf callData in
  qualificationData <- extractQualificationData config provider (contextOf duration callData) ;;
  ret (mkUpdate callStatus duration (orNull transcript) qualificationData).

End Dates.

End Webhooks.

(** ** The extraction prompt *)

Module Prompt.

Definition dq : string := String doubleQuote EmptyString.

(** [`${n}`] for an integer below 10^21 in size: its decimal digits. *)
Definition numberToString (n : Z) : string := NilZero.string_of_int (Z.to_int n).

Definition promptOpening : string :=
  "You are an expert lead qualification analyst. Analyze the following call transcript between a sales qualification assistant and a potential lead.".

(** The lines of the template after the call context. *)
Definition promptLines : list string :=
  [
   "CRITICAL RULES FOR QUALIFICATION:";
   "- If the call was very short (under 30 seconds) or the customer hung up early, this is likely a COLD lead with a LOW score";
   "- " ++ dq ++ "customer-ended-call" ++ dq ++ " with short duration = disinterested, score should be 0-20";
   "- " ++ dq ++ "silence-timed-out" ++ dq ++ " = no engagement, score should be 0-15";
   "- " ++ dq ++ "voicemail-reached" ++ dq ++ " = couldn't reach them, score should be 10-25";
   "- Only calls with actual conversation and engagement should score above 40";
   EmptyString;
   "Extract the following BANT (Budget, Authority, Need, Timeline) qualification data:";
   EmptyString;
   "1. **Motivation/Need**: What is their primary motivation or pain point? What specific problem are they trying to solve?";
   EmptyString;
   "2. **Timeline**: When do they need a solution? Is there urgency? (Examples: " ++ dq ++ "Immediate" ++ dq ++ ", " ++ dq ++ "1-3 months" ++ dq ++ ", " ++ dq ++ "3-6 months" ++ dq ++ ", " ++ dq ++ "6-12 months" ++ dq ++ ", " ++ dq ++ "No specific timeline" ++ dq ++ ")";
   EmptyString;
   "3. **Budget**: What is their budget situation? Have they allocated funds? (Examples: " ++ dq ++ "$0-5K" ++ dq ++ ", " ++ dq ++ "$5K-25K" ++ dq ++ ", " ++ dq ++ "$25K-100K" ++ dq ++ ", " ++ dq ++ "$100K+" ++ dq ++ ", " ++ dq ++ "Not discussed" ++ dq ++ ", " ++ dq ++ "TBD" ++ dq ++ ")";
   EmptyString;
   "4. **Authority**: Are they the decision maker? Who else is involved? (Examples: " ++ dq ++ "Decision maker" ++ dq ++ ", " ++ dq ++ "Influencer" ++ dq ++ ", " ++ dq ++ "User/Evaluator" ++ dq ++ ", " ++ dq ++ "Unknown" ++ dq ++ ")";
   EmptyString;
   "5. **Past Experience**: Have they used similar solutions before? What was their experience?";
   EmptyString;
   "Based on your analysis, also determine:";
   EmptyString;
   "6. **Intent Classification**: Classify the lead as " ++ dq ++ "hot" ++ dq ++ ", " ++ dq ++ "warm" ++ dq ++ ", or " ++ dq ++ "cold" ++ dq ++ " based on:";
   "   - HOT: Clear need, budget available, decision maker, urgent timeline (within 3 months), actively seeking solution, engaged throughout call";
   "   - WARM: Interested but missing 1-2 key factors (budget not confirmed, longer timeline, needs approval), had meaningful conversation";
   "   - COLD: Hung up early, no clear timeline, budget concerns, just exploring, low/no engagement, very short call";
   EmptyString;
   "7. **Qualification Score (0-100)**: Calculate based on:";
   "   - Engagement (25 points): Full conversation = 25, Partial = 15, Hung up early = 0, No answer = 0";
   "   - Urgency (25 points): Immediate need = 25, 1-3 months = 20, 3-6 months = 15, 6-12 months = 10, No timeline = 5";
   "   - Budget (25 points): Budget confirmed = 25, Likely available = 20, TBD = 10, Budget concerns = 5";
   "   - Authority (25 points): Decision maker = 25, Strong influencer = 20, Influencer = 15, User only = 10";
   EmptyString;
   "Respond ONLY with a valid JSON object in the following format (no markdown, no explanation):";
   "{";
   "  " ++ dq ++ "motivation" ++ dq ++ ": " ++ dq ++ "string describing their motivation and need" ++ dq ++ ",";
   "  " ++ dq ++ "timeline" ++ dq ++ ": " ++ dq ++ "string describing timeline" ++ dq ++ ",";
   "  " ++ dq ++ "budget" ++ dq ++ ": " ++ dq ++ "string describing budget situation" ++ dq ++ ",";
   "  " ++ dq ++ "authority" ++ dq ++ ": " ++ dq ++ "string describing authority level" ++ dq ++ ",";
   "  " ++ dq ++ "pastExperience" ++ dq ++ ": " ++ dq ++ "string describing past experience with similar solutions" ++ dq ++ ",";
   "  " ++ dq ++ "intent" ++ dq ++ ": " ++ dq ++ "hot" ++ dq ++ " | " ++ dq ++ "warm" ++ dq ++ " | " ++ dq ++ "cold" ++ dq ++ ",";
   "  " ++ dq ++ "qualificationScore" ++ dq ++ ": number between 0 and 100";
   "}"
  ].

Definition contextInfo (context : CallContext) : list string :=
  ((match duration context with
    | Some d => [("- Call Duration: " ++ numberToString d ++ " seconds")%string]
    | None => []
    end) ++
   (match endedReason context with
    | Some reason => if truthy reason then [("- How Call Ended: " ++ reason)%string] else []
    | None => []
    end))%list.

Definition contextSection (context : CallContext) : string :=
  match contextInfo context with
  | [] => EmptyString
  | info =>
      newline ++ newline ++ "CALL CONTEXT (Important for qualification):" ++ newline ++
      String.concat newline info ++ newline
  end.

Definition buildExtractionPrompt (context : CallContext) : string :=
  promptOpening ++ newline ++ contextSection context ++ newline ++
  String.concat newline promptLines.

(** The content of the message that a request stands for. *)
Definition messageContent (request : MessageRequest) : string :=
  buildExtractionPrompt (promptContext request) ++ newline ++ newline ++
  "--- TRANSCRIPT START ---" ++ newline ++ promptTranscript request ++ newline ++
  "--- TRANSCRIPT END ---".

End Prompt.

(** ** More vocabulary and samples *)

(** A result seen as the object it is, such as the sanitizer accepts. *)
Definition asObject (r : QualificationResult) : Json :=
  JObj [("motivation", motivation r); ("timeline", timeline r); ("budget", budget r);
        ("authority", authority r); ("pastExperience", pastExperience r);
        ("intent", JStr (intent r));
        ("qualificationScore", JNum (inject_Z (qualificationScore r)))].

(** The character [c] occurs in [s]. *)
Fixpoint hasChar (c : ascii) (s : string) : bool :=
  match s with
  | EmptyString => false
  | String a rest => Ascii.eqb a c || hasChar c rest
  end.

(** Replacing the transcript of a context. *)
Definition withTranscript (context : CallContext) (t : option string) : CallContext :=
  mkContext (duration context) (endedReason context) t.

Definition voicemailCall : CallContext :=
  mkContext None (Some "voicemail-reached") None.

Definition completeAnswer : list (string * Json) :=
  [("motivation", JStr "Replace a legacy CRM"); ("timeline", JStr "1-3 months");
   ("budget", JStr "$25K-100K"); ("authority", JStr "Decision maker");
   ("pastExperience", JStr "Used a spreadsheet"); ("intent", JStr "hot");
   ("qualificationScore", JNum (920 # 10))].

(** A sentiment answer wrapped in a fenced block, and a bare one. *)
Definition fencedSentiment : string :=
  "```json" ++ newline ++ "{" ++ quoted "sentiment" ++ ":" ++ quoted "positive" ++ "," ++
  quoted "confidence" ++ ":80}" ++ newline ++ "```".

Definition bareSentiment : string :=
  "{" ++ quoted "sentiment" ++ ": " ++ quoted "positive" ++ ", " ++
  quoted "confidence" ++ ": 87.5}".

(** A conversion that knows no string, array or object: all are NaN. *)
Definition convertToNaN : Json -> Exc TranscriptAnalysis.JsNumber :=
  fun _ => inr TranscriptAnalysis.NaN.

Definition anthropicOnly : RuntimeConfig := mkConfig None None None (Some "anthropic-key").

(** A clock that knows two timestamps, 14499 milliseconds apart. *)
Definition sampleClock (text : string) : option Z :=
  if String.eqb text "2024-01-01T00:00:00.000Z" then Some 1704067200000
  else if String.eqb text "2024-01-01T00:00:14.499Z" then Some 1704067214499
  else None.

Definition briefCall : Webhooks.CallData :=
  Webhooks.mkCall (Some "2024-01-01T00:00:00.000Z") (Some "2024-01-01T00:00:14.499Z")
                  (Some "assistant-ended-call") None (Some "Agent: Hello? Lead: Yes, tell me more").

Definition droppedCall : Webhooks.CallData :=
  Webhooks.mkCall None None (Some "phone-call-provider-closed-websocket") None
                  (Some "Agent: Hello? Lead: Yes, I am interested, tell me more").

Definition unansweredCall : Webhooks.CallData :=
  Webhooks.mkCall None None (Some "voicemail-reached") None None.

Definition briefVoicemailCall : Webhooks.CallData :=
  Webhooks.mkCall (Some "2024-01-01T00:00:00.000Z") (Some "2024-01-01T00:00:14.499Z")
                  (Some "voicemail-reached") None None.

Definition messagesOnlyCall : Webhooks.CallData :=
  Webhooks.mkCall None None (Some "assistant-ended-call")
    (Some [Webhooks.mkMessage "system" (Some "You are an assistant") None;
           Webhooks.mkMessage "assistant" (Some "Hello?") None;
           Webhooks.mkMessage "user" None (Some "Yes, tell me more")])
    (Some "").

(** * Properties *)

(** ** Strings *)

Section StringFacts.

Lemma truthy_length (s : string) : truthy s = (0 <? String.length s)%nat.
Proof. destruct s; reflexivity. Qed.

Lemma truthy_length_zero (s : string) : negb (truthy s) = (String.length s =? 0)%nat.
Proof. destruct s; reflexivity. Qed.

Lemma trimStart_allWhiteSpace (s : string) :
  allWhiteSpace (trimStart s) = allWhiteSpace s.
Proof.
  induction s as [|c rest IH]; simpl; [reflexivity|].
  destruct (isWhiteSpace c) eqn:Hc; simpl.
  - exact IH.
  - rewrite Hc. reflexivity.
Qed.

Lemma trimEnd_truthy (s : string) : truthy (trimEnd s) = negb (allWhiteSpace s).
Proof.
  induction s as [|c rest IH]; simpl; [reflexivity|].
  destruct (trimEnd rest) eqn:Hrest; simpl in *.
  - destruct (isWhiteSpace c); simpl.
    + exact IH.
    + reflexivity.
  - rewrite <- (negb_involutive (allWhiteSpace rest)), <- IH.
    simpl. rewrite andb_false_r. reflexivity.
Qed.

Lemma trim_truthy (s : string) : truthy (trim s) = negb (allWhiteSpace s).
Proof. unfold trim. rewrite trimEnd_truthy, trimStart_allWhiteSpace. reflexivity. Qed.

Lemma trim_truthy_text (s : string) : truthy (trim s) = true -> truthy s = true.
Proof. rewrite trim_truthy. destruct s; simpl; [discriminate | reflexivity]. Qed.

(** The guard of the keyword scan, [transcript && transcript.trim().length > 0]. *)
Lemma scan_guard (t : string) :
  truthy t && (0 <? String.length (trim t))%nat = nonEmptyAfterTrim t.
Proof.
  unfold nonEmptyAfterTrim. rewrite <- truthy_length.
  destruct (truthy (trim t)) eqn:H.
  - rewrite (trim_truthy_text t H). reflexivity.
  - apply andb_false_r.
Qed.

(** The guard of the model path, [!transcript || transcript.trim().length === 0]. *)
Lemma empty_guard (t : string) :
  negb (truthy t) || (String.length (trim t) =? 0)%nat = blankTranscript (Some t).
Proof.
  unfold blankTranscript. rewrite <- truthy_length_zero.
  destruct (truthy (trim t)) eqn:H.
  - rewrite (trim_truthy_text t H). reflexivity.
  - apply orb_true_r.
Qed.

Lemma prefix_cons (c : ascii) (p s : string) :
  prefix (String c p) s = true -> exists rest, s = String c rest /\ prefix p rest = true.
Proof.
  destruct s as [|b rest]; simpl; [discriminate|].
  destruct (ascii_dec c b) as [->|]; [|discriminate].
  intros H. exists rest. split; [reflexivity | exact H].
Qed.

Lemma includes_tail (c : ascii) (s p : string) :
  includes s p = true -> includes (String c s) p = true.
Proof. intros H. cbn [includes]. rewrite H. apply orb_true_r. Qed.

Lemma includes_prefix (s p : string) : prefix p s = true -> includes s p = true.
Proof. intros H. destruct s; cbn [includes]; rewrite H; reflexivity. Qed.

(** A string that contains [c :: p] contains [p]. *)
Lemma includes_drop_head (c : ascii) (s p : string) :
  includes s (String c p) = true -> includes s p = true.
Proof.
  induction s as [|b rest IH]; intros H.
  - cbn [includes] in H. discriminate.
  - cbn [includes] in H. apply orb_true_iff in H. destruct H as [H|H].
    + apply prefix_cons in H. destruct H as [rest' [Heq Hp]].
      injection Heq as -> ->.
      apply includes_tail, includes_prefix, Hp.
    + apply includes_tail, IH, H.
Qed.

Lemma lowerChar_eq (a b : ascii) : a = b -> lowerChar a = lowerChar b.
Proof. intros ->. reflexivity. Qed.

Lemma prefix_toLowerCase (p s : string) :
  prefix p s = true -> prefix (toLowerCase p) (toLowerCase s) = true.
Proof.
  revert s. induction p as [|c p IH]; intros s H.
  - destruct s; reflexivity.
  - apply prefix_cons in H. destruct H as [rest [-> Hp]].
    simpl. destruct (ascii_dec (lowerChar c) (lowerChar c)) as [_|n].
    + apply IH, Hp.
    + exfalso. apply n. reflexivity.
Qed.

Lemma includes_toLowerCase (s p : string) :
  includes s p = true -> includes (toLowerCase s) (toLowerCase p) = true.
Proof.
  induction s as [|b rest IH]; intros H.
  - cbn [includes] in H. rewrite orb_false_r in H.
    apply includes_prefix. apply (prefix_toLowerCase p EmptyString H).
  - cbn [includes] in H. apply orb_true_iff in H. destruct H as [H|H].
    + apply includes_prefix. apply (prefix_toLowerCase p (String b rest) H).
    + simpl toLowerCase. apply includes_tail, IH, H.
Qed.

Lemma prefix_allWhiteSpace (p s : string) :
  prefix p s = true -> allWhiteSpace s = true -> allWhiteSpace p = true.
Proof.
  revert s. induction p as [|c p IH]; intros s H Hs; [reflexivity|].
  apply prefix_cons in H. destruct H as [rest [-> Hp]].
  simpl in *. apply andb_true_iff in Hs. destruct Hs as [Hc Hrest].
  rewrite Hc. simpl. apply (IH rest Hp Hrest).
Qed.

Lemma includes_allWhiteSpace (s p : string) :
  includes s p = true -> allWhiteSpace s = true -> allWhiteSpace p = true.
Proof.
  induction s as [|b rest IH]; intros H Hs.
  - cbn [includes] in H. rewrite orb_false_r in H. apply (prefix_allWhiteSpace p EmptyString H Hs).
  - cbn [includes] in H. apply orb_true_iff in H. destruct H as [H|H].
    + apply (prefix_allWhiteSpace p _ H Hs).
    + simpl in Hs. apply andb_true_iff in Hs. apply IH; tauto.
Qed.

(** A transcript that contains a word with a visible character is not blank. *)
Lemma includes_not_blank (s p : string) :
  includes s p = true -> allWhiteSpace p = false -> nonEmptyAfterTrim s = true.
Proof.
  intros H Hp. unfold nonEmptyAfterTrim. rewrite trim_truthy.
  destruct (allWhiteSpace s) eqn:Hs; [|reflexivity].
  rewrite (includes_allWhiteSpace s p H Hs) in Hp. discriminate.
Qed.

End StringFacts.

(** ** The cold-signal classifier *)

Section ColdSignals.

Lemma under_spec (duration : option Z) (bound : Z) :
  under duration bound = true <-> exists d, duration = Some d /\ d < bound.
Proof.
  unfold under. destruct duration as [d|].
  - rewrite Z.ltb_lt. split.
    + intros H. exists d. split; [reflexivity | exact H].
    + intros [d' [Heq H]]. injection Heq as ->. exact H.
  - split; [discriminate|]. intros [d [Heq _]]. discriminate.
Qed.

Lemma under_15 (context : CallContext) (d : Z) :
  duration context = Some d -> d < 15 ->
  checkForColdLeadSignals context
  = Some (getColdLeadResult "Call ended immediately - no engagement").
Proof.
  intros Hd Hlt. unfold checkForColdLeadSignals.
  rewrite (proj2 (under_spec (duration context) 15)); [reflexivity|].
  exists d. split; assumption.
Qed.

(** A short-circuit result is handed back as it is and no request is sent. *)
Lemma cold_signal_returned (config : RuntimeConfig) (provider : Provider)
    (context : CallContext) (r : QualificationResult) :
  checkForColdLeadSignals context = Some r ->
  run (extractQualificationData config provider context) = (inr r, []).
Proof. intros H. unfold run, extractQualificationData. rewrite H. reflexivity. Qed.

End ColdSignals.

(** ** The heuristic fallback *)

Section Fallback.

Lemma clamp_max_min (x : Z) : Z.max 0 (Z.min 100 x) = clamp 0 100 x.
Proof.
  unfold clamp.
  destruct (Z.ltb_spec x 0); [lia|].
  destruct (Z.ltb_spec 100 x); lia.
Qed.

Lemma clamp_range (x : Z) : 0 <= clamp 0 100 x <= 100.
Proof.
  unfold clamp.
  destruct (Z.ltb_spec x 0); [lia|].
  destruct (Z.ltb_spec 100 x); lia.
Qed.

Lemma clamp_le (x y : Z) : x <= y -> 0 <= y -> clamp 0 100 x <= y.
Proof.
  unfold clamp. intros Hxy Hy.
  destruct (Z.ltb_spec x 0); [lia|].
  destruct (Z.ltb_spec 100 x); lia.
Qed.

(** A scan adds [delta] once for every signal found. *)
Lemma scanSignals_count (text : string) (delta : Z) (signals : list string) (score : Z) :
  scanSignals text delta signals score = score + delta * countPresent text signals.
Proof.
  unfold scanSignals, countPresent. revert score.
  induction signals as [|signal rest IH]; intros score; simpl.
  - lia.
  - rewrite IH. destruct (includes text signal); simpl List.length; lia.
Qed.

Lemma countPresent_bounds (text : string) (signals : list string) :
  0 <= countPresent text signals <= Z.of_nat (List.length signals).
Proof.
  unfold countPresent. split; [lia|].
  apply Nat2Z.inj_le. induction signals as [|signal rest IH]; simpl; [lia|].
  destruct (includes text signal); simpl; lia.
Qed.

Lemma countPresent_cons (text signal : string) (rest : list string) :
  countPresent text (signal :: rest)
  = (if includes text signal then 1 else 0) + countPresent text rest.
Proof.
  unfold countPresent. simpl. destruct (includes text signal); simpl List.length; lia.
Qed.

Lemma reasonIs_ended (reason : option string) :
  (if reasonIs reason "customer-ended-call" then -15 else 0) = specEndedAdjustment reason.
Proof. destruct reason; reflexivity. Qed.

(** The running score of the fallback, term by term. *)
Lemma fallbackRawScore_terms (context : CallContext) :
  fallbackRawScore context
  = 30 + specDurationAdjustment (duration context)
       + specEndedAdjustment (endedReason context)
       + specTranscriptAdjustment nonEmptyAfterTrim (transcript context).
Proof.
  unfold fallbackRawScore, specTranscriptAdjustment.
  rewrite <- reasonIs_ended.
  set (afterDuration := match duration context with Some d => _ | None => _ end).
  assert (Hdur : afterDuration = 30 + specDurationAdjustment (duration context)).
  { unfold afterDuration, specDurationAdjustment.
    destruct (duration context) as [d|]; [|lia].
    destruct (d <? 30); [lia|]. destruct (d <? 60); [lia|].
    destruct (180 <? d); [lia|]. destruct (120 <? d); lia. }
  rewrite Hdur. clear Hdur afterDuration.
  destruct (transcript context) as [t|].
  - rewrite scan_guard. destruct (nonEmptyAfterTrim t).
    + rewrite !scanSignals_count.
      destruct (reasonIs (endedReason context) "customer-ended-call"); lia.
    + destruct (reasonIs (endedReason context) "customer-ended-call"); lia.
  - destruct (reasonIs (endedReason context) "customer-ended-call"); lia.
Qed.

Lemma specDurationAdjustment_le (duration : option Z) : specDurationAdjustment duration <= 15.
Proof.
  unfold specDurationAdjustment. destruct duration as [d|]; [|lia].
  destruct (d <? 30); [lia|]. destruct (d <? 60); [lia|].
  destruct (180 <? d); [lia|]. destruct (120 <? d); lia.
Qed.

Lemma specEndedAdjustment_le (reason : option string) : specEndedAdjustment reason <= 0.
Proof.
  unfold specEndedAdjustment. destruct reason as [r|]; [|lia].
  destruct (String.eqb r "customer-ended-call"); lia.
Qed.

Lemma specTranscriptAdjustment_le (nonEmpty : string -> bool) (transcript : option string) :
  specTranscriptAdjustment nonEmpty transcript <= 45.
Proof.
  unfold specTranscriptAdjustment. destruct transcript as [t|]; [|lia].
  destruct (nonEmpty t); [|lia].
  pose proof (countPresent_bounds (toLowerCase t) positiveSignals) as Hp.
  pose proof (countPresent_bounds (toLowerCase t) negativeSignals) as Hn.
  simpl List.length in Hp, Hn. lia.
Qed.

Lemma fallbackRawScore_le (context : CallContext) : fallbackRawScore context <= 90.
Proof.
  rewrite fallbackRawScore_terms.
  pose proof (specDurationAdjustment_le (duration context)).
  pose proof (specEndedAdjustment_le (endedReason context)).
  pose proof (specTranscriptAdjustment_le nonEmptyAfterTrim (transcript context)).
  lia.
Qed.

Lemma fallback_score (context : CallContext) :
  qualificationScore (fallbackAnalysis context) = clamp 0 100 (fallbackRawScore context).
Proof. unfold fallbackAnalysis. simpl. apply clamp_max_min. Qed.

Lemma fallback_intent (context : CallContext) :
  intent (fallbackAnalysis context) = specIntent (qualificationScore (fallbackAnalysis context)).
Proof. reflexivity. Qed.

Lemma specIntent_valid (score : Z) : In (specIntent score) validIntents.
Proof.
  unfold specIntent, validIntents.
  destruct (60 <=? score); [simpl; tauto|].
  destruct (35 <=? score); simpl; tauto.
Qed.

Lemma fallback_populated (context : CallContext) : fullyPopulated (fallbackAnalysis context).
Proof. unfold fullyPopulated, filled. simpl. repeat split; discriminate. Qed.

End Fallback.

(** ** The sanitizer *)

Section Sanitizer.

Lemma Math_round_nearest (q : Q) : nearestInteger (Math_round q) q.
Proof.
  unfold nearestInteger, Math_round.
  pose proof (Qfloor_le (q + (1 # 2))) as Hlo.
  pose proof (Qlt_floor (q + (1 # 2))) as Hhi.
  rewrite inject_Z_plus in Hhi. change (inject_Z 1) with 1%Q in Hhi.
  split; lra.
Qed.

Lemma nearestInteger_unique (n : Z) (q : Q) : nearestInteger n q -> Math_round q = n.
Proof.
  unfold nearestInteger, Math_round. intros [Hlo Hhi].
  pose proof (Qfloor_le (q + (1 # 2))) as Hfl.
  pose proof (Qlt_floor (q + (1 # 2))) as Hfh.
  rewrite inject_Z_plus in Hfh. change (inject_Z 1) with 1%Q in Hfh.
  assert (H1 : (inject_Z (Qfloor (q + (1 # 2))) < inject_Z (n + 1))%Q).
  { rewrite inject_Z_plus. change (inject_Z 1) with 1%Q. lra. }
  assert (H2 : (inject_Z n < inject_Z (Qfloor (q + (1 # 2)) + 1))%Q).
  { rewrite inject_Z_plus. change (inject_Z 1) with 1%Q. lra. }
  rewrite <- Zlt_Qlt in H1, H2. lia.
Qed.

Lemma orDefault_filled (value : option Json) (fallback : string) :
  fallback <> "" -> filled (orDefault value fallback).
Proof.
  intros Hne. unfold filled, orDefault.
  destruct value as [v|].
  - destruct v as [|b|q|s|elems|fields]; simpl.
    + split; [discriminate|]. intros H. injection H as H. exact (Hne H).
    + destruct b; split; try discriminate. intros H. injection H as H. exact (Hne H).
    + destruct (Qeq_bool q 0); simpl; split; try discriminate.
      intros H. injection H as H. exact (Hne H).
    + destruct s as [|c rest]; simpl; split; try discriminate.
      intros H. injection H as H. exact (Hne H).
    + split; discriminate.
    + split; discriminate.
  - split; [discriminate|]. intros H. injection H as H. exact (Hne H).
Qed.

Lemma orDefault_missing (value : option Json) (fallback : string) :
  missing value -> orDefault value fallback = JStr fallback.
Proof. intros [-> | [-> | ->]]; reflexivity. Qed.

Lemma orDefault_kept (v : Json) (fallback : string) :
  truthyValue (Some v) = true -> orDefault (Some v) fallback = v.
Proof. intros H. unfold orDefault. rewrite H. reflexivity. Qed.

Lemma intent_label_valid (value : option Json) :
  In match value with
     | Some (JStr label) => if existsb (String.eqb label) validIntents then label else "cold"
     | _ => "cold"
     end validIntents.
Proof.
  assert (Hcold : In "cold" validIntents) by (simpl; tauto).
  destruct value as [[| | |label| |]|]; try exact Hcold.
  destruct (existsb (String.eqb label) validIntents) eqn:H; [|exact Hcold].
  apply existsb_exists in H. destruct H as [x [Hin Heq]].
  apply String.eqb_eq in Heq. subst x. exact Hin.
Qed.

Lemma intent_label_kept (label : string) :
  In label validIntents -> existsb (String.eqb label) validIntents = true.
Proof.
  intros H. apply existsb_exists. exists label. split; [exact H | apply String.eqb_refl].
Qed.

Lemma intent_label_dropped (label : string) :
  ~ In label validIntents -> existsb (String.eqb label) validIntents = false.
Proof.
  intros H. destruct (existsb (String.eqb label) validIntents) eqn:E; [|reflexivity].
  apply existsb_exists in E. destruct E as [x [Hin Heq]].
  apply String.eqb_eq in Heq. subst x. contradiction.
Qed.

(** Whatever the sanitizer returns has the promised shape. *)
Lemma validate_wellFormed (result : Json) (r : QualificationResult) :
  validateQualificationResult result = inr r -> wellFormed r.
Proof.
  intros H.
  assert (Hr : r = mkResult
           (orDefault (getField "motivation" result) "Not identified during call")
           (orDefault (getField "timeline" result) "Not discussed")
           (orDefault (getField "budget" result) "Not discussed")
           (orDefault (getField "authority" result) "Unknown")
           (orDefault (getField "pastExperience" result) "Not discussed")
           match getField "intent" result with
           | Some (JStr label) =>
               if existsb (String.eqb label) validIntents then label else "cold"
           | _ => "cold"
           end
           (Z.max 0 (Z.min 100 (Math_round
              match getField "qualificationScore" result with
              | Some (JNum q) => q
              | _ => 0%Q
              end)))).
  { destruct result; simpl in H; try discriminate; injection H as <-; reflexivity. }
  subst r. unfold wellFormed, fullyPopulated. simpl.
  split; [apply intent_label_valid|].
  split; [lia|].
  repeat split; apply orDefault_filled; discriminate.
Qed.

Lemma validate_empty_object : validateQualificationResult (JObj []) = inr sanitizerDefaults.
Proof. reflexivity. Qed.

Lemma parse_unparseable (jsonText : string) :
  unparseable jsonText -> parseQualificationJson jsonText = JObj [].
Proof.
  intros [H1 [H2 H3]]. unfold parseQualificationJson. rewrite H1, H2, H3. reflexivity.
Qed.

End Sanitizer.

(** ** The orchestrator *)

Section Orchestrator.

Variable config : RuntimeConfig.
Variable provider : Provider.
Variable context : CallContext.

Lemma configured_client : isConfigured config = true -> getAnthropicClient config = inr tt.
Proof.
  unfold isConfigured, getAnthropicClient. intros H.
  apply andb_true_iff in H. destruct H as [_ H]. rewrite H. reflexivity.
Qed.

Lemma checkForColdLeadSignals_wellFormed (r : QualificationResult) :
  checkForColdLeadSignals context = Some r -> wellFormed r.
Proof.
  unfold checkForColdLeadSignals. intros H.
  repeat match type of H with
         | (if ?b then _ else _) = _ => destruct b
         end;
    try discriminate; injection H as <-;
    unfold wellFormed, fullyPopulated, filled; simpl;
    (split; [tauto | split; [lia | repeat split; discriminate]]).
Qed.

Lemma getColdLeadResult_wellFormed (motivation : string) :
  motivation <> "" -> wellFormed (getColdLeadResult motivation).
Proof.
  intros Hne. unfold wellFormed, fullyPopulated, filled. simpl.
  split; [tauto|]. split; [lia|].
  repeat split; try discriminate. intros H. injection H as H. exact (Hne H).
Qed.

Lemma fallbackAnalysis_wellFormed : wellFormed (fallbackAnalysis context).
Proof.
  unfold wellFormed. split; [|split].
  - rewrite fallback_intent. apply specIntent_valid.
  - rewrite fallback_score. apply clamp_range.
  - apply fallback_populated.
Qed.

(** The model path with a blank transcript: the fixed cold result, nothing sent. *)
Lemma analyseWithModel_blank (sent : list MessageRequest) :
  blankTranscript (transcript context) = true ->
  analyseWithModel config provider context sent
  = (inr (getColdLeadResult "No conversation recorded"), sent).
Proof.
  unfold analyseWithModel. destruct (transcript context) as [t|]; [|reflexivity].
  intros H. rewrite empty_guard, H. reflexivity.
Qed.

(** The model path with a transcript and a client: one request, then the
    outcome of the answer. *)
Lemma analyseWithModel_sends (t : string) (sent : list MessageRequest) :
  transcript context = Some t ->
  blankTranscript (Some t) = false ->
  getAnthropicClient config = inr tt ->
  analyseWithModel config provider context sent
  = (match provider (mkRequest context (truncateTranscript (trim t))) with
     | inl e => inl e
     | inr content =>
         match find isTextBlock content with
         | Some (TextBlock text) => validateQualificationResult (parseQualificationJson (trim text))
         | _ => inr (fallbackAnalysis context)
         end
     end, (sent ++ [mkRequest context (truncateTranscript (trim t))])%list).
Proof.
  intros Ht Hblank Hclient. unfold analyseWithModel.
  rewrite Ht, empty_guard, Hblank, Hclient.
  unfold bind, lift, messagesCreate, ret.
  destruct (provider (mkRequest context (truncateTranscript (trim t)))) as [e|content];
    [reflexivity|].
  destruct (find isTextBlock content) as [[text|]|]; reflexivity.
Qed.

(** Every way through the model path: it throws, or it hands back a
    well-formed result. *)
Lemma analyseWithModel_outcome (sent : list MessageRequest) :
  exists sent', (exists e, analyseWithModel config provider context sent = (inl e, sent'))
             \/ (exists r, analyseWithModel config provider context sent = (inr r, sent')
                           /\ wellFormed r).
Proof.
  unfold analyseWithModel.
  destruct (transcript context) as [t|].
  - destruct (negb (truthy t) || (String.length (trim t) =? 0)%nat).
    + exists sent. right. eexists. split; [reflexivity|].
      apply getColdLeadResult_wellFormed. discriminate.
    + unfold bind, lift, messagesCreate, ret.
      destruct (getAnthropicClient config) as [e|[]].
      * exists sent. left. exists e. reflexivity.
      * match goal with |- context [provider ?req] => set (request := req) end.
        exists (sent ++ [request])%list.
        destruct (provider request) as [e|content].
        { left. exists e. reflexivity. }
        destruct (find isTextBlock content) as [[text|]|].
        { destruct (validateQualificationResult (parseQualificationJson (trim text)))
            as [e|r] eqn:Hv.
          - left. exists e. reflexivity.
          - right. exists r. split; [reflexivity|]. apply (validate_wellFormed _ _ Hv). }
        { right. eexists. split; [reflexivity | apply fallbackAnalysis_wellFormed]. }
        { right. eexists. split; [reflexivity | apply fallbackAnalysis_wellFormed]. }
  - exists sent. right. eexists. split; [reflexivity|].
    apply getColdLeadResult_wellFormed. discriminate.
Qed.

Lemma extract_configured :
  checkForColdLeadSignals context = None ->
  isConfigured config = true ->
  extractQualificationData config provider context
  = tryCatch (analyseWithModel config provider context)
             (fun _ => ret (fallbackAnalysis context)).
Proof.
  intros Hcold Hcfg. unfold extractQualificationData. rewrite Hcold, Hcfg. reflexivity.
Qed.

End Orchestrator.

(** * The claims *)

(** C1: a total parse failure should be answered by the heuristic
    fallback, as every other failure of the model path is (a thrown error,
    a response without text, an answer that parses to null). The code
    misses it: with the service configured, no cold signal, the transcript
    "Yes, we need it" of a call of 200 seconds and an answer from which no
    attempt of the parser recovers a value, [parseQualificationJson] hands
    back the empty object and the caller gets the sanitizer's defaults
    (intent cold, score 0), where the fallback gives score 55 and intent
    warm. *)
Lemma unparseable_answer_is_not_routed_to_fallback :
  isConfigured configured = true /\
  checkForColdLeadSignals engagedCall = None /\
  blankTranscript (transcript engagedCall) = false /\
  unparseable (trim refusal) /\
  qualificationScore (fallbackAnalysis engagedCall) = 55 /\
  fst (run (extractQualificationData configured (answering refusal) engagedCall))
  = inr sanitizerDefaults /\
  fst (run (extractQualificationData configured (answering refusal) engagedCall))
  <> inr (fallbackAnalysis engagedCall).
Proof.
  repeat split; try (vm_compute; reflexivity).
  vm_compute. discriminate.
Qed.

(** The extent of that defect: for every CallContext with the service
    configured, a transcript that is not blank and no cold-signal rule
    firing, if no attempt of the response parser (direct parse, fenced
    block, brace substring) recovers a value from the text of the model's
    answer, the orchestrator sends its one request and returns the
    sanitizer's result for the empty object: intent cold, score 0 and the
    default text of every field. That result is never the fallback
    analyzer's. *)
Theorem unparseable_answer_gets_sanitizer_defaults
    (config : RuntimeConfig) (provider : Provider) (context : CallContext)
    (t text : string) (content : list ContentBlock) :
  checkForColdLeadSignals context = None ->
  isConfigured config = true ->
  transcript context = Some t ->
  blankTranscript (Some t) = false ->
  provider (mkRequest context (truncateTranscript (trim t))) = inr content ->
  find isTextBlock content = Some (TextBlock text) ->
  unparseable (trim text) ->
  run (extractQualificationData config provider context)
  = (inr sanitizerDefaults, [mkRequest context (truncateTranscript (trim t))]) /\
  sanitizerDefaults <> fallbackAnalysis context.
Proof.
  intros Hcold Hcfg Ht Hblank Hanswer Htext Hparse. split.
  - unfold run. rewrite (extract_configured _ _ _ Hcold Hcfg). unfold tryCatch.
    rewrite (analyseWithModel_sends config provider context t [] Ht Hblank
               (configured_client config Hcfg)).
    rewrite Hanswer, Htext, (parse_unparseable _ Hparse), validate_empty_object.
    reflexivity.
  - intros H. apply (f_equal motivation) in H. discriminate.
Qed.

Lemma unparseable_answer_gets_sanitizer_defaults_witness :
  run (extractQualificationData configured (answering refusal) engagedCall)
  = (inr sanitizerDefaults, [mkRequest engagedCall "Yes, we need it"]) /\
  sanitizerDefaults <> fallbackAnalysis engagedCall.
Proof.
  apply (unparseable_answer_gets_sanitizer_defaults configured (answering refusal)
           engagedCall "Yes, we need it" refusal [TextBlock refusal]);
    try reflexivity.
  repeat split; reflexivity.
Defined.

(** C2: for every CallContext, every configuration and every behaviour of
    the provider (any content blocks, with or without a text block, any
    text, or a thrown error), [extractQualificationData] hands a result to
    its caller and never an error; the intent of the result is one of hot,
    warm, cold, its score is an integer between 0 and 100, and none of its
    text fields is null or empty. *)
Theorem extractQualificationData_never_throws
    (config : RuntimeConfig) (provider : Provider) (context : CallContext) :
  exists (r : QualificationResult) (sent : list MessageRequest),
    run (extractQualificationData config provider context) = (inr r, sent) /\
    In (intent r) ["hot"; "warm"; "cold"] /\
    0 <= qualificationScore r <= 100 /\
    fullyPopulated r.
Proof.
  unfold run.
  destruct (checkForColdLeadSignals context) as [cold|] eqn:Hcold.
  - exists cold, []. split.
    + apply (cold_signal_returned config provider context cold Hcold).
    + apply (checkForColdLeadSignals_wellFormed context cold Hcold).
  - destruct (isConfigured config) eqn:Hcfg.
    + rewrite (extract_configured config provider context Hcold Hcfg). unfold tryCatch.
      destruct (analyseWithModel_outcome config provider context [])
        as [sent [[e H]|[r [H Hr]]]]; rewrite H.
      * exists (fallbackAnalysis context), sent. split; [reflexivity|].
        apply fallbackAnalysis_wellFormed.
      * exists r, sent. split; [reflexivity | exact Hr].
    + exists (fallbackAnalysis context), []. split.
      * unfold extractQualificationData. rewrite Hcold, Hcfg. reflexivity.
      * apply fallbackAnalysis_wellFormed.
Qed.

(** C3, as stated, fails on the text of the motivation: for the call of
    8 seconds that the customer ended, the classifier's motivation is
    "Call ended immediately - no engagement", without a final period. *)
Lemma short_call_motivation_has_no_final_period :
  option_map motivation (checkForColdLeadSignals hangUpAfter8)
  = Some (JStr "Call ended immediately - no engagement") /\
  option_map motivation (checkForColdLeadSignals hangUpAfter8)
  <> Some (JStr "Call ended immediately - no engagement.").
Proof. split; [reflexivity | vm_compute; discriminate]. Qed.

(** C3, amended: for every CallContext whose duration is present and
    strictly less than 15 seconds, the cold-signal classifier
    short-circuits with intent cold, score 10 and motivation
    "Call ended immediately - no engagement" (no final period), whatever
    the transcript and the endedReason; the customer-ended-call rule,
    checked second, never gets to answer; and the orchestrator hands this
    result back without sending a request. *)
Theorem under_15_seconds_short_circuits
    (config : RuntimeConfig) (provider : Provider) (context : CallContext) (d : Z) :
  duration context = Some d ->
  d < 15 ->
  exists r,
    checkForColdLeadSignals context = Some r /\
    intent r = "cold" /\
    qualificationScore r = 10 /\
    motivation r = JStr "Call ended immediately - no engagement" /\
    r <> getColdLeadResult "Customer hung up early - not interested" /\
    run (extractQualificationData config provider context) = (inr r, []).
Proof.
  intros Hd Hlt.
  exists (getColdLeadResult "Call ended immediately - no engagement").
  pose proof (under_15 context d Hd Hlt) as Hcold.
  split; [exact Hcold|].
  repeat split; try reflexivity.
  - discriminate.
  - apply (cold_signal_returned config provider context _ Hcold).
Qed.

Lemma under_15_seconds_short_circuits_witness :
  exists r,
    checkForColdLeadSignals hangUpAfter8 = Some r /\
    intent r = "cold" /\
    qualificationScore r = 10 /\
    motivation r = JStr "Call ended immediately - no engagement" /\
    r <> getColdLeadResult "Customer hung up early - not interested" /\
    run (extractQualificationData configured failing hangUpAfter8) = (inr r, []).
Proof.
  apply (under_15_seconds_short_circuits configured failing hangUpAfter8 8);
    [reflexivity | lia].
Defined.

(** C4, as stated, fails: a transcript of one space is not empty, so the
    claimed formula scans it for keywords and gives 30 + 15 = 45 and
    intent warm, while the analyzer treats it as no conversation and gives
    30 + 15 - 20 = 25 and intent cold. *)
Lemma whitespace_transcript_scores_as_no_transcript :
  transcript whitespaceOnlyCall = Some " " /\
  nonEmptyText " " = true /\
  specFallbackScore nonEmptyText whitespaceOnlyCall = 45 /\
  specIntent 45 = "warm" /\
  qualificationScore (fallbackAnalysis whitespaceOnlyCall) = 25 /\
  intent (fallbackAnalysis whitespaceOnlyCall) = "cold" /\
  qualificationScore (fallbackAnalysis whitespaceOnlyCall)
  <> specFallbackScore nonEmptyText whitespaceOnlyCall.
Proof.
  repeat split; try reflexivity.
  vm_compute. discriminate.
Qed.

(** C4, amended: for every CallContext, the score of the heuristic
    fallback is the clamp to 0..100 of: 30; minus 20 if duration < 30,
    else minus 10 if duration < 60, else plus 15 if duration > 180, else
    plus 10 if duration > 120 (nothing if the duration is absent); minus 15
    if endedReason is customer-ended-call; plus 5 for each positive keyword
    and minus 10 for each negative keyword found in the lowercased
    transcript, each keyword once, when the transcript is non-empty after
    trimming white space; minus 20 when the transcript is absent, empty or
    white space only. The intent is hot if that score is at least 60, warm
    if at least 35, else cold. *)
Theorem fallbackAnalysis_score_formula (context : CallContext) :
  qualificationScore (fallbackAnalysis context) = specFallbackScore nonEmptyAfterTrim context /\
  intent (fallbackAnalysis context) = specIntent (specFallbackScore nonEmptyAfterTrim context).
Proof.
  assert (H : qualificationScore (fallbackAnalysis context)
              = specFallbackScore nonEmptyAfterTrim context).
  { rewrite fallback_score, fallbackRawScore_terms. reflexivity. }
  split; [exact H|]. rewrite <- H. apply fallback_intent.
Qed.




(** C7: the duration rules of the classifier compare strictly. For every
    CallContext with duration exactly 15 the under-15-seconds rule does not
    fire: its test is false and the classifier's answer is not that rule's
    result. For every CallContext with duration exactly 30 and endedReason
    customer-ended-call the under-30-seconds rule does not fire: its test
    is false and the classifier reports no signal at all. *)
Theorem duration_bounds_are_exclusive (context : CallContext) :
  (duration context = Some 15 ->
     under (duration context) 15 = false /\
     checkForColdLeadSignals context
     <> Some (getColdLeadResult "Call ended immediately - no engagement")) /\
  (duration context = Some 30 ->
     endedReason context = Some "customer-ended-call" ->
     under (duration context) 30 = false /\
     checkForColdLeadSignals context = None).
Proof.
  split.
  - intros Hd. unfold checkForColdLeadSignals. rewrite Hd. simpl under.
    split; [reflexivity|]. rewrite Z.ltb_irrefl.
    repeat match goal with
           | |- (if ?b then _ else _) <> _ => destruct b
           end; discriminate.
  - intros Hd Hr. unfold checkForColdLeadSignals. rewrite Hd, Hr.
    split; reflexivity.
Qed.

(** C5: for every object the parser hands over, the sanitizer succeeds;
    its intent is the input's intent when that is one of the strings hot,
    warm, cold, and cold in every other case (another string, a value that
    is not a string, no intent at all); its score, when the input's score
    is a number, is the integer nearest to it clamped to 0..100, and 0 when
    the input's score is not a number or is absent. An input score of 150
    gives 100. *)
Theorem sanitizer_intent_and_score (fields : list (string * Json)) :
  exists r,
    validateQualificationResult (JObj fields) = inr r /\
    (forall label, lookup "intent" fields = Some (JStr label) ->
       In label ["hot"; "warm"; "cold"] -> intent r = label) /\
    ((forall label, lookup "intent" fields = Some (JStr label) ->
        ~ In label ["hot"; "warm"; "cold"]) -> intent r = "cold") /\
    (forall q n, lookup "qualificationScore" fields = Some (JNum q) ->
       nearestInteger n q -> qualificationScore r = clamp 0 100 n) /\
    ((forall q, lookup "qualificationScore" fields <> Some (JNum q)) ->
       qualificationScore r = 0) /\
    (forall q, lookup "qualificationScore" fields = Some (JNum q) ->
       (q == 150)%Q -> qualificationScore r = 100).
Proof.
  eexists. split; [reflexivity|].
  cbn [intent qualificationScore getField].
  assert (Hscore : forall q n, lookup "qualificationScore" fields = Some (JNum q) ->
            nearestInteger n q ->
            Z.max 0 (Z.min 100 (Math_round
              match lookup "qualificationScore" fields with
              | Some (JNum q0) => q0
              | _ => 0%Q
              end)) = clamp 0 100 n).
  { intros q n Hq Hn. rewrite Hq, (nearestInteger_unique n q Hn). apply clamp_max_min. }
  split; [|split; [|split; [|split]]].
  - intros label Hl Hin. rewrite Hl, (intent_label_kept label Hin). reflexivity.
  - intros Hnone. destruct (lookup "intent" fields) as [[| | |label| |]|]; try reflexivity.
    rewrite (intent_label_dropped label (Hnone label eq_refl)). reflexivity.
  - exact Hscore.
  - intros Hnone.
    destruct (lookup "qualificationScore" fields) as [[| |q| | |]|]; try reflexivity.
    exfalso. apply (Hnone q). reflexivity.
  - intros q Hq H150. rewrite (Hscore q 150 Hq); [reflexivity|].
    unfold nearestInteger. rewrite H150. split; [discriminate | reflexivity].
Qed.

(** C8: for every object given to the sanitizer, each text field of the
    output (motivation, timeline, budget, authority, pastExperience) is
    neither null nor the empty string; a property that is absent, null or
    the empty string in the input is replaced by the default string of its
    field. *)
Theorem sanitizer_text_fields_never_empty (fields : list (string * Json)) :
  exists r,
    validateQualificationResult (JObj fields) = inr r /\
    fullyPopulated r /\
    (missing (lookup "motivation" fields) -> motivation r = JStr "Not identified during call") /\
    (missing (lookup "timeline" fields) -> timeline r = JStr "Not discussed") /\
    (missing (lookup "budget" fields) -> budget r = JStr "Not discussed") /\
    (missing (lookup "authority" fields) -> authority r = JStr "Unknown") /\
    (missing (lookup "pastExperience" fields) -> pastExperience r = JStr "Not discussed").
Proof.
  eexists. split; [reflexivity|].
  unfold fullyPopulated.
  cbn [motivation timeline budget authority pastExperience getField]. split.
  - repeat split; apply orDefault_filled; discriminate.
  - repeat split; intros H; apply orDefault_missing, H.
Qed.

(** C9: for every CallContext the score of the heuristic fallback is at
    most 90 (base 30, at most 15 for the duration, at most 9 positive
    keywords worth 5 each), so it is never 100; the fallback gives intent
    hot exactly when the score is 60 or more, and a call reaches the score
    90 with intent hot. *)
Theorem fallback_score_at_most_90 :
  (forall context,
     qualificationScore (fallbackAnalysis context) <= 90 /\
     qualificationScore (fallbackAnalysis context) <> 100 /\
     (intent (fallbackAnalysis context) = "hot"
      <-> 60 <= qualificationScore (fallbackAnalysis context))) /\
  List.length positiveSignals = 9%nat /\
  qualificationScore (fallbackAnalysis eagerCall) = 90 /\
  intent (fallbackAnalysis eagerCall) = "hot".
Proof.
  split; [|repeat split; reflexivity].
  intros context.
  assert (Hle : qualificationScore (fallbackAnalysis context) <= 90).
  { rewrite fallback_score. apply clamp_le; [apply fallbackRawScore_le | lia]. }
  split; [exact Hle|]. split; [lia|].
  rewrite fallback_intent. unfold specIntent.
  destruct (Z.leb_spec 60 (qualificationScore (fallbackAnalysis context))) as [H|H].
  - split; [intros _; exact H | reflexivity].
  - split; [|lia].
    destruct (35 <=? qualificationScore (fallbackAnalysis context)); discriminate.
Qed.

(** C10: keywords are matched by substring containment and the positive
    keyword interested is a substring of the negative keyword
    not interested. For every transcript that contains the phrase
    not interested, the lowercased transcript matches both keywords, so
    the phrase adds 5 and subtracts 10: the score before clamping is the
    base, the duration and endedReason adjustments and the points of the
    other keywords, minus 5. *)
Theorem not_interested_nets_minus_5 (context : CallContext) (t : string) :
  transcript context = Some t ->
  includes t "not interested" = true ->
  positiveSignals = "interested" :: otherPositiveSignals /\
  negativeSignals = "not interested" :: otherNegativeSignals /\
  includes "not interested" "interested" = true /\
  includes (toLowerCase t) "interested" = true /\
  includes (toLowerCase t) "not interested" = true /\
  fallbackRawScore context
  = 30 + specDurationAdjustment (duration context)
       + specEndedAdjustment (endedReason context)
       + 5 * countPresent (toLowerCase t) otherPositiveSignals
       - 10 * countPresent (toLowerCase t) otherNegativeSignals
       + (5 - 10) /\
  qualificationScore (fallbackAnalysis context) = clamp 0 100 (fallbackRawScore context).
Proof.
  intros Ht Hin.
  assert (Hneg : includes (toLowerCase t) "not interested" = true).
  { apply (includes_toLowerCase t "not interested" Hin). }
  assert (Hpos : includes (toLowerCase t) "interested" = true).
  { pose proof Hneg as H. do 4 apply includes_drop_head in H. exact H. }
  repeat split; try reflexivity; try assumption.
  - rewrite fallbackRawScore_terms, Ht. unfold specTranscriptAdjustment.
    rewrite (includes_not_blank t "not interested" Hin eq_refl).
    change positiveSignals with ("interested" :: otherPositiveSignals).
    change negativeSignals with ("not interested" :: otherNegativeSignals).
    rewrite !countPresent_cons, Hpos, Hneg. lia.
  - apply fallback_score.
Qed.

Lemma not_interested_nets_minus_5_witness :
  includes "Sorry, I am not interested" "not interested" = true /\
  (positiveSignals = "interested" :: otherPositiveSignals /\
   negativeSignals = "not interested" :: otherNegativeSignals /\
   includes "not interested" "interested" = true /\
   includes (toLowerCase "Sorry, I am not interested") "interested" = true /\
   includes (toLowerCase "Sorry, I am not interested") "not interested" = true /\
   fallbackRawScore declinedCall
   = 30 + specDurationAdjustment (duration declinedCall)
        + specEndedAdjustment (endedReason declinedCall)
        + 5 * countPresent (toLowerCase "Sorry, I am not interested") otherPositiveSignals
        - 10 * countPresent (toLowerCase "Sorry, I am not interested") otherNegativeSignals
        + (5 - 10) /\
   qualificationScore (fallbackAnalysis declinedCall)
   = clamp 0 100 (fallbackRawScore declinedCall)).
Proof.
  split; [reflexivity|].
  apply (not_interested_nets_minus_5 declinedCall "Sorry, I am not interested");
    reflexivity.
Defined.

(** ** Further properties and worked examples *)

(** X1: with the provider configured, no cold signal and a transcript that
    is not blank, when the text of the model's answer parses to the JSON
    value null, the sanitizer's first property read throws, the
    orchestrator's handler catches it and the caller gets the result of
    the heuristic fallback. *)
Theorem null_answer_falls_back
    (config : RuntimeConfig) (provider : Provider) (context : CallContext)
    (t text : string) (content : list ContentBlock) :
  checkForColdLeadSignals context = None ->
  isConfigured config = true ->
  transcript context = Some t ->
  blankTranscript (Some t) = false ->
  provider (mkRequest context (truncateTranscript (trim t))) = inr content ->
  find isTextBlock content = Some (TextBlock text) ->
  parseQualificationJson (trim text) = JNull ->
  validateQualificationResult (parseQualificationJson (trim text)) = inl TypeError /\
  run (extractQualificationData config provider context)
  = (inr (fallbackAnalysis context), [mkRequest context (truncateTranscript (trim t))]).
Proof.
  intros Hcold Hcfg Ht Hblank Hanswer Htext Hnull.
  split; [rewrite Hnull; reflexivity|].
  unfold run. rewrite (extract_configured _ _ _ Hcold Hcfg). unfold tryCatch.
  rewrite (analyseWithModel_sends config provider context t [] Ht Hblank
             (configured_client config Hcfg)).
  rewrite Hanswer, Htext, Hnull. reflexivity.
Qed.

Lemma null_answer_falls_back_witness :
  validateQualificationResult (parseQualificationJson (trim "null")) = inl TypeError /\
  run (extractQualificationData configured (answering "null") engagedCall)
  = (inr (fallbackAnalysis engagedCall), [mkRequest engagedCall "Yes, we need it"]).
Proof.
  apply (null_answer_falls_back configured (answering "null") engagedCall
           "Yes, we need it" "null" [TextBlock "null"]); reflexivity.
Defined.

(** The parser on sample texts. *)
Example parse_plainAnswer :
  JSON.parse plainAnswer
  = Some (JObj [("motivation", JStr "Replace a legacy CRM"); ("intent", JStr "hot");
                ("qualificationScore", JNum (inject_Z 92))]).
Proof. reflexivity. Qed.

Example parse_rejects :
  JSON.parse "[1,]" = None /\ JSON.parse "01" = None /\ JSON.parse "1." = None /\
  JSON.parse "{} {}" = None /\ JSON.parse "nul" = None /\ JSON.parse "" = None /\
  JSON.parse refusal = None /\ JSON.parse fencedAnswer = None.
Proof. repeat split; reflexivity. Qed.

Example parse_numbers :
  JSON.parse " [0, -12, 2.5, 1e2, -1.25E-2] "
  = Some (JArr [JNum (0 # 1); JNum (-12 # 1); JNum (25 # 10); JNum (100 # 1);
                JNum (-125 # 10000)]).
Proof. reflexivity. Qed.

(** A fenced answer with score 150: the fenced block is parsed and the
    score clamped. *)
Example fenced_answer_is_clamped :
  matchCodeBlock fencedAnswer
  = Some ("{" ++ quoted "intent" ++ ":" ++ quoted "warm" ++ "," ++
          quoted "qualificationScore" ++ ":150}" ++ newline) /\
  option_map (fun r => (intent r, qualificationScore r))
    (match fst (run (extractQualificationData configured (answering fencedAnswer) engagedCall))
     with inr r => Some r | inl _ => None end)
  = Some ("warm", 100).
Proof. split; reflexivity. Qed.

(** A well-formed answer passes through the sanitizer unchanged. *)
Example plain_answer_passes_through :
  fst (run (extractQualificationData configured (answering plainAnswer) engagedCall))
  = inr (mkResult (JStr "Replace a legacy CRM") (JStr "Not discussed") (JStr "Not discussed")
                  (JStr "Unknown") (JStr "Not discussed") "hot" 92).
Proof. reflexivity. Qed.

(** A provider that throws: the fallback answers, 30 + 15 for the duration
    and 5 for each of the two keywords found. *)
Example failing_provider_falls_back :
  fst (run (extractQualificationData configured failing engagedCall))
  = inr (fallbackAnalysis engagedCall) /\
  qualificationScore (fallbackAnalysis engagedCall) = 55 /\
  intent (fallbackAnalysis engagedCall) = "warm".
Proof. repeat split; reflexivity. Qed.

(** The brace pattern is greedy: first opening brace to last closing brace. *)
Example matchObjectPattern_greedy :
  matchObjectPattern "a{b}c}d{" = Some "{b}c}" /\ matchObjectPattern "}{" = None.
Proof. split; reflexivity. Qed.

(** * Further properties of the service *)

(** ** Which path answers *)

Section Paths.

Variable config : RuntimeConfig.
Variable provider : Provider.
Variable context : CallContext.

Lemma extract_unconfigured :
  checkForColdLeadSignals context = None ->
  isConfigured config = false ->
  run (extractQualificationData config provider context)
  = (inr (fallbackAnalysis context), []).
Proof.
  intros Hcold Hcfg. unfold run, extractQualificationData.
  rewrite Hcold, Hcfg. reflexivity.
Qed.

Lemma isConfigured_false_iff :
  isConfigured config = false <->
  present (vapiApiKey config) = false \/ present (vapiPhoneNumberId config) = false \/
  present (anthropicApiKey config) = false.
Proof.
  unfold isConfigured.
  destruct (present (vapiApiKey config)), (present (vapiPhoneNumberId config)),
    (present (anthropicApiKey config)); simpl; intuition discriminate.
Qed.

(** The model path once a request goes out, with the handler applied. *)
Lemma extract_asks_model (t : string) :
  checkForColdLeadSignals context = None ->
  isConfigured config = true ->
  transcript context = Some t ->
  blankTranscript (Some t) = false ->
  run (extractQualificationData config provider context)
  = (match provider (mkRequest context (truncateTranscript (trim t))) with
     | inl _ => inr (fallbackAnalysis context)
     | inr content =>
         match find isTextBlock content with
         | Some (TextBlock text) =>
             match validateQualificationResult (parseQualificationJson (trim text)) with
             | inl _ => inr (fallbackAnalysis context)
             | inr r => inr r
             end
         | _ => inr (fallbackAnalysis context)
         end
     end, [mkRequest context (truncateTranscript (trim t))]).
Proof.
  intros Hcold Hcfg Ht Hblank.
  unfold run. rewrite (extract_configured config provider context Hcold Hcfg).
  unfold tryCatch.
  rewrite (analyseWithModel_sends config provider context t [] Ht Hblank
             (configured_client config Hcfg)).
  destruct (provider (mkRequest context (truncateTranscript (trim t)))) as [e|content];
    [reflexivity|].
  destruct (find isTextBlock content) as [[text|]|]; try reflexivity.
  destruct (validateQualificationResult (parseQualificationJson (trim text)));
    reflexivity.
Qed.

Lemma extract_blank :
  checkForColdLeadSignals context = None ->
  isConfigured config = true ->
  blankTranscript (transcript context) = true ->
  run (extractQualificationData config provider context)
  = (inr (getColdLeadResult "No conversation recorded"), []).
Proof.
  intros Hcold Hcfg Hblank.
  unfold run. rewrite (extract_configured config provider context Hcold Hcfg).
  unfold tryCatch.
  rewrite (analyseWithModel_blank config provider context [] Hblank). reflexivity.
Qed.

(** The caller always gets a well-formed result. *)
Lemma extract_wellFormed :
  exists r sent,
    run (extractQualificationData config provider context) = (inr r, sent) /\ wellFormed r.
Proof.
  destruct (checkForColdLeadSignals context) as [cold|] eqn:Hcold.
  - exists cold, []. split.
    + apply (cold_signal_returned config provider context cold Hcold).
    + apply (checkForColdLeadSignals_wellFormed context cold Hcold).
  - destruct (isConfigured config) eqn:Hcfg.
    + destruct (blankTranscript (transcript context)) eqn:Hblank.
      * eexists. eexists. split; [apply (extract_blank Hcold Hcfg Hblank)|].
        apply getColdLeadResult_wellFormed. discriminate.
      * destruct (transcript context) as [t|] eqn:Ht; [|discriminate].
        rewrite (extract_asks_model t Hcold Hcfg Ht Hblank).
        destruct (provider (mkRequest context (truncateTranscript (trim t)))) as [e|content].
        { eexists. eexists. split; [reflexivity | apply fallbackAnalysis_wellFormed]. }
        destruct (find isTextBlock content) as [[text|]|].
        { destruct (validateQualificationResult (parseQualificationJson (trim text)))
            as [e|r] eqn:Hv.
          - eexists. eexists. split; [reflexivity | apply fallbackAnalysis_wellFormed].
          - eexists. eexists. split; [reflexivity | apply (validate_wellFormed _ _ Hv)]. }
        { eexists. eexists. split; [reflexivity | apply fallbackAnalysis_wellFormed]. }
        { eexists. eexists. split; [reflexivity | apply fallbackAnalysis_wellFormed]. }
    + eexists. eexists. split; [apply (extract_unconfigured Hcold Hcfg)|].
      apply fallbackAnalysis_wellFormed.
Qed.

End Paths.

(** X2: when no cold-signal rule fires and any one of the three required
    keys (Vapi API key, Vapi phone number id, Anthropic API key) is not
    set, the orchestrator answers with the heuristic fallback and sends no
    request, even if the Anthropic key itself is set. *)
Theorem missing_key_uses_fallback
    (config : RuntimeConfig) (provider : Provider) (context : CallContext) :
  checkForColdLeadSignals context = None ->
  present (vapiApiKey config) = false \/ present (vapiPhoneNumberId config) = false \/
  present (anthropicApiKey config) = false ->
  run (extractQualificationData config provider context)
  = (inr (fallbackAnalysis context), []).
Proof.
  intros Hcold Hmissing.
  apply (extract_unconfigured config provider context Hcold).
  apply isConfigured_false_iff, Hmissing.
Qed.

Lemma missing_key_uses_fallback_witness :
  run (extractQualificationData (mkConfig None None None (Some "anthropic-key"))
         (answering plainAnswer) engagedCall)
  = (inr (fallbackAnalysis engagedCall), []).
Proof.
  apply (missing_key_uses_fallback (mkConfig None None None (Some "anthropic-key"))
           (answering plainAnswer) engagedCall);
    [reflexivity | left; reflexivity].
Defined.

(** X3: with the service configured, no cold signal and a transcript that
    is not blank, a provider that throws, or whose response holds no text
    block, leaves the caller with the heuristic fallback's result after the
    one request. *)
Theorem provider_failure_uses_fallback
    (config : RuntimeConfig) (provider : Provider) (context : CallContext) (t : string) :
  checkForColdLeadSignals context = None ->
  isConfigured config = true ->
  transcript context = Some t ->
  blankTranscript (Some t) = false ->
  (exists e, provider (mkRequest context (truncateTranscript (trim t))) = inl e) \/
  (exists content, provider (mkRequest context (truncateTranscript (trim t))) = inr content /\
                   find isTextBlock content = None) ->
  run (extractQualificationData config provider context)
  = (inr (fallbackAnalysis context), [mkRequest context (truncateTranscript (trim t))]).
Proof.
  intros Hcold Hcfg Ht Hblank Hfail.
  rewrite (extract_asks_model config provider context t Hcold Hcfg Ht Hblank).
  destruct Hfail as [[e He]|[content [Hc Hnone]]].
  - rewrite He. reflexivity.
  - rewrite Hc, Hnone. reflexivity.
Qed.

Lemma provider_failure_uses_fallback_witness :
  run (extractQualificationData configured failing engagedCall)
  = (inr (fallbackAnalysis engagedCall), [mkRequest engagedCall "Yes, we need it"]) /\
  run (extractQualificationData configured (fun _ => inr [OtherBlock; OtherBlock]) engagedCall)
  = (inr (fallbackAnalysis engagedCall), [mkRequest engagedCall "Yes, we need it"]).
Proof.
  split.
  - apply (provider_failure_uses_fallback configured failing engagedCall "Yes, we need it");
      try reflexivity.
    left. exists ProviderError. reflexivity.
  - apply (provider_failure_uses_fallback configured (fun _ => inr [OtherBlock; OtherBlock])
             engagedCall "Yes, we need it"); try reflexivity.
    right. exists [OtherBlock; OtherBlock]. split; reflexivity.
Defined.

(** X4: one call of the orchestrator sends at most one request, and it
    sends one exactly when no cold-signal rule fires, the three required
    keys are set and the transcript is not blank; the request then carries
    the trimmed, truncated transcript. *)
Theorem model_is_asked_at_most_once
    (config : RuntimeConfig) (provider : Provider) (context : CallContext) :
  (snd (run (extractQualificationData config provider context)) = [] \/
   exists t, transcript context = Some t /\
             snd (run (extractQualificationData config provider context))
             = [mkRequest context (truncateTranscript (trim t))]) /\
  (snd (run (extractQualificationData config provider context)) <> [] <->
   checkForColdLeadSignals context = None /\ isConfigured config = true /\
   blankTranscript (transcript context) = false).
Proof.
  destruct (checkForColdLeadSignals context) as [cold|] eqn:Hcold.
  - rewrite (cold_signal_returned config provider context cold Hcold). simpl.
    split; [left; reflexivity|]. split; [congruence|]. intros [H _]. discriminate.
  - destruct (isConfigured config) eqn:Hcfg.
    + destruct (blankTranscript (transcript context)) eqn:Hblank.
      * rewrite (extract_blank config provider context Hcold Hcfg Hblank). simpl.
        split; [left; reflexivity|]. split; [congruence|]. intros [_ [_ H]]. discriminate.
      * destruct (transcript context) as [t|] eqn:Ht; [|discriminate].
        rewrite (extract_asks_model config provider context t Hcold Hcfg Ht Hblank). simpl.
        split.
        { right. exists t. split; reflexivity. }
        split; [intros _; repeat split; reflexivity | intros _; discriminate].
    + rewrite (extract_unconfigured config provider context Hcold Hcfg). simpl.
      split; [left; reflexivity|]. split; [congruence|]. intros [_ [H _]]. discriminate.
Qed.

(** ** The transcript that is sent *)

Section Truncation.

Lemma substring_split (n : nat) (s : string) : s = substring 0 n s ++ drop n s.
Proof.
  revert s. induction n as [|n IH]; intros s.
  - destruct s; reflexivity.
  - destruct s as [|c rest]; [reflexivity|].
    simpl. f_equal. apply IH.
Qed.

Lemma substring_length (n : nat) (s : string) :
  String.length (substring 0 n s) = Nat.min n (String.length s).
Proof.
  revert s. induction n as [|n IH]; intros s.
  - destruct s; reflexivity.
  - destruct s as [|c rest]; [reflexivity|].
    simpl. f_equal. apply IH.
Qed.

Lemma append_length (a b : string) :
  String.length (a ++ b) = (String.length a + String.length b)%nat.
Proof. induction a as [|c a IH]; simpl; [reflexivity | rewrite IH; reflexivity]. Qed.

Lemma truncate_at (limit : nat) (s : string) :
  (String.length s <= limit)%nat ->
  (if (limit <? String.length s)%nat then substring 0 limit s ++ truncationMark else s) = s.
Proof.
  intros H. destruct (Nat.ltb_spec limit (String.length s)); [lia | reflexivity].
Qed.

End Truncation.

(** X5: a trimmed transcript of at most 15000 code units is sent as it
    is; a longer one is cut to its first 15000 code units, followed by the
    truncation mark, so the end of the call is what is dropped; what is
    sent never exceeds 15000 code units plus the 26 of the mark. *)
Theorem truncateTranscript_keeps_the_start (s : string) :
  ((String.length s <= maxLength)%nat -> truncateTranscript s = s) /\
  ((maxLength < String.length s)%nat ->
     exists kept dropped,
       s = kept ++ dropped /\ String.length kept = maxLength /\ dropped <> "" /\
       truncateTranscript s = kept ++ truncationMark) /\
  (String.length (truncateTranscript s) <= maxLength + 26)%nat.
Proof.
  unfold truncateTranscript. generalize maxLength. intros limit.
  split; [apply truncate_at|]. split.
  - intros H. exists (substring 0 limit s), (drop limit s).
    assert (Hlen : String.length (substring 0 limit s) = limit).
    { rewrite substring_length. lia. }
    split; [apply substring_split|]. split; [exact Hlen|]. split.
    + intros Hd. pose proof (f_equal String.length (substring_split limit s)) as Hs.
      rewrite append_length, Hlen, Hd in Hs. simpl in Hs. lia.
    + destruct (Nat.ltb_spec limit (String.length s)); [reflexivity | lia].
  - destruct (Nat.ltb_spec limit (String.length s)).
    + rewrite append_length, substring_length.
      change (String.length truncationMark) with 26%nat. lia.
    + lia.
Qed.

(** ** The other rules of the classifier *)

(** X6: every short-circuit of the classifier is a cold lead with score
    5, 10 or 15 and the text Unknown in timeline, budget, authority and
    pastExperience; and the classifier reports no signal exactly when the
    duration is absent or at least 15 seconds, the call is not one the
    customer ended in under 30 seconds, and the endedReason is none of
    silence-timed-out, voicemail-reached,
    pipeline-error-exceeded-max-retries and
    phone-call-provider-closed-websocket. *)
Theorem cold_signals_are_cold_and_exhaustive (context : CallContext) :
  (forall r, checkForColdLeadSignals context = Some r ->
     intent r = "cold" /\
     (qualificationScore r = 5 \/ qualificationScore r = 10 \/ qualificationScore r = 15) /\
     timeline r = JStr "Unknown" /\ budget r = JStr "Unknown" /\
     authority r = JStr "Unknown" /\ pastExperience r = JStr "Unknown") /\
  (checkForColdLeadSignals context = None <->
     (forall d, duration context = Some d -> 15 <= d) /\
     (endedReason context = Some "customer-ended-call" ->
        forall d, duration context = Some d -> 30 <= d) /\
     endedReason context <> Some "silence-timed-out" /\
     endedReason context <> Some "voicemail-reached" /\
     endedReason context <> Some "pipeline-error-exceeded-max-retries" /\
     endedReason context <> Some "phone-call-provider-closed-websocket").
Proof.
  split.
  - intros r H. unfold checkForColdLeadSignals in H.
    repeat match type of H with
           | (if ?b then _ else _) = _ => destruct b
           end;
      try discriminate; injection H as <-; simpl; tauto.
  - unfold checkForColdLeadSignals, under, reasonIs.
    destruct (duration context) as [d|]; destruct (endedReason context) as [reason|].
    + destruct (Z.ltb_spec d 15) as [H15|H15].
      { split; [discriminate|]. intros [H _]. specialize (H d eq_refl). lia. }
      destruct (String.eqb_spec reason "customer-ended-call") as [->|Hc].
      { simpl. destruct (Z.ltb_spec d 30) as [H30|H30].
        - split; [discriminate|]. intros [_ [H _]]. specialize (H eq_refl d eq_refl). lia.
        - split; [|reflexivity]. intros _.
          repeat split; try discriminate; intros; congruence. }
      simpl.
      destruct (String.eqb_spec reason "silence-timed-out") as [->|Hs].
      { split; [discriminate|]. intros [_ [_ [H _]]]. congruence. }
      destruct (String.eqb_spec reason "voicemail-reached") as [->|Hv].
      { split; [discriminate|]. intros [_ [_ [_ [H _]]]]. congruence. }
      destruct (String.eqb_spec reason "pipeline-error-exceeded-max-retries") as [->|Hp].
      { split; [discriminate|]. intros [_ [_ [_ [_ [H _]]]]]. congruence. }
      destruct (String.eqb_spec reason "phone-call-provider-closed-websocket") as [->|Hw].
      { split; [discriminate|]. intros [_ [_ [_ [_ [_ H]]]]]. congruence. }
      simpl. split; [|reflexivity]. intros _.
      repeat split; try congruence.
    + destruct (Z.ltb_spec d 15) as [H15|H15].
      { split; [discriminate|]. intros [H _]. specialize (H d eq_refl). lia. }
      simpl. split; [|reflexivity]. intros _.
      repeat split; try discriminate; congruence.
    + destruct (String.eqb_spec reason "customer-ended-call") as [->|Hc].
      { simpl. split; [|reflexivity]. intros _. repeat split; discriminate. }
      simpl.
      destruct (String.eqb_spec reason "silence-timed-out") as [->|Hs].
      { split; [discriminate|]. intros [_ [_ [H _]]]. congruence. }
      destruct (String.eqb_spec reason "voicemail-reached") as [->|Hv].
      { split; [discriminate|]. intros [_ [_ [_ [H _]]]]. congruence. }
      destruct (String.eqb_spec reason "pipeline-error-exceeded-max-retries") as [->|Hp].
      { split; [discriminate|]. intros [_ [_ [_ [_ [H _]]]]]. congruence. }
      destruct (String.eqb_spec reason "phone-call-provider-closed-websocket") as [->|Hw].
      { split; [discriminate|]. intros [_ [_ [_ [_ [_ H]]]]]. congruence. }
      simpl. split; [|reflexivity]. intros _. repeat split; try congruence; discriminate.
    + simpl. split; [|reflexivity]. intros _. repeat split; discriminate.
Qed.

(** X7: when the duration is absent or at least 15 seconds, the
    endedReason alone decides the other short-circuits: a call the
    customer ended in under 30 seconds gives score 10 with motivation
    "Customer hung up early - not interested"; silence-timed-out gives
    score 5; voicemail-reached gives score 15; each of the two technical
    failure reasons gives score 10; all with intent cold. *)
Theorem reason_rules_after_15_seconds (context : CallContext) :
  (forall d, duration context = Some d -> 15 <= d) ->
  (endedReason context = Some "customer-ended-call" ->
     (exists d, duration context = Some d /\ d < 30) ->
     checkForColdLeadSignals context
     = Some (getColdLeadResult "Customer hung up early - not interested")) /\
  (endedReason context = Some "silence-timed-out" ->
     checkForColdLeadSignals context
     = Some (mkResult (JStr "No engagement - call timed out due to silence") (JStr "Unknown")
                      (JStr "Unknown") (JStr "Unknown") (JStr "Unknown") "cold" 5)) /\
  (endedReason context = Some "voicemail-reached" ->
     checkForColdLeadSignals context
     = Some (mkResult (JStr "Could not reach - went to voicemail") (JStr "Unknown")
                      (JStr "Unknown") (JStr "Unknown") (JStr "Unknown") "cold" 15)) /\
  (endedReason context = Some "pipeline-error-exceeded-max-retries" \/
   endedReason context = Some "phone-call-provider-closed-websocket" ->
     checkForColdLeadSignals context
     = Some (mkResult (JStr "Call failed due to technical issues") (JStr "Unknown")
                      (JStr "Unknown") (JStr "Unknown") (JStr "Unknown") "cold" 10)).
Proof.
  intros Hlong.
  assert (H15 : under (duration context) 15 = false).
  { unfold under. destruct (duration context) as [d|]; [|reflexivity].
    apply Z.ltb_ge, Hlong. reflexivity. }
  unfold checkForColdLeadSignals. rewrite H15.
  repeat split.
  - intros Hr [d [Hd Hlt]]. rewrite Hr, Hd. simpl.
    destruct (Z.ltb_spec d 30); [reflexivity | lia].
  - intros Hr. rewrite Hr. reflexivity.
  - intros Hr. rewrite Hr. reflexivity.
  - intros [Hr|Hr]; rewrite Hr; reflexivity.
Qed.

Lemma reason_rules_after_15_seconds_witness :
  checkForColdLeadSignals voicemailCall
  = Some (mkResult (JStr "Could not reach - went to voicemail") (JStr "Unknown")
                   (JStr "Unknown") (JStr "Unknown") (JStr "Unknown") "cold" 15).
Proof.
  apply (reason_rules_after_15_seconds voicemailCall); [discriminate | reflexivity].
Defined.

(** ** The sanitizer on well-formed input *)

Section SanitizerRoundTrip.

Lemma Math_round_integer (q : Q) (n : Z) : (q == inject_Z n)%Q -> Math_round q = n.
Proof.
  intros H. apply nearestInteger_unique. unfold nearestInteger. rewrite H. split; lra.
Qed.

Lemma orDefault_truthy (value : option Json) (fallback : string) :
  fallback <> "" -> truthyValue (Some (orDefault value fallback)) = true.
Proof.
  intros Hne. unfold orDefault.
  assert (Hd : truthyValue (Some (JStr fallback)) = true).
  { simpl. destruct fallback; [contradiction | reflexivity]. }
  destruct value as [v|]; [|exact Hd].
  destruct (truthyValue (Some v)) eqn:Hv; [exact Hv | exact Hd].
Qed.

Lemma validate_inversion (result : Json) (r : QualificationResult) :
  validateQualificationResult result = inr r ->
  r = mkResult
        (orDefault (getField "motivation" result) "Not identified during call")
        (orDefault (getField "timeline" result) "Not discussed")
        (orDefault (getField "budget" result) "Not discussed")
        (orDefault (getField "authority" result) "Unknown")
        (orDefault (getField "pastExperience" result) "Not discussed")
        match getField "intent" result with
        | Some (JStr label) =>
            if existsb (String.eqb label) validIntents then label else "cold"
        | _ => "cold"
        end
        (Z.max 0 (Z.min 100 (Math_round
           match getField "qualificationScore" result with
           | Some (JNum q) => q
           | _ => 0%Q
           end))).
Proof.
  intros H. destruct result; simpl in H; try discriminate; injection H as <-; reflexivity.
Qed.

Lemma validate_shape (result : Json) (r : QualificationResult) :
  validateQualificationResult result = inr r ->
  truthyValue (Some (motivation r)) = true /\ truthyValue (Some (timeline r)) = true /\
  truthyValue (Some (budget r)) = true /\ truthyValue (Some (authority r)) = true /\
  truthyValue (Some (pastExperience r)) = true /\
  In (intent r) validIntents /\ 0 <= qualificationScore r <= 100.
Proof.
  intros H. rewrite (validate_inversion result r H).
  cbn [motivation timeline budget authority pastExperience intent qualificationScore].
  split; [apply orDefault_truthy; discriminate|].
  split; [apply orDefault_truthy; discriminate|].
  split; [apply orDefault_truthy; discriminate|].
  split; [apply orDefault_truthy; discriminate|].
  split; [apply orDefault_truthy; discriminate|].
  split; [apply intent_label_valid | lia].
Qed.

End SanitizerRoundTrip.

(** X8: the sanitizer is idempotent: a result it has returned, handed to
    it again as an object, comes back unchanged. *)
Theorem sanitizer_is_idempotent (result : Json) (r : QualificationResult) :
  validateQualificationResult result = inr r ->
  validateQualificationResult (asObject r) = inr r.
Proof.
  intros H. destruct (validate_shape result r H) as [Hm [Ht [Hb [Ha [Hp [Hi Hs]]]]]].
  destruct r as [m t b a p i s].
  cbn [motivation timeline budget authority pastExperience intent qualificationScore] in *.
  unfold asObject, validateQualificationResult.
  cbn [motivation timeline budget authority pastExperience intent qualificationScore].
  cbn [getField lookup String.eqb Ascii.eqb Bool.eqb].
  rewrite (orDefault_kept m _ Hm), (orDefault_kept t _ Ht), (orDefault_kept b _ Hb),
    (orDefault_kept a _ Ha), (orDefault_kept p _ Hp).
  rewrite (intent_label_kept i Hi).
  rewrite (Math_round_integer (inject_Z s) s (Qeq_refl _)).
  replace (Z.max 0 (Z.min 100 s)) with s by lia. reflexivity.
Qed.

Lemma sanitizer_is_idempotent_witness :
  validateQualificationResult (asObject sanitizerDefaults) = inr sanitizerDefaults.
Proof.
  apply (sanitizer_is_idempotent (JObj [])). reflexivity.
Defined.

(** X9: an answer whose object has a non-empty string in each of the five
    text fields, an intent among hot, warm, cold and a score that is a
    whole number from 0 to 100 passes through the sanitizer unchanged,
    whatever the order of its keys and whatever other keys it has. *)
Theorem well_formed_answer_passes_through
    (fields : list (string * Json)) (m t b a p label : string) (q : Q) (n : Z) :
  lookup "motivation" fields = Some (JStr m) -> m <> "" ->
  lookup "timeline" fields = Some (JStr t) -> t <> "" ->
  lookup "budget" fields = Some (JStr b) -> b <> "" ->
  lookup "authority" fields = Some (JStr a) -> a <> "" ->
  lookup "pastExperience" fields = Some (JStr p) -> p <> "" ->
  lookup "intent" fields = Some (JStr label) -> In label ["hot"; "warm"; "cold"] ->
  lookup "qualificationScore" fields = Some (JNum q) -> (q == inject_Z n)%Q ->
  0 <= n <= 100 ->
  validateQualificationResult (JObj fields)
  = inr (mkResult (JStr m) (JStr t) (JStr b) (JStr a) (JStr p) label n).
Proof.
  intros Hm Hm' Ht Ht' Hb Hb' Ha Ha' Hp Hp' Hi Hi' Hq Hq' Hn.
  assert (Hkeep : forall s, s <> "" -> forall d, orDefault (Some (JStr s)) d = JStr s).
  { intros s Hs d. apply orDefault_kept. destruct s; [contradiction | reflexivity]. }
  unfold validateQualificationResult. cbn [getField].
  rewrite Hm, Ht, Hb, Ha, Hp, Hi, Hq.
  rewrite !Hkeep by assumption.
  rewrite (intent_label_kept label Hi'), (Math_round_integer q n Hq').
  replace (Z.max 0 (Z.min 100 n)) with n by lia. reflexivity.
Qed.

Lemma well_formed_answer_passes_through_witness :
  validateQualificationResult (JObj completeAnswer)
  = inr (mkResult (JStr "Replace a legacy CRM") (JStr "1-3 months") (JStr "$25K-100K")
                  (JStr "Decision maker") (JStr "Used a spreadsheet") "hot" 92).
Proof.
  apply (well_formed_answer_passes_through completeAnswer _ _ _ _ _ _ (920 # 10) 92);
    try reflexivity; try discriminate; try lia.
  simpl. tauto.
Defined.

(** ** More on the heuristic fallback *)

Section FallbackFacts.

Lemma isWhiteSpace_lowerChar (c : ascii) : isWhiteSpace (lowerChar c) = isWhiteSpace c.
Proof. destruct c as [[] [] [] [] [] [] [] []]; reflexivity. Qed.

Lemma allWhiteSpace_toLowerCase (s : string) :
  allWhiteSpace (toLowerCase s) = allWhiteSpace s.
Proof.
  induction s as [|c rest IH]; simpl; [reflexivity|].
  rewrite isWhiteSpace_lowerChar, IH. reflexivity.
Qed.

Lemma nonEmptyAfterTrim_allWhiteSpace (t : string) :
  nonEmptyAfterTrim t = negb (allWhiteSpace t).
Proof. apply trim_truthy. Qed.

Lemma fallbackAnalysis_of_raw (c1 c2 : CallContext) :
  fallbackRawScore c1 = fallbackRawScore c2 -> fallbackAnalysis c1 = fallbackAnalysis c2.
Proof. intros H. unfold fallbackAnalysis. rewrite H. reflexivity. Qed.

Lemma specIntent_cold (score : Z) : score < 35 -> specIntent score = "cold".
Proof.
  intros H. unfold specIntent.
  destruct (Z.leb_spec 60 score); [lia|]. destruct (Z.leb_spec 35 score); [lia | reflexivity].
Qed.

Lemma specIntent_not_hot (score : Z) : score < 60 -> specIntent score <> "hot".
Proof.
  intros H. unfold specIntent.
  destruct (Z.leb_spec 60 score); [lia|]. destruct (35 <=? score); discriminate.
Qed.

End FallbackFacts.

(** X10: the heuristic fallback does not see letter case: two transcripts
    with the same lowercase form get the same result, for the same
    duration and endedReason. *)
Theorem fallback_ignores_letter_case (context : CallContext) (t1 t2 : string) :
  toLowerCase t1 = toLowerCase t2 ->
  fallbackAnalysis (withTranscript context (Some t1))
  = fallbackAnalysis (withTranscript context (Some t2)).
Proof.
  intros H. apply fallbackAnalysis_of_raw.
  rewrite !fallbackRawScore_terms. unfold withTranscript.
  cbn [duration endedReason transcript]. unfold specTranscriptAdjustment.
  rewrite !nonEmptyAfterTrim_allWhiteSpace.
  rewrite <- (allWhiteSpace_toLowerCase t1), <- (allWhiteSpace_toLowerCase t2), H.
  reflexivity.
Qed.

Lemma fallback_ignores_letter_case_witness :
  fallbackAnalysis (withTranscript engagedCall (Some "YES, WE NEED IT"))
  = fallbackAnalysis (withTranscript engagedCall (Some "Yes, we need it")).
Proof.
  apply (fallback_ignores_letter_case engagedCall "YES, WE NEED IT" "Yes, we need it").
  reflexivity.
Defined.

(** X11: what the signals of a call cap in the heuristic fallback. With a
    transcript that is absent or blank the result is always cold, with a
    score of at most 25; a call of under 30 seconds scores at most 55 and
    is never hot; a call the customer ended scores at most 75. *)
Theorem fallback_caps (context : CallContext) :
  (blankTranscript (transcript context) = true ->
     intent (fallbackAnalysis context) = "cold" /\
     qualificationScore (fallbackAnalysis context) <= 25) /\
  ((exists d, duration context = Some d /\ d < 30) ->
     intent (fallbackAnalysis context) <> "hot" /\
     qualificationScore (fallbackAnalysis context) <= 55) /\
  (endedReason context = Some "customer-ended-call" ->
     qualificationScore (fallbackAnalysis context) <= 75).
Proof.
  pose proof (specDurationAdjustment_le (duration context)) as Hd.
  pose proof (specEndedAdjustment_le (endedReason context)) as He.
  pose proof (specTranscriptAdjustment_le nonEmptyAfterTrim (transcript context)) as Ht.
  pose proof (fallbackRawScore_terms context) as Hraw.
  rewrite fallback_intent, fallback_score.
  split; [|split].
  - intros Hblank.
    assert (Hadj : specTranscriptAdjustment nonEmptyAfterTrim (transcript context) = -20).
    { unfold specTranscriptAdjustment, blankTranscript, nonEmptyAfterTrim in *.
      destruct (transcript context) as [t|]; [|reflexivity].
      destruct (truthy (trim t)); [discriminate | reflexivity]. }
    assert (Hle : clamp 0 100 (fallbackRawScore context) <= 25).
    { apply clamp_le; lia. }
    split; [apply specIntent_cold; lia | exact Hle].
  - intros [d [Hdur Hlt]].
    assert (Hadj : specDurationAdjustment (duration context) = -20).
    { rewrite Hdur. unfold specDurationAdjustment.
      destruct (Z.ltb_spec d 30); [reflexivity | lia]. }
    assert (Hle : clamp 0 100 (fallbackRawScore context) <= 55).
    { apply clamp_le; lia. }
    split; [apply specIntent_not_hot; lia | exact Hle].
  - intros Hr.
    assert (Hadj : specEndedAdjustment (endedReason context) = -15).
    { rewrite Hr. reflexivity. }
    apply clamp_le; lia.
Qed.

(** ** The brace pattern of the parser *)

Section BracePattern.

Lemma fromFirstChar_spec (c : ascii) (s suffix : string) :
  fromFirstChar c s = Some suffix ->
  exists before rest,
    s = before ++ suffix /\ suffix = String c rest /\ hasChar c before = false.
Proof.
  revert suffix. induction s as [|a s IH]; intros suffix H; [discriminate|].
  simpl in H. destruct (Ascii.eqb_spec a c) as [->|Hne].
  - injection H as <-. exists EmptyString, s. repeat split.
  - destruct (IH suffix H) as [before [rest [Hs [Hsuf Hno]]]].
    exists (String a before), rest. split; [simpl; rewrite <- Hs; reflexivity|].
    split; [exact Hsuf|]. simpl. rewrite Hno.
    destruct (Ascii.eqb_spec a c); [contradiction | reflexivity].
Qed.

Lemma fromFirstChar_none (c : ascii) (s : string) :
  fromFirstChar c s = None <-> hasChar c s = false.
Proof.
  induction s as [|a s IH]; simpl; [tauto|].
  destruct (Ascii.eqb a c); simpl; [split; discriminate | exact IH].
Qed.

Lemma throughLastChar_spec (c : ascii) (s kept : string) :
  throughLastChar c s = Some kept ->
  exists inner after,
    s = kept ++ after /\ kept = inner ++ String c EmptyString /\ hasChar c after = false.
Proof.
  revert kept. induction s as [|a s IH]; intros kept H; [discriminate|].
  simpl in H. destruct (throughLastChar c s) as [k|] eqn:Hk.
  - injection H as <-. destruct (IH k eq_refl) as [inner [after [Hs [Hkept Hno]]]].
    exists (String a inner), after. split; [simpl; rewrite <- Hs; reflexivity|].
    split; [simpl; rewrite <- Hkept; reflexivity | exact Hno].
  - destruct (Ascii.eqb_spec a c) as [->|Hne]; [|discriminate].
    injection H as <-. exists EmptyString, s. split; [reflexivity|]. split; [reflexivity|].
    clear IH. revert Hk. induction s as [|b s IHs]; simpl; [reflexivity|].
    destruct (throughLastChar c s); [discriminate|].
    destruct (Ascii.eqb b c); [discriminate|]. intros _. simpl. apply IHs. reflexivity.
Qed.

Lemma throughLastChar_none (c : ascii) (s : string) :
  throughLastChar c s = None <-> hasChar c s = false.
Proof.
  induction s as [|a s IH]; simpl; [tauto|].
  destruct (throughLastChar c s).
  - split; [discriminate|]. intros H. apply orb_false_iff in H.
    destruct H as [_ H]. apply IH in H. discriminate.
  - destruct (Ascii.eqb a c); simpl; [split; discriminate|].
    split; [intros _; apply IH; reflexivity | reflexivity].
Qed.

Lemma hasChar_app (c : ascii) (a b : string) :
  hasChar c (a ++ b) = hasChar c a || hasChar c b.
Proof.
  induction a as [|x a IH]; simpl; [reflexivity|]. rewrite IH. apply orb_assoc.
Qed.

Lemma fromFirstChar_app (c : ascii) (before rest : string) :
  hasChar c before = false ->
  fromFirstChar c (before ++ String c rest) = Some (String c rest).
Proof.
  induction before as [|a before IH]; simpl.
  - intros _. rewrite Ascii.eqb_refl. reflexivity.
  - intros H. apply orb_false_iff in H. destruct H as [Ha Hb].
    rewrite Ha. apply IH, Hb.
Qed.

End BracePattern.

Lemma append_assoc (a b c : string) : (a ++ b) ++ c = a ++ (b ++ c).
Proof. induction a as [|x a IH]; simpl; [reflexivity | rewrite IH; reflexivity]. Qed.

(** X12: the third attempt of the parser reads the text from its first
    opening brace through the last closing brace after it: a match is a
    part of the text that starts and ends with a brace, with no opening
    brace before it and no closing brace after it; and there is no match
    exactly when no opening brace of the text is followed by a closing
    brace. *)
Theorem brace_pattern_is_first_to_last (text : string) :
  (forall m, matchObjectPattern text = Some m ->
     exists before inner after,
       text = before ++ m ++ after /\ m = "{" ++ inner ++ "}" /\
       hasChar "{" before = false /\ hasChar "}" after = false) /\
  (matchObjectPattern text = None <->
     forall before inner after, text <> before ++ "{" ++ inner ++ "}" ++ after).
Proof.
  assert (Hsound : forall m, matchObjectPattern text = Some m ->
     exists before inner after,
       text = before ++ m ++ after /\ m = "{" ++ inner ++ "}" /\
       hasChar "{" before = false /\ hasChar "}" after = false).
  { intros m H. unfold matchObjectPattern in H.
    destruct (fromFirstChar "{" text) as [opened|] eqn:Hopen; [|discriminate].
    destruct (fromFirstChar_spec _ _ _ Hopen) as [before [rest [Htext [Hopened Hbefore]]]].
    destruct (throughLastChar_spec _ _ _ H) as [inner' [after [Hsplit [Hm Hafter]]]].
    destruct inner' as [|c inner].
    - subst m. rewrite Hopened in Hsplit. simpl in Hsplit. discriminate.
    - assert (c = "{"%char) as ->.
      { subst m. rewrite Hopened in Hsplit. simpl in Hsplit. congruence. }
      exists before, inner, after. split; [rewrite Htext, Hsplit; reflexivity|].
      split; [exact Hm|]. split; assumption. }
  split; [exact Hsound|]. split.
  - intros Hnone before inner after Htext.
    unfold matchObjectPattern in Hnone.
    assert (Hsuffix : exists pre, fromFirstChar "{" text
                                  = Some (pre ++ "{" ++ inner ++ "}" ++ after)).
    { rewrite Htext. clear. induction before as [|a before IH]; simpl.
      - exists EmptyString. reflexivity.
      - destruct (Ascii.eqb a "{").
        + exists (String a before). reflexivity.
        + exact IH. }
    destruct Hsuffix as [pre Hpre]. rewrite Hpre in Hnone.
    apply throughLastChar_none in Hnone.
    rewrite !hasChar_app in Hnone. simpl in Hnone.
    rewrite !orb_true_r in Hnone. discriminate.
  - intros Hnone. destruct (matchObjectPattern text) as [m|] eqn:Hm; [|reflexivity].
    destruct (Hsound m eq_refl) as [before [inner [after [Htext [Hshape _]]]]].
    exfalso. apply (Hnone before inner after). rewrite Htext, Hshape.
    f_equal. simpl. f_equal. apply append_assoc.
Qed.

(** ** The fenced block of the parser *)

Section FencedBlock.

Lemma prefix_split (p s : string) :
  prefix p s = true -> s = p ++ drop (String.length p) s.
Proof.
  revert s. induction p as [|c p IH]; intros s H.
  - destruct s; reflexivity.
  - apply prefix_cons in H. destruct H as [rest [-> Hp]].
    simpl. f_equal. apply IH, Hp.
Qed.

Lemma prefix_app (p a b : string) : prefix p a = true -> prefix p (a ++ b) = true.
Proof.
  revert a. induction p as [|c p IH]; intros a H.
  - destruct (a ++ b); reflexivity.
  - apply prefix_cons in H. destruct H as [rest [-> Hp]].
    simpl. destruct (ascii_dec c c) as [_|n]; [apply IH, Hp | contradiction].
Qed.

Lemma includes_app (s p b : string) : includes s p = true -> includes (s ++ b) p = true.
Proof.
  induction s as [|a s IH]; intros H.
  - cbn [includes] in H. rewrite orb_false_r in H.
    apply includes_prefix. apply (prefix_app p EmptyString b H).
  - cbn [includes] in H. apply orb_true_iff in H. destruct H as [H|H].
    + apply includes_prefix. apply (prefix_app p (String a s) b H).
    + simpl append. apply includes_tail, IH, H.
Qed.

Lemma afterFirst_spec (pat s rest : string) :
  pat <> "" ->
  afterFirst pat s = Some rest ->
  exists before, s = before ++ pat ++ rest /\ includes before pat = false.
Proof.
  intros Hpat. induction s as [|a s IH]; intros H.
  - cbn [afterFirst] in H. destruct (prefix pat "") eqn:Hp; [|discriminate].
    destruct pat; [contradiction | simpl in Hp; discriminate].
  - cbn [afterFirst] in H. destruct (prefix pat (String a s)) eqn:Hp.
    + injection H as <-. exists EmptyString. split.
      * simpl. apply prefix_split, Hp.
      * destruct pat; [contradiction | reflexivity].
    + destruct (IH H) as [before [Hs Hno]].
      exists (String a before). split; [simpl; rewrite <- Hs; reflexivity|].
      cbn [includes]. rewrite Hno, orb_false_r.
      destruct (prefix pat (String a before)) eqn:Hb; [|reflexivity].
      apply (prefix_app _ _ (pat ++ rest)) in Hb. simpl in Hb.
      rewrite <- Hs in Hb. simpl in Hp. congruence.
Qed.

Lemma beforeFirst_spec (pat s group : string) :
  pat <> "" ->
  beforeFirst pat s = Some group ->
  exists after, s = group ++ pat ++ after /\ includes group pat = false.
Proof.
  intros Hpat. revert group. induction s as [|a s IH]; intros group H.
  - cbn [beforeFirst] in H. destruct (prefix pat "") eqn:Hp; [|discriminate].
    destruct pat; [contradiction | simpl in Hp; discriminate].
  - cbn [beforeFirst] in H. destruct (prefix pat (String a s)) eqn:Hp.
    + injection H as <-. exists (drop (String.length pat) (String a s)). split.
      * simpl. apply prefix_split, Hp.
      * destruct pat; [contradiction | reflexivity].
    + destruct (beforeFirst pat s) as [g|] eqn:Hg; [|discriminate].
      injection H as <-. destruct (IH g eq_refl) as [after [Hs Hno]].
      exists after. split; [simpl; rewrite <- Hs; reflexivity|].
      cbn [includes]. rewrite Hno, orb_false_r.
      destruct (prefix pat (String a g)) eqn:Hb; [|reflexivity].
      apply (prefix_app _ _ (pat ++ after)) in Hb. simpl in Hb.
      rewrite <- Hs in Hb. simpl in Hp. congruence.
Qed.

Lemma trimStart_spec (s : string) :
  exists blanks, s = blanks ++ trimStart s /\ allWhiteSpace blanks = true.
Proof.
  induction s as [|c s IH]; simpl.
  - exists EmptyString. split; reflexivity.
  - destruct (isWhiteSpace c) eqn:Hc.
    + destruct IH as [blanks [Hs Hb]]. exists (String c blanks).
      split; [simpl; rewrite <- Hs; reflexivity | simpl; rewrite Hc; exact Hb].
    + exists EmptyString. split; reflexivity.
Qed.

Lemma trimStart_head (s : string) :
  match trimStart s with
  | String c _ => isWhiteSpace c = false
  | EmptyString => True
  end.
Proof.
  induction s as [|c s IH]; simpl; [exact I|].
  destruct (isWhiteSpace c) eqn:Hc; [exact IH | exact Hc].
Qed.

End FencedBlock.

(** X13: the second attempt of the parser reads what stands between the
    first fence of three backticks and the next one: the text is some
    fence-free part, the fence, an optional json tag, a run of white
    space, the group, a fence and the rest, where the group holds no fence
    and does not begin with white space. *)
Theorem fenced_block_is_between_fences (text group : string) :
  matchCodeBlock text = Some group ->
  exists before tag blanks after,
    text = before ++ fence ++ tag ++ blanks ++ group ++ fence ++ after /\
    includes before fence = false /\
    (tag = "json" \/ tag = "") /\
    allWhiteSpace blanks = true /\
    includes group fence = false /\
    match group with
    | String c _ => isWhiteSpace c = false
    | EmptyString => True
    end.
Proof.
  unfold matchCodeBlock. intros H.
  assert (Hfence : fence <> "") by discriminate.
  destruct (afterFirst fence text) as [rest|] eqn:Hrest; [|discriminate].
  destruct (afterFirst_spec fence text rest Hfence Hrest) as [before [Htext Hbefore]].
  set (untagged := if prefix "json" rest then drop 4 rest else rest) in H.
  assert (Htag : exists tag, rest = tag ++ untagged /\ (tag = "json" \/ tag = "")).
  { unfold untagged. destruct (prefix "json" rest) eqn:Hp.
    - exists "json". split; [apply (prefix_split "json" rest Hp) | left; reflexivity].
    - exists "". split; [reflexivity | right; reflexivity]. }
  destruct Htag as [tag [Hsplit Htag]].
  destruct (trimStart_spec untagged) as [blanks [Hun Hblanks]].
  destruct (beforeFirst_spec fence (trimStart untagged) group Hfence H)
    as [after [Htrim Hgroup]].
  exists before, tag, blanks, after.
  split.
  - rewrite Htext. f_equal. f_equal. rewrite Hsplit. f_equal.
    rewrite Hun at 1. f_equal. exact Htrim.
  - split; [exact Hbefore|]. split; [exact Htag|]. split; [exact Hblanks|].
    split; [exact Hgroup|].
    pose proof (trimStart_head untagged) as Hhead. rewrite Htrim in Hhead.
    destruct group; [exact I | exact Hhead].
Qed.

Lemma fenced_block_is_between_fences_witness :
  exists before tag blanks after,
    fencedAnswer
    = before ++ fence ++ tag ++ blanks ++
      ("{" ++ quoted "intent" ++ ":" ++ quoted "warm" ++ "," ++
       quoted "qualificationScore" ++ ":150}" ++ newline) ++ fence ++ after /\
    includes before fence = false /\
    (tag = "json" \/ tag = "") /\
    allWhiteSpace blanks = true /\
    includes ("{" ++ quoted "intent" ++ ":" ++ quoted "warm" ++ "," ++
              quoted "qualificationScore" ++ ":150}" ++ newline) fence = false /\
    isWhiteSpace "{" = false.
Proof.
  exact (fenced_block_is_between_fences fencedAnswer
           ("{" ++ quoted "intent" ++ ":" ++ quoted "warm" ++ "," ++
            quoted "qualificationScore" ++ ":150}" ++ newline) eq_refl).
Defined.

(** ** Call summary and sentiment *)

Section Analysis.

Import TranscriptAnalysis.

Variable convert : Json -> Exc JsNumber.
Variable config : RuntimeConfig.
Variable provider : AnalysisProvider.
Variable transcript : string.

Lemma client_of_key :
  present (anthropicApiKey config) = true -> getAnthropicClient config = inr tt.
Proof. unfold getAnthropicClient. intros ->. reflexivity. Qed.

Lemma no_client_without_key :
  present (anthropicApiKey config) = false -> getAnthropicClient config = inl ConfigError.
Proof. unfold getAnthropicClient. intros ->. reflexivity. Qed.

Lemma summary_blank :
  blankTranscript (Some transcript) = true ->
  perform (generateCallSummary config provider transcript)
  = (inr "No transcript available for summary.", []).
Proof.
  intros H. unfold perform, generateCallSummary, catching.
  rewrite empty_guard, H. reflexivity.
Qed.

Lemma summary_without_key :
  blankTranscript (Some transcript) = false ->
  present (anthropicApiKey config) = false ->
  perform (generateCallSummary config provider transcript)
  = (inr "Error generating summary.", []).
Proof.
  intros H Hkey. unfold perform, generateCallSummary, catching.
  rewrite empty_guard, H. unfold andThen, liftExc.
  rewrite (no_client_without_key Hkey). reflexivity.
Qed.

Lemma summary_asks :
  blankTranscript (Some transcript) = false ->
  present (anthropicApiKey config) = true ->
  perform (generateCallSummary config provider transcript)
  = (inr match provider (mkAnalysis SummaryTask 256 (substring 0 summaryLength transcript)) with
         | inl _ => "Error generating summary."
         | inr content =>
             match find isTextBlock content with
             | Some (TextBlock text) => trim text
             | _ => "Unable to generate summary."
             end
         end,
     [mkAnalysis SummaryTask 256 (substring 0 summaryLength transcript)]).
Proof.
  intros H Hkey. unfold perform, generateCallSummary, catching.
  rewrite empty_guard, H. unfold andThen, liftExc, create, pure.
  rewrite (client_of_key Hkey). cbn [negb].
  destruct (provider (mkAnalysis SummaryTask 256 (substring 0 summaryLength transcript)))
    as [e|content]; [reflexivity|].
  destruct (find isTextBlock content) as [[text|]|]; reflexivity.
Qed.

Lemma sentiment_blank :
  blankTranscript (Some transcript) = true ->
  perform (analyzeSentiment convert config provider transcript)
  = (inr neutralSentiment, []).
Proof.
  intros H. unfold perform, analyzeSentiment, catching.
  rewrite empty_guard, H. reflexivity.
Qed.

Lemma sentiment_without_key :
  blankTranscript (Some transcript) = false ->
  present (anthropicApiKey config) = false ->
  perform (analyzeSentiment convert config provider transcript)
  = (inr neutralSentiment, []).
Proof.
  intros H Hkey. unfold perform, analyzeSentiment, catching.
  rewrite empty_guard, H. unfold andThen, liftExc.
  rewrite (no_client_without_key Hkey). reflexivity.
Qed.

Lemma sentiment_asks :
  blankTranscript (Some transcript) = false ->
  present (anthropicApiKey config) = true ->
  perform (analyzeSentiment convert config provider transcript)
  = (inr match provider (mkAnalysis SentimentTask 64 (substring 0 sentimentLength transcript)) with
         | inl _ => neutralSentiment
         | inr content =>
             match find isTextBlock content with
             | Some (TextBlock text) =>
                 match JSON.parse (trim text) with
                 | Some result =>
                     match readSentiment convert result with
                     | inr r => r
                     | inl _ => neutralSentiment
                     end
                 | None => neutralSentiment
                 end
             | _ => neutralSentiment
             end
         end,
     [mkAnalysis SentimentTask 64 (substring 0 sentimentLength transcript)]).
Proof.
  intros H Hkey. unfold perform, analyzeSentiment, catching.
  rewrite empty_guard, H. unfold andThen, liftExc, create, pure, throwing.
  rewrite (client_of_key Hkey). cbn [negb].
  destruct (provider (mkAnalysis SentimentTask 64 (substring 0 sentimentLength transcript)))
    as [e|content]; [reflexivity|].
  destruct (find isTextBlock content) as [[text|]|]; try reflexivity.
  destruct (JSON.parse (trim text)) as [result|]; [|reflexivity].
  destruct (readSentiment convert result); reflexivity.
Qed.

Lemma clamp_confidence (n : JsNumber) :
  Math_max (Finite 0) (Math_min (Finite 100) n) = NaN \/
  inRange (Math_max (Finite 0) (Math_min (Finite 100) n)).
Proof.
  destruct n as [q| | |]; simpl.
  - right. destruct (Qle_bool 100 q) eqn:H100; simpl.
    + split; [discriminate | apply Qle_refl].
    + destruct (Qle_bool 0 q) eqn:H0; simpl.
      * apply Qle_bool_iff in H0. split; [exact H0|].
        destruct (Qlt_le_dec 100 q) as [Hlt|Hle]; [|exact Hle].
        apply Qlt_le_weak, Qle_bool_iff in Hlt. congruence.
      * split; [apply Qle_refl | discriminate].
  - right. simpl. split; [discriminate | apply Qle_refl].
  - right. simpl. split; [apply Qle_refl | discriminate].
  - left. reflexivity.
Qed.

Lemma readSentiment_safe (result : Json) (r : Sentiment) :
  readSentiment convert result = inr r ->
  In (sentiment r) validSentiments /\ (confidence r = NaN \/ inRange (confidence r)).
Proof.
  unfold readSentiment. intros H.
  assert (Hlabel : In match getField "sentiment" result with
                     | Some (JStr s) =>
                         if existsb (String.eqb s) validSentiments then s else "neutral"
                     | _ => "neutral"
                     end validSentiments).
  { assert (Hn : In "neutral" validSentiments) by (simpl; tauto).
    destruct (getField "sentiment" result) as [[| | |s| |]|]; try exact Hn.
    destruct (existsb (String.eqb s) validSentiments) eqn:E; [|exact Hn].
    apply existsb_exists in E. destruct E as [x [Hin Heq]].
    apply String.eqb_eq in Heq. subst x. exact Hin. }
  destruct result; try discriminate;
    destruct (toNumber convert _) as [e|n]; try discriminate;
    injection H as <-; (split; [exact Hlabel | apply clamp_confidence]).
Qed.

Lemma neutral_safe :
  In (sentiment neutralSentiment) validSentiments /\
  (confidence neutralSentiment = NaN \/ inRange (confidence neutralSentiment)).
Proof.
  split; [simpl; tauto|]. right. simpl. split; [apply Qle_refl | discriminate].
Qed.

End Analysis.

Import TranscriptAnalysis.

(** X14: [generateCallSummary] never throws and sends at most one
    request. A blank transcript gives "No transcript available for
    summary." with no request; without the Anthropic key the answer is
    "Error generating summary." with no request; otherwise the request
    carries the first 10000 code units of the transcript, untrimmed, and
    the answer is the trimmed text of the first text block, "Unable to
    generate summary." when the response has none, and "Error generating
    summary." when the provider throws. *)
Theorem generateCallSummary_outcomes
    (config : RuntimeConfig) (provider : AnalysisProvider) (transcript : string) :
  exists s sent,
    perform (generateCallSummary config provider transcript) = (inr s, sent) /\
    (blankTranscript (Some transcript) = true ->
       s = "No transcript available for summary." /\ sent = []) /\
    (blankTranscript (Some transcript) = false ->
     present (anthropicApiKey config) = false ->
       s = "Error generating summary." /\ sent = []) /\
    (blankTranscript (Some transcript) = false ->
     present (anthropicApiKey config) = true ->
       sent = [mkAnalysis SummaryTask 256 (substring 0 summaryLength transcript)] /\
       (forall e, provider (mkAnalysis SummaryTask 256 (substring 0 summaryLength transcript))
                  = inl e -> s = "Error generating summary.") /\
       (forall content,
          provider (mkAnalysis SummaryTask 256 (substring 0 summaryLength transcript))
          = inr content ->
          (forall text, find isTextBlock content = Some (TextBlock text) -> s = trim text) /\
          (find isTextBlock content = None -> s = "Unable to generate summary."))).
Proof.
  destruct (blankTranscript (Some transcript)) eqn:Hblank.
  - eexists. eexists. split; [apply (summary_blank config provider transcript Hblank)|].
    repeat split; discriminate.
  - destruct (present (anthropicApiKey config)) eqn:Hkey.
    + eexists. eexists.
      split; [apply (summary_asks config provider transcript Hblank Hkey)|].
      split; [discriminate|]. split; [discriminate|]. intros _ _.
      split; [reflexivity|]. split.
      * intros e He. rewrite He. reflexivity.
      * intros content Hc. rewrite Hc. split.
        { intros text Ht. rewrite Ht. reflexivity. }
        { intros Hnone. rewrite Hnone. reflexivity. }
    + eexists. eexists.
      split; [apply (summary_without_key config provider transcript Hblank Hkey)|].
      split; [discriminate|]. split; [intros _ _; split; reflexivity | discriminate].
Qed.

(** X15: [analyzeSentiment] never throws and sends at most one request;
    whatever the provider does and whatever the answer holds, the
    sentiment it returns is positive, neutral or negative, and the
    confidence is a number from 0 to 100 or NaN (the result of a
    confidence that does not convert to a number). *)
Theorem analyzeSentiment_is_safe
    (convert : Json -> Exc JsNumber) (config : RuntimeConfig) (provider : AnalysisProvider)
    (transcript : string) :
  exists r sent,
    perform (analyzeSentiment convert config provider transcript) = (inr r, sent) /\
    (List.length sent <= 1)%nat /\
    In (sentiment r) ["positive"; "neutral"; "negative"] /\
    (confidence r = NaN \/ inRange (confidence r)).
Proof.
  destruct (blankTranscript (Some transcript)) eqn:Hblank.
  - eexists. eexists.
    split; [apply (sentiment_blank convert config provider transcript Hblank)|].
    split; [simpl; lia | apply neutral_safe].
  - destruct (present (anthropicApiKey config)) eqn:Hkey.
    + eexists. eexists.
      split; [apply (sentiment_asks convert config provider transcript Hblank Hkey)|].
      split; [simpl; lia|].
      destruct (provider _) as [e|content]; [apply neutral_safe|].
      destruct (find isTextBlock content) as [[text|]|]; try apply neutral_safe.
      destruct (JSON.parse (trim text)) as [result|]; [|apply neutral_safe].
      destruct (readSentiment convert result) as [e|r] eqn:Hr; [apply neutral_safe|].
      apply (readSentiment_safe convert result r Hr).
    + eexists. eexists.
      split; [apply (sentiment_without_key convert config provider transcript Hblank Hkey)|].
      split; [simpl; lia | apply neutral_safe].
Qed.

(** X16: when the answer is a bare JSON object whose confidence is a
    number above 0 and at most 100, [analyzeSentiment] returns that
    number as it is, without rounding it, and keeps the sentiment of the
    answer when it is one of the three labels. *)
Theorem sentiment_confidence_is_not_rounded
    (convert : Json -> Exc JsNumber) (config : RuntimeConfig) (provider : AnalysisProvider)
    (transcript text label : string) (content : list ContentBlock)
    (fields : list (string * Json)) (q : Q) :
  blankTranscript (Some transcript) = false ->
  present (anthropicApiKey config) = true ->
  provider (mkAnalysis SentimentTask 64 (substring 0 sentimentLength transcript))
  = inr content ->
  find isTextBlock content = Some (TextBlock text) ->
  JSON.parse (trim text) = Some (JObj fields) ->
  lookup "sentiment" fields = Some (JStr label) ->
  In label ["positive"; "neutral"; "negative"] ->
  lookup "confidence" fields = Some (JNum q) ->
  (0 < q)%Q -> (q <= 100)%Q ->
  exists r c,
    fst (perform (analyzeSentiment convert config provider transcript)) = inr r /\
    sentiment r = label /\ confidence r = Finite c /\ (c == q)%Q.
Proof.
  intros Hblank Hkey Hanswer Htext Hparse Hlabel Hvalid Hconf Hpos Hle.
  rewrite (sentiment_asks convert config provider transcript Hblank Hkey).
  rewrite Hanswer, Htext, Hparse.
  unfold readSentiment, toNumber. cbn [getField fst]. rewrite Hlabel, Hconf.
  assert (Hkeep : existsb (String.eqb label) validSentiments = true).
  { apply existsb_exists. exists label. split; [exact Hvalid | apply String.eqb_refl]. }
  rewrite Hkeep.
  assert (Htruthy : truthyValue (Some (JNum q)) = true).
  { simpl. destruct (Qeq_bool q 0) eqn:E; [|reflexivity].
    apply Qeq_bool_iff in E. rewrite E in Hpos. exfalso. apply (Qlt_irrefl 0 Hpos). }
  rewrite Htruthy. cbn [Math_min].
  destruct (Qle_bool 100 q) eqn:H100; cbn [Math_max].
  - apply Qle_bool_iff in H100.
    eexists. exists 100%Q. split; [reflexivity|]. split; [reflexivity|].
    split; [reflexivity | apply Qle_antisym; assumption].
  - assert (H0 : Qle_bool 0 q = true) by (apply Qle_bool_iff, Qlt_le_weak, Hpos).
    rewrite H0. eexists. exists q. split; [reflexivity|]. split; [reflexivity|].
    split; [reflexivity | apply Qeq_refl].
Qed.

Lemma sentiment_confidence_is_not_rounded_witness :
  exists r c,
    fst (perform (analyzeSentiment convertToNaN anthropicOnly
                    (fun _ => inr [TextBlock bareSentiment]) "Great call, thank you"))
    = inr r /\
    sentiment r = "positive" /\ confidence r = Finite c /\ (c == 875 # 10)%Q.
Proof.
  apply (sentiment_confidence_is_not_rounded convertToNaN anthropicOnly
           (fun _ => inr [TextBlock bareSentiment]) "Great call, thank you" bareSentiment
           "positive" [TextBlock bareSentiment]
           [("sentiment", JStr "positive"); ("confidence", JNum (875 # 10))] (875 # 10));
    try reflexivity.
  - simpl. tauto.
  - unfold Qle. simpl. lia.
Defined.

(** X17: [analyzeSentiment] parses the answer directly and has no
    recovery: when the text of the answer is not bare JSON, such as an
    object wrapped in a fenced block or in prose, the result is sentiment
    neutral with confidence 0, where the qualification parser would have
    recovered the object. *)
Theorem sentiment_needs_bare_json
    (convert : Json -> Exc JsNumber) (config : RuntimeConfig) (provider : AnalysisProvider)
    (transcript text : string) (content : list ContentBlock) :
  provider (mkAnalysis SentimentTask 64 (substring 0 sentimentLength transcript))
  = inr content ->
  find isTextBlock content = Some (TextBlock text) ->
  JSON.parse (trim text) = None ->
  fst (perform (analyzeSentiment convert config provider transcript)) = inr neutralSentiment.
Proof.
  intros Hanswer Htext Hparse.
  destruct (blankTranscript (Some transcript)) eqn:Hblank.
  - rewrite (sentiment_blank convert config provider transcript Hblank). reflexivity.
  - destruct (present (anthropicApiKey config)) eqn:Hkey.
    + rewrite (sentiment_asks convert config provider transcript Hblank Hkey).
      rewrite Hanswer, Htext, Hparse. reflexivity.
    + rewrite (sentiment_without_key convert config provider transcript Hblank Hkey).
      reflexivity.
Qed.

Lemma sentiment_needs_bare_json_witness :
  parseQualificationJson (trim fencedSentiment)
  = JObj [("sentiment", JStr "positive"); ("confidence", JNum (inject_Z 80))] /\
  fst (perform (analyzeSentiment convertToNaN anthropicOnly
                  (fun _ => inr [TextBlock fencedSentiment]) "Great call, thank you"))
  = inr neutralSentiment.
Proof.
  split; [reflexivity|].
  apply (sentiment_needs_bare_json convertToNaN anthropicOnly
           (fun _ => inr [TextBlock fencedSentiment]) "Great call, thank you"
           fencedSentiment [TextBlock fencedSentiment]); reflexivity.
Defined.

(** ** The configuration store and the settings routes *)

Section Store.

Lemma getMissingKeys_nil (config : RuntimeConfig) :
  getMissingKeys config = [] <-> isConfigured config = true.
Proof.
  unfold getMissingKeys, isConfigured.
  destruct (present (vapiApiKey config)), (present (vapiPhoneNumberId config)),
    (present (anthropicApiKey config)); simpl; split; intros H;
    try reflexivity; discriminate.
Qed.

Lemma requireConfig_throws (key : ConfigKey) (config : RuntimeConfig) :
  requireConfig key config = inl ConfigError <-> present (valueOf key config) = false.
Proof.
  unfold requireConfig, present. destruct (valueOf key config) as [value|].
  - destruct (truthy value); split; intros H; try reflexivity; discriminate.
  - split; reflexivity.
Qed.

Lemma present_orNull (value : option string) : present (orNull value) = present value.
Proof. destruct value as [[|c s]|]; reflexivity. Qed.

Lemma orNull_not_empty (value : option string) : orNull value <> Some "".
Proof. destruct value as [[|c s]|]; discriminate. Qed.

End Store.

(** X18: the views of the store agree: [isConfigured] holds exactly
    when [getMissingKeys] lists nothing; a required key is listed exactly
    when [requireConfig] throws for it; the webhook secret is never
    listed, set or not; and the status route reports configured exactly
    when it reports the Vapi key, the phone number id and the Anthropic
    key as set. *)
Theorem missing_keys_agree_with_isConfigured (config : RuntimeConfig) :
  (isConfigured config = true <-> getMissingKeys config = []) /\
  (statusConfigured (getStatus config)
   = hasVapiApiKey (getStatus config) && hasVapiPhoneNumberId (getStatus config)
     && hasAnthropicApiKey (getStatus config) /\
   (statusConfigured (getStatus config) = true <-> missingKeys (getStatus config) = [])) /\
  (forall key, key <> KeyVapiWebhookSecret ->
     (In (keyName key) (getMissingKeys config) <-> requireConfig key config = inl ConfigError)) /\
  ~ In "vapiWebhookSecret" (getMissingKeys config).
Proof.
  split; [symmetry; apply getMissingKeys_nil|].
  split; [split; [reflexivity | symmetry; apply getMissingKeys_nil]|]. split.
  - intros key Hkey. rewrite requireConfig_throws.
    unfold getMissingKeys.
    destruct key; try contradiction; simpl valueOf; simpl keyName;
      destruct (present (vapiApiKey config)), (present (vapiPhoneNumberId config)),
        (present (anthropicApiKey config)); simpl; split; intros H;
        try reflexivity; try tauto; try discriminate;
        repeat (destruct H as [H|H]; try discriminate H); try contradiction.
  - unfold getMissingKeys.
    destruct (present (vapiApiKey config)), (present (vapiPhoneNumberId config)),
      (present (anthropicApiKey config)); simpl; intros H;
      repeat (destruct H as [H|H]; try discriminate H); contradiction.
Qed.

(** X19: after [initializeFromEnv] no key of the store is the empty
    string (an empty variable is stored as null), what was in the store
    before plays no part, and the service is configured exactly when the
    three variables VAPI_API_KEY, VAPI_PHONE_NUMBER_ID and
    ANTHROPIC_API_KEY are set and not empty. *)
Theorem initializeFromEnv_normalises (env : Environment) (before : RuntimeConfig) :
  (forall key, valueOf key (initializeFromEnv env before) <> Some "") /\
  initializeFromEnv env before = initializeFromEnv env emptyConfig /\
  (isConfigured (initializeFromEnv env before) = true <->
     present (VAPI_API_KEY env) = true /\ present (VAPI_PHONE_NUMBER_ID env) = true /\
     present (ANTHROPIC_API_KEY env) = true).
Proof.
  split; [|split].
  - intros key. destruct key; simpl; apply orNull_not_empty.
  - reflexivity.
  - unfold isConfigured, initializeFromEnv. simpl. rewrite !present_orNull.
    rewrite !andb_true_iff. tauto.
Qed.

(** X20: an accepted [POST /api/settings/config] replaces the whole
    store by the body: a key the body leaves out becomes null even if it
    was set before. The flag it reports is [isConfigured] of the new store,
    true exactly when the body gives the Vapi key, a non-empty phone
    number id and the Anthropic key. *)
Theorem postConfig_replaces_the_store
    (vapiCheck anthropicCheck : FetchOutcome) (body : ConfigBody)
    (config config' : RuntimeConfig) (flag : bool) :
  postConfig vapiCheck anthropicCheck body config = (Updated flag, config') ->
  config' = mkConfig (bodyVapiApiKey body) (bodyVapiWebhookSecret body)
                     (bodyVapiPhoneNumberId body) (bodyAnthropicApiKey body) /\
  flag = isConfigured config' /\
  (flag = true <->
     present (bodyVapiApiKey body) = true /\ present (bodyVapiPhoneNumberId body) = true /\
     present (bodyAnthropicApiKey body) = true).
Proof.
  unfold postConfig. intros H.
  destruct (negb (setConfigSchema body)); [discriminate|].
  destruct (present (bodyVapiApiKey body) && vapiKeyRejected vapiCheck); [discriminate|].
  destruct (present (bodyAnthropicApiKey body) && anthropicKeyRejected anthropicCheck);
    [discriminate|].
  injection H as Hflag Hconfig. subst config' flag.
  split; [reflexivity|]. split; [reflexivity|].
  unfold isConfigured, setConfig, bodyAsPartial. simpl.
  rewrite !andb_true_iff. tauto.
Qed.

Lemma postConfig_replaces_the_store_witness :
  isConfigured configured = true /\
  postConfig NetworkError (Responded 200) (mkBody None None None (Some "new-key")) configured
  = (Updated false, mkConfig None None None (Some "new-key")) /\
  (mkConfig None None None (Some "new-key") = mkConfig None None None (Some "new-key") /\
   false = isConfigured (mkConfig None None None (Some "new-key")) /\
   (false = true <->
      present (@None string) = true /\ present (@None string) = true /\
      present (Some "new-key") = true)).
Proof.
  split; [reflexivity|]. split; [reflexivity|].
  exact (postConfig_replaces_the_store NetworkError (Responded 200)
           (mkBody None None None (Some "new-key")) configured
           (mkConfig None None None (Some "new-key")) false eq_refl).
Defined.

(** X21: a [POST /api/settings/config] that is refused (invalid body, or
    a key that its provider answers with status 401) leaves the store as
    it was; and a body that passes the schema is never refused unless a
    key check answers 401: network errors and every other status let the
    keys through. *)
Theorem postConfig_refusals
    (vapiCheck anthropicCheck : FetchOutcome) (body : ConfigBody) (config : RuntimeConfig) :
  (forall reply config',
     postConfig vapiCheck anthropicCheck body config = (reply, config') ->
     (forall flag, reply <> Updated flag) -> config' = config) /\
  (setConfigSchema body = true ->
   vapiCheck <> Responded 401 -> anthropicCheck <> Responded 401 ->
   exists flag, fst (postConfig vapiCheck anthropicCheck body config) = Updated flag).
Proof.
  split.
  - intros reply config' H Hrefused. unfold postConfig in H.
    destruct (negb (setConfigSchema body)); [injection H as _ <-; reflexivity|].
    destruct (present (bodyVapiApiKey body) && vapiKeyRejected vapiCheck);
      [injection H as _ <-; reflexivity|].
    destruct (present (bodyAnthropicApiKey body) && anthropicKeyRejected anthropicCheck);
      [injection H as _ <-; reflexivity|].
    injection H as <- _. exfalso. apply (Hrefused _ eq_refl).
  - intros Hschema Hv Ha. unfold postConfig. rewrite Hschema. simpl negb. cbv iota.
    assert (Hvapi : vapiKeyRejected vapiCheck = false).
    { destruct vapiCheck as [|status]; [reflexivity|]. simpl.
      destruct (Z.eqb_spec status 401) as [->|]; [contradiction|]. apply andb_false_r. }
    assert (Hanth : anthropicKeyRejected anthropicCheck = false).
    { destruct anthropicCheck as [|status]; [reflexivity|]. simpl.
      destruct (Z.eqb_spec status 401) as [->|]; [contradiction | reflexivity]. }
    rewrite Hvapi, Hanth, !andb_false_r. eexists. reflexivity.
Qed.

(** X22: after [DELETE /api/settings/config] the service is not
    configured, all three required keys are reported missing, and a call
    on which no cold-signal rule fires is qualified by the heuristic
    fallback without any request to the model. *)
Theorem deleteConfig_sends_calls_to_fallback
    (config : RuntimeConfig) (provider : Provider) (context : CallContext) :
  checkForColdLeadSignals context = None ->
  isConfigured (snd (deleteConfig config)) = false /\
  getMissingKeys (snd (deleteConfig config))
  = ["vapiApiKey"; "vapiPhoneNumberId"; "anthropicApiKey"] /\
  run (extractQualificationData (snd (deleteConfig config)) provider context)
  = (inr (fallbackAnalysis context), []).
Proof.
  intros Hcold. split; [reflexivity|]. split; [reflexivity|].
  apply (extract_unconfigured _ provider context Hcold). reflexivity.
Qed.

Lemma deleteConfig_sends_calls_to_fallback_witness :
  isConfigured (snd (deleteConfig configured)) = false /\
  getMissingKeys (snd (deleteConfig configured))
  = ["vapiApiKey"; "vapiPhoneNumberId"; "anthropicApiKey"] /\
  run (extractQualificationData (snd (deleteConfig configured)) (answering plainAnswer)
         engagedCall)
  = (inr (fallbackAnalysis engagedCall), []).
Proof.
  apply (deleteConfig_sends_calls_to_fallback configured (answering plainAnswer) engagedCall).
  reflexivity.
Defined.

(** ** The call-ended case of the webhook *)

Section CallEnded.

Variable getTime : string -> option Z.
Variable config : RuntimeConfig.
Variable provider : Provider.

Lemma handleCallEnded_run (callData : Webhooks.CallData) :
  run (Webhooks.handleCallEnded getTime config provider callData)
  = let duration := Webhooks.calculateCallDuration getTime (Webhooks.startedAt callData)
                      (Webhooks.endedAt callData) in
    match run (extractQualificationData config provider (Webhooks.contextOf duration callData))
    with
    | (inr r, sent) =>
        (inr (Webhooks.mkUpdate (Webhooks.statusOfReason (Webhooks.endedReason callData))
                duration (orNull (Webhooks.transcriptOf callData)) r), sent)
    | (inl e, sent) => (inl e, sent)
    end.
Proof.
  unfold run, Webhooks.handleCallEnded, bind, ret. cbv zeta.
  destruct (extractQualificationData config provider _ []) as [[e|r] sent]; reflexivity.
Qed.

Lemma orNull_present (value : option string) : present value = true -> orNull value = value.
Proof. destruct value as [[|c s]|]; try discriminate; reflexivity. Qed.

Lemma reasonIs_present (reason : option string) (label : string) :
  reasonIs reason label = true -> reason = Some label.
Proof.
  unfold reasonIs. destruct reason as [r|]; [|discriminate].
  intros H. apply String.eqb_eq in H. rewrite H. reflexivity.
Qed.

Lemma Math_round_below (x : Z) : Math_round (x # 1000) < 15 <-> x < 14500.
Proof.
  pose proof (Math_round_nearest (x # 1000)) as [Hlo Hhi].
  set (n := Math_round (x # 1000)) in *.
  unfold Qle, Qlt in Hlo, Hhi. simpl in Hlo, Hhi. lia.
Qed.

Lemma concat_head (sep first : string) (others : list string) :
  exists rest, String.concat sep (first :: others) = first ++ rest.
Proof.
  destruct others as [|second others]; simpl.
  - exists EmptyString. induction first as [|c first IH]; simpl; [reflexivity|].
    rewrite <- IH. reflexivity.
  - eexists. reflexivity.
Qed.

Lemma speakerLine_visible (m : Webhooks.Message) (rest : string) :
  allWhiteSpace (Webhooks.speakerLine m ++ rest) = false.
Proof.
  unfold Webhooks.speakerLine. destruct (String.eqb (Webhooks.role m) "assistant"); reflexivity.
Qed.

End CallEnded.

(** X23: a call that the webhook stores as failed or as no_answer never
    reaches the model: the lead is qualified cold with no request sent.
    When the stored duration is under 15 seconds the qualification is the
    one of a call that ended immediately, score 10. When the duration is
    absent or at least 15 seconds, a failed call gets score 10 with
    motivation "Call failed due to technical issues" and an unanswered
    call gets score 15 with motivation
    "Could not reach - went to voicemail". *)
Theorem failed_or_unanswered_call_is_cold
    (getTime : string -> option Z) (config : RuntimeConfig) (provider : Provider)
    (callData : Webhooks.CallData) :
  Webhooks.statusOfReason (Webhooks.endedReason callData) <> Webhooks.completed ->
  exists u,
    run (Webhooks.handleCallEnded getTime config provider callData) = (inr u, []) /\
    Webhooks.callStatus u = Webhooks.statusOfReason (Webhooks.endedReason callData) /\
    Webhooks.callDuration u
    = Webhooks.calculateCallDuration getTime (Webhooks.startedAt callData)
        (Webhooks.endedAt callData) /\
    intent (Webhooks.qualification u) = "cold" /\
    (Webhooks.callStatus u = Webhooks.failed ->
       qualificationScore (Webhooks.qualification u) = 10) /\
    ((exists s, Webhooks.callDuration u = Some s /\ s < 15) ->
       Webhooks.qualification u
       = getColdLeadResult "Call ended immediately - no engagement") /\
    ((forall s, Webhooks.callDuration u = Some s -> 15 <= s) ->
       (Webhooks.callStatus u = Webhooks.failed ->
          Webhooks.qualification u
          = mkResult (JStr "Call failed due to technical issues") (JStr "Unknown")
                     (JStr "Unknown") (JStr "Unknown") (JStr "Unknown") "cold" 10) /\
       (Webhooks.callStatus u = Webhooks.no_answer ->
          Webhooks.qualification u
          = mkResult (JStr "Could not reach - went to voicemail") (JStr "Unknown")
                     (JStr "Unknown") (JStr "Unknown") (JStr "Unknown") "cold" 15)).
Proof.
  intros Hstatus. rewrite handleCallEnded_run. cbv zeta.
  set (d := Webhooks.calculateCallDuration getTime _ _).
  set (context := Webhooks.contextOf d callData).
  assert (Hcold : exists r,
            checkForColdLeadSignals context = Some r /\ intent r = "cold" /\
            (Webhooks.statusOfReason (Webhooks.endedReason callData) = Webhooks.failed ->
               qualificationScore r = 10) /\
            (under d 15 = true ->
               r = getColdLeadResult "Call ended immediately - no engagement") /\
            (under d 15 = false ->
               (Webhooks.statusOfReason (Webhooks.endedReason callData) = Webhooks.failed ->
                  r = mkResult (JStr "Call failed due to technical issues") (JStr "Unknown")
                               (JStr "Unknown") (JStr "Unknown") (JStr "Unknown") "cold" 10) /\
               (Webhooks.statusOfReason (Webhooks.endedReason callData)
                = Webhooks.no_answer ->
                  r = mkResult (JStr "Could not reach - went to voicemail") (JStr "Unknown")
                               (JStr "Unknown") (JStr "Unknown") (JStr "Unknown") "cold" 15))).
  { unfold checkForColdLeadSignals, context, Webhooks.contextOf.
    cbn [duration endedReason].
    unfold Webhooks.statusOfReason in *.
    destruct (under d 15).
    - eexists. split; [reflexivity|]. split; [reflexivity|].
      split; [reflexivity|]. split; [reflexivity | discriminate].
    - destruct (reasonIs (Webhooks.endedReason callData) "voicemail-reached") eqn:Hv.
      + rewrite (reasonIs_present _ _ Hv). simpl.
        eexists. split; [reflexivity|]. split; [reflexivity|].
        split; [discriminate|]. split; [discriminate|]. intros _.
        split; [discriminate | reflexivity].
      + destruct (reasonIs (Webhooks.endedReason callData)
                    "pipeline-error-exceeded-max-retries") eqn:Hp.
        * rewrite (reasonIs_present _ _ Hp). simpl.
          eexists. split; [reflexivity|]. split; [reflexivity|].
          split; [reflexivity|]. split; [discriminate|]. intros _.
          split; [reflexivity | discriminate].
        * destruct (reasonIs (Webhooks.endedReason callData)
                      "phone-call-provider-closed-websocket") eqn:Hw.
          { rewrite (reasonIs_present _ _ Hw). simpl.
            eexists. split; [reflexivity|]. split; [reflexivity|].
            split; [reflexivity|]. split; [discriminate|]. intros _.
            split; [reflexivity | discriminate]. }
          { simpl in Hstatus. contradiction. } }
  destruct Hcold as [r [Hr [Hintent [Hfailed [Hshort Hlong]]]]].
  rewrite (cold_signal_returned config provider context r Hr).
  eexists. split; [reflexivity|].
  cbn [Webhooks.callStatus Webhooks.qualification Webhooks.callDuration].
  split; [reflexivity|]. split; [reflexivity|]. split; [exact Hintent|].
  split; [exact Hfailed|]. split.
  - intros Hs. apply Hshort, under_spec, Hs.
  - intros Hl. apply Hlong. unfold under. destruct d as [s|]; [|reflexivity].
    apply Z.ltb_ge, Hl. reflexivity.
Qed.

Lemma failed_or_unanswered_call_is_cold_witness :
  (exists u,
     run (Webhooks.handleCallEnded sampleClock configured (answering plainAnswer)
            unansweredCall) = (inr u, []) /\
     Webhooks.callStatus u = Webhooks.no_answer /\
     Webhooks.callDuration u = None /\
     intent (Webhooks.qualification u) = "cold" /\
     (Webhooks.callStatus u = Webhooks.failed ->
        qualificationScore (Webhooks.qualification u) = 10) /\
     ((exists s, Webhooks.callDuration u = Some s /\ s < 15) ->
        Webhooks.qualification u
        = getColdLeadResult "Call ended immediately - no engagement") /\
     ((forall s, Webhooks.callDuration u = Some s -> 15 <= s) ->
        (Webhooks.callStatus u = Webhooks.failed ->
           Webhooks.qualification u
           = mkResult (JStr "Call failed due to technical issues") (JStr "Unknown")
                      (JStr "Unknown") (JStr "Unknown") (JStr "Unknown") "cold" 10) /\
        (Webhooks.callStatus u = Webhooks.no_answer ->
           Webhooks.qualification u
           = mkResult (JStr "Could not reach - went to voicemail") (JStr "Unknown")
                      (JStr "Unknown") (JStr "Unknown") (JStr "Unknown") "cold" 15))) /\
  (exists u,
     run (Webhooks.handleCallEnded sampleClock configured (answering plainAnswer)
            briefVoicemailCall) = (inr u, []) /\
     Webhooks.callStatus u = Webhooks.no_answer /\
     Webhooks.callDuration u = Some 14 /\
     intent (Webhooks.qualification u) = "cold" /\
     (Webhooks.callStatus u = Webhooks.failed ->
        qualificationScore (Webhooks.qualification u) = 10) /\
     ((exists s, Webhooks.callDuration u = Some s /\ s < 15) ->
        Webhooks.qualification u
        = getColdLeadResult "Call ended immediately - no engagement") /\
     ((forall s, Webhooks.callDuration u = Some s -> 15 <= s) ->
        (Webhooks.callStatus u = Webhooks.failed ->
           Webhooks.qualification u
           = mkResult (JStr "Call failed due to technical issues") (JStr "Unknown")
                      (JStr "Unknown") (JStr "Unknown") (JStr "Unknown") "cold" 10) /\
        (Webhooks.callStatus u = Webhooks.no_answer ->
           Webhooks.qualification u
           = mkResult (JStr "Could not reach - went to voicemail") (JStr "Unknown")
                      (JStr "Unknown") (JStr "Unknown") (JStr "Unknown") "cold" 15))) /\
  (exists u,
     run (Webhooks.handleCallEnded sampleClock configured (answering plainAnswer)
            droppedCall) = (inr u, []) /\
     Webhooks.qualification u
     = mkResult (JStr "Call failed due to technical issues") (JStr "Unknown")
                (JStr "Unknown") (JStr "Unknown") (JStr "Unknown") "cold" 10).
Proof.
  split; [|split].
  - apply (failed_or_unanswered_call_is_cold sampleClock configured (answering plainAnswer)
             unansweredCall).
    discriminate.
  - apply (failed_or_unanswered_call_is_cold sampleClock configured (answering plainAnswer)
             briefVoicemailCall).
    discriminate.
  - destruct (failed_or_unanswered_call_is_cold sampleClock configured
                (answering plainAnswer) droppedCall) as [u [Hrun [Hst [Hd [_ [_ [_ Hlong]]]]]]];
      [discriminate|].
    exists u. split; [exact Hrun|].
    apply Hlong; [|exact Hst].
    intros s Hs. rewrite Hd in Hs. discriminate.
Defined.

(** X24: the duration stored for a call is the difference of its two
    timestamps rounded to whole seconds, so the under-15-seconds rule
    fires exactly when the call lasted less than 14500 milliseconds: such
    a call is always qualified cold with score 10 and motivation
    "Call ended immediately - no engagement", without a request. *)
Theorem short_call_threshold_in_milliseconds
    (getTime : string -> option Z) (config : RuntimeConfig) (provider : Provider)
    (callData : Webhooks.CallData) (startText endText : string) (start finish : Z) :
  Webhooks.startedAt callData = Some startText -> startText <> "" ->
  Webhooks.endedAt callData = Some endText -> endText <> "" ->
  getTime startText = Some start ->
  getTime endText = Some finish ->
  exists d,
    Webhooks.calculateCallDuration getTime (Webhooks.startedAt callData)
      (Webhooks.endedAt callData) = Some d /\
    nearestInteger d ((finish - start) # 1000) /\
    (d < 15 <-> finish - start < 14500) /\
    (finish - start < 14500 ->
       exists u,
         run (Webhooks.handleCallEnded getTime config provider callData) = (inr u, []) /\
         Webhooks.callDuration u = Some d /\
         Webhooks.qualification u
         = getColdLeadResult "Call ended immediately - no engagement").
Proof.
  intros Hs Hs' He He' Hstart Hfinish.
  assert (Hd : Webhooks.calculateCallDuration getTime (Webhooks.startedAt callData)
                 (Webhooks.endedAt callData)
               = Some (Math_round ((finish - start) # 1000))).
  { unfold Webhooks.calculateCallDuration. rewrite Hs, He.
    destruct startText; [contradiction|]. destruct endText; [contradiction|].
    cbn [orNull truthy]. rewrite Hstart, Hfinish. reflexivity. }
  exists (Math_round ((finish - start) # 1000)).
  split; [exact Hd|]. split; [apply Math_round_nearest|].
  split; [apply Math_round_below|].
  intros Hshort. rewrite handleCallEnded_run, Hd. cbv zeta.
  rewrite (cold_signal_returned config provider _
             (getColdLeadResult "Call ended immediately - no engagement")).
  - eexists. split; [reflexivity|]. split; reflexivity.
  - apply (under_15 _ (Math_round ((finish - start) # 1000))); [reflexivity|].
    apply Math_round_below, Hshort.
Qed.

Lemma short_call_threshold_in_milliseconds_witness :
  exists d,
    Webhooks.calculateCallDuration sampleClock (Webhooks.startedAt briefCall)
      (Webhooks.endedAt briefCall) = Some d /\
    nearestInteger d ((1704067214499 - 1704067200000) # 1000) /\
    (d < 15 <-> 1704067214499 - 1704067200000 < 14500) /\
    (1704067214499 - 1704067200000 < 14500 ->
       exists u,
         run (Webhooks.handleCallEnded sampleClock configured (answering plainAnswer) briefCall)
         = (inr u, []) /\
         Webhooks.callDuration u = Some d /\
         Webhooks.qualification u
         = getColdLeadResult "Call ended immediately - no engagement").
Proof.
  apply (short_call_threshold_in_milliseconds sampleClock configured (answering plainAnswer)
           briefCall "2024-01-01T00:00:00.000Z" "2024-01-01T00:00:14.499Z");
    try reflexivity; discriminate.
Defined.

Section Transcripts.

Lemma filter_nonempty {A : Type} (f : A -> bool) (l : list A) :
  existsb f l = true -> exists first others, filter f l = first :: others.
Proof.
  induction l as [|x l IH]; simpl; [discriminate|].
  destruct (f x); simpl.
  - intros _. exists x, (filter f l). reflexivity.
  - exact IH.
Qed.

Lemma filter_empty {A : Type} (f : A -> bool) (l : list A) :
  existsb f l = false -> filter f l = [].
Proof.
  induction l as [|x l IH]; simpl; [reflexivity|].
  destruct (f x); simpl; [discriminate | exact IH].
Qed.

Lemma transcriptOf_messages (callData : Webhooks.CallData) (ms : list Webhooks.Message) :
  present (Webhooks.transcript callData) = false ->
  Webhooks.messages callData = Some ms ->
  Webhooks.transcriptOf callData
  = Some (String.concat newline (map Webhooks.speakerLine (filter Webhooks.isSpeaker ms))).
Proof.
  intros Hnone Hms. unfold Webhooks.transcriptOf. rewrite Hms, Hnone. reflexivity.
Qed.

Lemma visible_truthy (s : string) : allWhiteSpace s = false -> truthy s = true.
Proof. destruct s; [discriminate | reflexivity]. Qed.

End Transcripts.

(** X25: the transcript the webhook hands to the service. A non-empty
    transcript of the call is used as it is and the messages are ignored.
    Otherwise the lines of the assistant and user messages are used,
    "Agent: ..." and "Lead: ...", and as soon as the call has one such
    message the transcript is not blank, even if every message is empty;
    with no such message, or no messages at all, the service gets no
    transcript. *)
Theorem transcript_handed_to_the_service (d : option Z) (callData : Webhooks.CallData) :
  (present (Webhooks.transcript callData) = true ->
     transcript (Webhooks.contextOf d callData) = Webhooks.transcript callData) /\
  (present (Webhooks.transcript callData) = false ->
     forall ms, Webhooks.messages callData = Some ms ->
       (existsb Webhooks.isSpeaker ms = true ->
          transcript (Webhooks.contextOf d callData)
          = Some (String.concat newline
                    (map Webhooks.speakerLine (filter Webhooks.isSpeaker ms))) /\
          blankTranscript (transcript (Webhooks.contextOf d callData)) = false) /\
       (existsb Webhooks.isSpeaker ms = false ->
          transcript (Webhooks.contextOf d callData) = None)) /\
  (present (Webhooks.transcript callData) = false ->
     Webhooks.messages callData = None ->
     transcript (Webhooks.contextOf d callData) = None).
Proof.
  unfold Webhooks.contextOf. cbn [transcript].
  split; [|split].
  - intros H. unfold Webhooks.transcriptOf.
    destruct (Webhooks.messages callData); rewrite ?H; apply orNull_present, H.
  - intros Hnone ms Hms. rewrite (transcriptOf_messages callData ms Hnone Hms). split.
    + intros Hsome. destruct (filter_nonempty _ _ Hsome) as [first [others Hf]].
      rewrite Hf. cbn [map].
      destruct (concat_head newline (Webhooks.speakerLine first)
                  (map Webhooks.speakerLine others)) as [rest Hrest].
      rewrite Hrest.
      pose proof (speakerLine_visible first rest) as Hvisible.
      rewrite (orNull_present (Some (Webhooks.speakerLine first ++ rest))
                 (visible_truthy _ Hvisible)).
      split; [reflexivity|]. unfold blankTranscript.
      rewrite trim_truthy, Hvisible. reflexivity.
    + intros Hnospeaker. rewrite (filter_empty _ _ Hnospeaker). reflexivity.
  - intros Hnone Hms. unfold Webhooks.transcriptOf. rewrite Hms.
    destruct (Webhooks.transcript callData) as [[|c s]|]; try reflexivity. discriminate.
Qed.

Section HandlerSafety.

Lemma extract_sends_at_most_one
    (config : RuntimeConfig) (provider : Provider) (context : CallContext) :
  (List.length (snd (run (extractQualificationData config provider context))) <= 1)%nat.
Proof.
  destruct (checkForColdLeadSignals context) as [cold|] eqn:Hcold.
  - rewrite (cold_signal_returned config provider context cold Hcold). simpl. lia.
  - destruct (isConfigured config) eqn:Hcfg.
    + destruct (blankTranscript (transcript context)) eqn:Hblank.
      * rewrite (extract_blank config provider context Hcold Hcfg Hblank). simpl. lia.
      * destruct (transcript context) as [t|] eqn:Ht; [|discriminate].
        rewrite (extract_asks_model config provider context t Hcold Hcfg Ht Hblank).
        simpl. lia.
    + rewrite (extract_unconfigured config provider context Hcold Hcfg). simpl. lia.
Qed.

End HandlerSafety.

(** X26: the call-ended case never fails in the qualification step:
    whatever the event holds and whatever the provider does, it issues
    one update whose intent is hot, warm or cold, whose score is between
    0 and 100 and whose text fields are neither null nor empty; it sends
    at most one request to the model; and the transcript it stores is
    never the empty string. *)
Theorem handleCallEnded_always_updates
    (getTime : string -> option Z) (config : RuntimeConfig) (provider : Provider)
    (callData : Webhooks.CallData) :
  exists u sent,
    run (Webhooks.handleCallEnded getTime config provider callData) = (inr u, sent) /\
    (List.length sent <= 1)%nat /\
    wellFormed (Webhooks.qualification u) /\
    Webhooks.storedTranscript u <> Some "" /\
    Webhooks.callStatus u = Webhooks.statusOfReason (Webhooks.endedReason callData).
Proof.
  rewrite handleCallEnded_run. cbv zeta.
  set (d := Webhooks.calculateCallDuration getTime _ _).
  pose proof (extract_sends_at_most_one config provider (Webhooks.contextOf d callData))
    as Hone.
  destruct (extract_wellFormed config provider (Webhooks.contextOf d callData))
    as [r [sent [Hrun Hwf]]].
  rewrite Hrun in *. exists (Webhooks.mkUpdate
    (Webhooks.statusOfReason (Webhooks.endedReason callData)) d
    (orNull (Webhooks.transcriptOf callData)) r), sent.
  split; [reflexivity|]. split; [exact Hone|]. split; [exact Hwf|].
  split; [apply orNull_not_empty | reflexivity].
Qed.

(** ** The extraction prompt *)

Section PromptFacts.

Lemma prefix_refl_app (p b : string) : prefix p (p ++ b) = true.
Proof.
  induction p as [|c p IH]; simpl.
  - destruct b; reflexivity.
  - destruct (ascii_dec c c) as [_|n]; [exact IH | contradiction].
Qed.

Lemma includes_app_right (a b p : string) :
  includes b p = true -> includes (a ++ b) p = true.
Proof.
  intros H. induction a as [|c a IH]; simpl append; [exact H|].
  apply includes_tail, IH.
Qed.

Lemma includes_middle (a p b : string) : includes (a ++ p ++ b) p = true.
Proof. apply includes_app_right, includes_prefix, prefix_refl_app. Qed.

Lemma includes_between (a p b s : string) : s = a ++ p ++ b -> includes s p = true.
Proof. intros ->. apply includes_middle. Qed.

Lemma concat_last (sep last : string) (firsts : list string) :
  exists before, String.concat sep (firsts ++ [last]) = before ++ last.
Proof.
  induction firsts as [|x firsts IH]; simpl.
  - exists EmptyString. reflexivity.
  - destruct IH as [before Hb]. destruct (firsts ++ [last])%list eqn:Hl.
    + destruct firsts; discriminate.
    + exists (x ++ sep ++ before). rewrite Hb, !append_assoc. reflexivity.
Qed.

Lemma contextSection_of_info (context : CallContext) (first : string) (others : list string) :
  Prompt.contextInfo context = first :: others ->
  Prompt.contextSection context
  = newline ++ newline ++ "CALL CONTEXT (Important for qualification):" ++ newline ++
    String.concat newline (first :: others) ++ newline.
Proof. intros H. unfold Prompt.contextSection. rewrite H. reflexivity. Qed.

End PromptFacts.

(** X27: what the prompt says about the call. When the duration is
    present, zero included (and below 10^21 in size, where JavaScript
    prints all its digits), the prompt has the CALL CONTEXT heading
    followed by the line "- Call Duration: N seconds"; when the
    endedReason is a non-empty string it has the line
    "- How Call Ended: reason"; with neither, the prompt is the fixed
    template with nothing in place of the section. In every case the
    prompt carries the rule that only calls with actual conversation and
    engagement should score above 40. *)
Theorem prompt_states_the_call_context (context : CallContext) :
  (forall d, duration context = Some d -> Z.abs d < 10 ^ 21 ->
     includes (Prompt.buildExtractionPrompt context)
       ("CALL CONTEXT (Important for qualification):" ++ newline ++
        "- Call Duration: " ++ Prompt.numberToString d ++ " seconds") = true) /\
  (forall reason, endedReason context = Some reason -> reason <> "" ->
     includes (Prompt.buildExtractionPrompt context)
       ("- How Call Ended: " ++ reason ++ newline) = true) /\
  (duration context = None ->
   endedReason context = None \/ endedReason context = Some "" ->
     Prompt.buildExtractionPrompt context
     = Prompt.promptOpening ++ newline ++ newline ++
       String.concat newline Prompt.promptLines) /\
  includes (Prompt.buildExtractionPrompt context)
    "- Only calls with actual conversation and engagement should score above 40" = true.
Proof.
  split; [|split; [|split]].
  - intros d Hd _. unfold Prompt.buildExtractionPrompt.
    assert (Hinfo : exists others,
              Prompt.contextInfo context
              = ("- Call Duration: " ++ Prompt.numberToString d ++ " seconds") :: others).
    { unfold Prompt.contextInfo. rewrite Hd. eexists. reflexivity. }
    destruct Hinfo as [others Hinfo].
    rewrite (contextSection_of_info context _ _ Hinfo).
    destruct (concat_head newline
                ("- Call Duration: " ++ Prompt.numberToString d ++ " seconds") others)
      as [rest Hrest].
    rewrite Hrest.
    apply (includes_between (Prompt.promptOpening ++ newline ++ newline ++ newline) _
             (rest ++ newline ++ newline ++ String.concat newline Prompt.promptLines)).
    rewrite !append_assoc. reflexivity.
  - intros reason Hr Hne. unfold Prompt.buildExtractionPrompt.
    assert (Hinfo : exists firsts,
              Prompt.contextInfo context
              = (firsts ++ [("- How Call Ended: " ++ reason)%string])%list).
    { unfold Prompt.contextInfo. rewrite Hr.
      destruct reason; [contradiction|]. cbn [truthy]. eexists. reflexivity. }
    destruct Hinfo as [firsts Hinfo].
    destruct (concat_last newline ("- How Call Ended: " ++ reason) firsts) as [before Hb].
    rewrite <- Hinfo in Hb.
    destruct (Prompt.contextInfo context) as [|first others] eqn:Hl.
    + destruct firsts; discriminate.
    + rewrite (contextSection_of_info context first others Hl), Hb.
      apply (includes_between
               (Prompt.promptOpening ++ newline ++ newline ++ newline ++
                "CALL CONTEXT (Important for qualification):" ++ newline ++ before) _
               (newline ++ String.concat newline Prompt.promptLines)).
      rewrite !append_assoc. reflexivity.
  - intros Hd Hr. unfold Prompt.buildExtractionPrompt, Prompt.contextSection,
      Prompt.contextInfo.
    rewrite Hd. destruct Hr as [-> | ->]; reflexivity.
  - unfold Prompt.buildExtractionPrompt.
    apply includes_app_right, includes_app_right, includes_app_right, includes_app_right.
    vm_compute. reflexivity.
Qed.

(** ** More worked examples *)

(** A call without transcript text but with messages: the system message
    is left out and the two speakers give two lines. *)
Example messages_only_call_transcript :
  transcript (Webhooks.contextOf None messagesOnlyCall)
  = Some ("Agent: Hello?" ++ newline ++ "Lead: Yes, tell me more") /\
  snd (run (Webhooks.handleCallEnded sampleClock configured (answering plainAnswer)
              messagesOnlyCall))
  = [mkRequest (Webhooks.contextOf None messagesOnlyCall)
       ("Agent: Hello?" ++ newline ++ "Lead: Yes, tell me more")].
Proof. split; reflexivity. Qed.

(** The message sent for a request: the prompt, then the transcript
    between its two markers. *)
Example message_content_layout :
  includes (Prompt.messageContent (mkRequest engagedCall "Yes, we need it"))
    ("- Call Duration: 200 seconds" ++ newline ++ "- How Call Ended: assistant-ended-call")
  = true /\
  includes (Prompt.messageContent (mkRequest engagedCall "Yes, we need it"))
    ("--- TRANSCRIPT START ---" ++ newline ++ "Yes, we need it" ++ newline ++
     "--- TRANSCRIPT END ---")
  = true.
Proof. split; vm_compute; reflexivity. Qed.
